(** * Title placement and legend glyph styling (plotly.js, Inpixon overlay)

    A shallow embedding of [src/components/titles/index.js] (function
    [draw] with its closures [drawTitle] and [scootTitle]) and of the
    legend [style] module, followed by the properties established about
    them.

    Conventions.  JavaScript numbers are modelled by rationals [Q]
    (finite values); a possibly-[NaN] number is an [option Q] with [None]
    for [NaN].  Leaf values whose JavaScript type matters (flags compared
    with [===], operands of [&&] and [||]) are of type [value].  Objects
    are records; a property that may be absent is an [option].  DOM
    selections are modelled by what they hold: a group holds at most one
    text element and one [transform] attribute. *)

From Stdlib Require Import QArith Qabs Qminmax Qround Lqa Lia ZArith.
From Stdlib Require Import List String Ascii Bool.
Import ListNotations.

Local Open Scope Q_scope.
Local Open Scope string_scope.

(** ** JavaScript values *)

Module JS.

Inductive value : Type :=
| VUndefined
| VNull
| VBool (b : bool)
| VNum (q : Q)
| VNaN
| VStr (s : string).

(** [ToBoolean]. *)
Definition truthy (v : value) : bool :=
  match v with
  | VUndefined | VNull | VNaN => false
  | VBool b => b
  | VNum q => negb (Qeq_bool q 0)
  | VStr s => negb (String.eqb s "")
  end.

(** [a === b] on primitive values. *)
Definition strict_eq (a b : value) : bool :=
  match a, b with
  | VUndefined, VUndefined => true
  | VNull, VNull => true
  | VBool x, VBool y => Bool.eqb x y
  | VNum x, VNum y => Qeq_bool x y
  | VStr x, VStr y => String.eqb x y
  | _, _ => false
  end.

(** [a && b] and [a || b] return one of their operands. *)
Definition and_ (a b : value) : value := if truthy a then b else a.
Definition or_ (a b : value) : value := if truthy a then a else b.

(** [o && o.p] on an object that may be missing. *)
Definition get {A : Type} (o : option A) (p : A -> value) : value :=
  match o with
  | Some a => p a
  | None => VUndefined
  end.

(** [n || d] for a number-valued optional property. *)
Definition num_or (n : option Q) (d : Q) : Q :=
  match n with
  | Some q => if Qeq_bool q 0 then d else q
  | None => d
  end.

(** [s.indexOf(sub) !== -1]. *)
Definition includes (s sub : string) : bool :=
  match String.index 0 sub s with
  | Some _ => true
  | None => false
  end.

(** How a statement completes: normally, or by throwing. *)
Inductive error : Type := ReferenceError | TypeError.

Inductive completion (A : Type) : Type :=
| Normal (a : A)
| Throw (e : error).
Arguments Normal {A} a.
Arguments Throw {A} e.

Definition bind {A B : Type} (c : completion A) (k : A -> completion B)
  : completion B :=
  match c with
  | Normal a => k a
  | Throw e => Throw e
  end.

(** Reading through a reference that is [undefined] throws. *)
Definition deref {A : Type} (o : option A) : completion A :=
  match o with
  | Some a => Normal a
  | None => Throw TypeError
  end.

End JS.

Import JS.

(** ** SVG attribute values *)

(** One function of a [transform] attribute.  The rotation angle is kept
    as the JavaScript value that was concatenated into the string. *)
Inductive transform_fn : Type :=
| Rotate (angle : value) (cx cy : Q)
| Translate (dx dy : Q).

(** A [transform] attribute: [None] is [null] (attribute removed),
    [Some l] the concatenation of the functions of [l] ([Some nil] is the
    empty string). *)
Definition transform_attr : Type := option (list transform_fn).

(** [Lib.strTranslate(x, y)], that is
    [(x || y) ? 'translate(' + x + ',' + y + ')' : '']: the empty string
    when both numbers are 0. *)
Definition strTranslate (x y : Q) : list transform_fn :=
  if Qeq_bool x 0 && Qeq_bool y 0 then [] else [Translate x y].



(** ** Bounding boxes and sides *)

Record BBox : Type := mkBBox {
  left : Q; right : Q; top : Q; bottom : Q; width : Q; height : Q
}.

Inductive Side : Type := SLeft | SRight | STop | SBottom.

(** [bb[side]]. *)
Definition bb_side (b : BBox) (s : Side) : Q :=
  match s with
  | SLeft => left b
  | SRight => right b
  | STop => top b
  | SBottom => bottom b
  end.

(** Modelled from the spec: the table [OPPOSITE_SIDE] of
    [constants/alignment] is not among the sources; it maps a side to the
    opposite side. *)
Definition OPPOSITE_SIDE (s : Side) : Side :=
  match s with
  | SLeft => SRight
  | SRight => SLeft
  | STop => SBottom
  | SBottom => STop
  end.

(** Modelled from the spec: [Lib.bBoxIntersect] is not among the sources;
    two boxes intersect within [pad] when they overlap on both axes once
    grown by [pad]. *)
Definition bBoxIntersect_pad (a b : BBox) (pad : Q) : bool :=
  Qle_bool (left a) (right b + pad) && Qle_bool (left b) (right a + pad) &&
  Qle_bool (top a) (bottom b + pad) && Qle_bool (top b) (bottom a + pad).


(** The [avoid] option of [draw]. *)
Record Avoid : Type := mkAvoid {
  selection : option (list BBox);  (* bounding boxes of the selected nodes *)
  side : option Side;
  pad : option Q;                  (* [None]: not numeric *)
  maxShift : option Q;
  offsetLeft : option Q;
  offsetTop : option Q
}.

(** [options.avoid || {}]. *)
Definition no_avoid : Avoid := mkAvoid None None None None None None.

(** ** Title avoidance *)

Module Scoot.
Section WithIntersect.

Variable bBoxIntersect : BBox -> BBox -> Q -> bool.

Definition shiftSign (s : Side) : Q :=
  match s with
  | SLeft | STop => -1
  | _ => 1
  end.

Definition pad_of (avoid : Avoid) : Q :=
  match pad avoid with
  | Some p => p
  | None => 2
  end.

Definition paperbb (fullWidth fullHeight : Q) : BBox :=
  mkBBox 0 fullWidth 0 fullHeight fullWidth fullHeight.

(** The title box moved by the opposite of the avoided elements' offset. *)
Definition offset_bb (avoid : Avoid) (titlebb : BBox) : BBox :=
  let offL := num_or (offsetLeft avoid) 0 in
  let offT := num_or (offsetTop avoid) 0 in
  mkBBox (left titlebb - offL) (right titlebb - offL)
         (top titlebb - offT) (bottom titlebb - offT)
         (width titlebb) (height titlebb).

(** The clearance an avoided box asks for. *)
Definition clearance (sgn : Q) (s backside : Side) (p : Q)
  (titlebb avoidbb : BBox) : Q :=
  sgn * (bb_side avoidbb s - bb_side titlebb backside) + p.

(** The body of [avoid.selection.each(...)]: one avoided element. *)
Definition each_avoided (sgn : Q) (s backside : Side) (p : Q)
  (titlebb : BBox) (shift : Q) (avoidbb : BBox) : Q :=
  if bBoxIntersect titlebb avoidbb p
  then Qmax shift (clearance sgn s backside p titlebb avoidbb)
  else shift.

(** [shift] after the [if(maxshift < 0) ... else ...] statement. *)
Definition shift_of (sgn : Q) (s backside : Side) (avoid : Avoid)
  (sel : list BBox) (titlebb : BBox) (maxshift : Q) : Q :=
  if Qlt_le_dec maxshift 0 then maxshift
  else
    let p := pad_of avoid in
    let tb := offset_bb avoid titlebb in
    Qmin maxshift (fold_left (each_avoided sgn s backside p tb) sel 0).

(** *** [scootTitle] *)

Definition maxshift_of (avoid : Avoid) (s : Side)
  (fullWidth fullHeight : Q) (titlebb : BBox) : Q :=
  num_or (maxShift avoid)
    (shiftSign s *
       (bb_side (paperbb fullWidth fullHeight) s - bb_side titlebb s)).

Definition shiftTemplate (s : Side) (shift : Q) : Q * Q :=
  match s with
  | SLeft => (- shift, 0)
  | SRight => (shift, 0)
  | STop => (0, - shift)
  | SBottom => (0, shift)
  end.

Definition scoot_shift (avoid : Avoid) (s : Side) (sel : list BBox)
  (fullWidth fullHeight : Q) (titlebb : BBox) : Q :=
  shift_of (shiftSign s) s (OPPOSITE_SIDE s) avoid sel titlebb
    (maxshift_of avoid s fullWidth fullHeight titlebb).

(** Whether [scootTitle] reaches its last [titleGroup.attr] call. *)
Definition scoot_applies (shift maxshift : Q) : bool :=
  (if Qlt_le_dec 0 shift then true else false) ||
  (if Qlt_le_dec maxshift 0 then true else false).

(** [scootTitle]: the [transform] attribute of the title group afterwards.
    [txt] is the title text, [titlebb] what [Drawing.bBox] measures for
    the group once its transform is cleared, [prev] the attribute
    before. *)
Definition scootTitle (avoid : Avoid) (txt : string)
  (fullWidth fullHeight : Q) (titlebb : BBox) (prev : transform_attr)
  : transform_attr :=
  match selection avoid, side avoid with
  | Some sel, Some s =>
      if String.eqb txt "" then prev
      else
        let maxshift := maxshift_of avoid s fullWidth fullHeight titlebb in
        let shift := scoot_shift avoid s sel fullWidth fullHeight titlebb in
        if scoot_applies shift maxshift then
          let '(tx, ty) := shiftTemplate s shift in
          Some (strTranslate tx ty)
        else None
  | _, _ => prev
  end.

(** *** The copy of the avoidance code in the x-axis branch of [draw] *)

(** [xside_both] is [gd.layout.xaxis.side === "both"]. *)
Definition xboth_shiftSign (s : Side) (xside_both : bool) : Q :=
  match s with
  | SLeft => -1
  | _ => if xside_both then -1 else 1
  end.

Definition xboth_maxshift (avoid : Avoid) (s : Side) (xside_both : bool)
  (fullWidth fullHeight : Q) (titlebb : BBox) : Q :=
  num_or (maxShift avoid)
    (xboth_shiftSign s xside_both *
       (top (paperbb fullWidth fullHeight) - height titlebb)).

Definition xboth_shift (avoid : Avoid) (s : Side) (sel : list BBox)
  (xside_both : bool) (fullWidth fullHeight : Q) (titlebb : BBox) : Q :=
  shift_of (xboth_shiftSign s xside_both) s (OPPOSITE_SIDE s) avoid sel titlebb
    (xboth_maxshift avoid s xside_both fullWidth fullHeight titlebb).

Definition xboth_scoot (avoid : Avoid) (txt : string) (xside_both : bool)
  (fullWidth fullHeight : Q) (titlebb : BBox) (prev : transform_attr)
  : transform_attr :=
  match selection avoid, side avoid with
  | Some sel, Some s =>
      if String.eqb txt "" then prev
      else
        let maxshift :=
          xboth_maxshift avoid s xside_both fullWidth fullHeight titlebb in
        let shift :=
          xboth_shift avoid s sel xside_both fullWidth fullHeight titlebb in
        Some (strTranslate shift maxshift)
  | _, _ => prev
  end.

(** *** The copy in the y-axis branch (only for [avoid.side === "left"]) *)

Definition yboth_each (shift : Q) (titlebb avoidbb : BBox) : Q :=
  Qmax shift (shiftSign SLeft * (right avoidbb - top titlebb)).

Definition yboth_shift (avoid : Avoid) (sel : list BBox)
  (fullWidth fullHeight : Q) (titlebb : BBox) : Q :=
  let maxshift := maxshift_of avoid SLeft fullWidth fullHeight titlebb in
  if Qlt_le_dec maxshift 0 then maxshift
  else
    let tb := offset_bb avoid titlebb in
    Qmin maxshift (fold_left (fun sh b => yboth_each sh tb b) sel 0).

Definition yboth_scoot (avoid : Avoid) (txt : string)
  (fullWidth fullHeight : Q) (titlebb : BBox) (prev : transform_attr)
  : transform_attr :=
  match selection avoid, side avoid with
  | Some sel, Some s =>
      if String.eqb txt "" then prev
      else
        match s with
        | SLeft =>
            let maxshift :=
              maxshift_of avoid SLeft fullWidth fullHeight titlebb in
            let shift := yboth_shift avoid sel fullWidth fullHeight titlebb in
            if scoot_applies shift maxshift then
              let '(tx, ty) := shiftTemplate SRight shift in
              Some (strTranslate tx ty)
            else None
        | _ => None
        end
  | _, _ => prev
  end.

End WithIntersect.
End Scoot.

(** ** The user layout [gd.layout] (shared by both modules) *)

(** [gd.layout.legend.inpixonCustomAttribute]. *)
Record Inpixon : Type := mkInpixon {
  xtitletop : value;
  xtitlebottom : value;
  ytitleleft : value;
  ytitleright : value;
  radartitleclockwise : value;
  radartitlecounterclockwise : value;
  disableternaryatitle : value;
  disableternarybtitle : value;
  disableternaryctitle : value;
  boxsizing_size : option value;        (* [boxsizing && boxsizing.size] *)
  symbolplacement_aftertext : value;    (* [symbolplacement && ....aftertext] *)
  symbolstyle_style : value;            (* [symbolstyle && symbolstyle.style] *)
  layering_abovetrace : value;
  itemheight : option Q                 (* a number, or [undefined] *)
}.

Record LayoutTitle : Type := mkLayoutTitle { lt_text : value }.

Record LayoutAxis : Type := mkLayoutAxis {
  la_side : value;
  la_title : option LayoutTitle
}.

Record LayoutLegend : Type := mkLayoutLegend {
  inpixonCustomAttribute : option Inpixon
}.

Record Layout : Type := mkLayout {
  l_xaxis : option LayoutAxis;
  l_yaxis : option LayoutAxis;
  l_legend : option LayoutLegend;
  (** [polar && polar.radialaxis && polar.radialaxis.side] *)
  l_radialaxis_side : value
}.

(** [gd.layout && gd.layout.legend &&
     gd.layout.legend.inpixonCustomAttribute && ....f]. *)
Definition inpixon_flag (layout : option Layout) (f : Inpixon -> value)
  : value :=
  match layout with
  | Some l =>
      match l_legend l with
      | Some lg => JS.get (inpixonCustomAttribute lg) f
      | None => VUndefined
      end
  | None => VUndefined
  end.

(** [gd.layout && gd.layout.xaxis && gd.layout.xaxis.side]. *)
Definition axis_side (layout : option Layout)
  (ax : Layout -> option LayoutAxis) : value :=
  match layout with
  | Some l => JS.get (ax l) la_side
  | None => VUndefined
  end.

(** ** [components/titles]: the function [draw] *)

Module Titles.

(** *** Inputs *)

Definition Meta : Type := list (string * value).

Record Font : Type := mkFont {
  family : value;
  size : option Q;
  color : value
}.

(** [cont.title]. *)
Record Title : Type := mkTitle {
  text : option string;
  font : option Font
}.

(** [options.attributes]. *)
Record Attributes : Type := mkAttributes {
  attr_x : Q;
  attr_y : Q;
  text_anchor : value
}.

(** [options.transform]. *)
Record TransformOpt : Type := mkTransformOpt {
  rotate : value;
  offset : option Q
}.

Record Options : Type := mkOptions {
  propContainer_title : option Title;
  propName : string;
  placeholder : string;
  traceIndex : option Z;
  avoid : option Avoid;
  attributes : Attributes;
  transform : option TransformOpt;
  containerGroup : bool;       (* whether the caller supplies the group *)
  _meta : option Meta
}.

(** An axis of [gd._fullLayout]. *)
Record AnchorAxis : Type := mkAnchorAxis {
  aa_offset : Q;
  aa_length : Q
}.

Record FullAxis : Type := mkFullAxis {
  _id : string;
  title_font_size : Q;          (* [ax.title.font.size] *)
  title_standoff : option Q;    (* [Some]: [ax.title] has its own "standoff" *)
  _depth : Q;
  type : string;
  ticks : string;
  ticklen : Q;
  linewidth : option Q;
  ax_side : string;
  showticklabels : bool;
  anchor : string;
  _anchorAxis : option AnchorAxis;
  position : option Q;
  _offset : Q;
  _length : Q
}.

(** [gd._fullLayout._size]. *)
Record GraphSize : Type := mkGraphSize {
  gs_l : Q; gs_t : Q; gs_w : Q; gs_h : Q
}.

Record FullLayout : Type := mkFullLayout {
  fl_width : Q;
  fl_height : Q;
  fl_meta : option Meta;
  fl_xaxis : option FullAxis;
  fl_yaxis : option FullAxis;
  _size : GraphSize
}.

(** [gd._context.edits]. *)
Record Edits : Type := mkEdits {
  titleText : value;
  axisTitleText : value;
  colorbarTitleText : value
}.

Record GraphDiv : Type := mkGraphDiv {
  _fullLayout : FullLayout;
  layout : option Layout;
  edits : Edits
}.

(** What [Drawing.bBox] measures for the three groups once their
    transform has been cleared. *)
Record Measured : Type := mkMeasured {
  title_bb : BBox;
  xboth_bb : BBox;
  yboth_bb : BBox
}.

(** Functions of other modules that [draw] calls. *)
Class Imports : Type := {
  Color_rgb : value -> value;
  Color_opacity : value -> Q;
  d3_round : option Q -> Z -> option Q;
  Plots_fontWeight : value;
  String_trim : string -> string;
  (** [s.replace(numStripRE, ' % ')] *)
  strip_num : string -> string;
  Lib_templateString : string -> Meta -> string;
  Lib_bBoxIntersect : BBox -> BBox -> Q -> bool
}.

(** *** The document *)

(** The argument of [selection.style({...})]. *)
Record TextStyle : Type := mkTextStyle {
  font_family : value;
  font_size_px : option Q;      (* the number before ["px"] *)
  fill : value;
  style_opacity : value;
  font_weight : value
}.

Record TextEl : Type := mkTextEl {
  el_text : value;
  el_class : string;
  el_transform : transform_attr;
  el_style : option TextStyle;
  el_x : option Q;
  el_y : option Q;
  el_anchor : value;
  el_js_placeholder : bool
}.

(** What [enter().append("text")] creates. *)
Definition new_text : TextEl :=
  mkTextEl (VStr "") "" None None None None VUndefined false.

Record Group : Type := mkGroup {
  g_text : option TextEl;
  g_transform : transform_attr
}.

(** The title group ([g-<titleClass>] or the caller's container) and the
    two groups [g-xtitleboth] and [g-ytitleboth]. *)
Record Dom : Type := mkDom {
  title_group : Group;
  xboth_group : Group;
  yboth_group : Group
}.

(** The local variables of [draw] that are assigned after the closures
    [drawTitle] and [scootTitle] have been created, and [anchorAxis]: the
    [var] declarations inside the axis branches are hoisted, so both
    branches share one variable, [undefined] when [draw] starts. *)
Record Locals : Type := mkLocals {
  v_transform : option TransformOpt;
  v_fontSize : option Q;
  v_opacity : Q;
  v_isplaceholder : bool;
  v_anchorAxis : option AnchorAxis
}.

Record State : Type := mkState {
  dom : Dom;
  locals : Locals
}.

(** *** Statements: state passing with abrupt completion *)

Definition M (A : Type) : Type := State -> State * completion A.

Definition ret {A : Type} (a : A) : M A := fun s => (s, Normal a).

Definition bindM {A B : Type} (m : M A) (k : A -> M B) : M B :=
  fun s =>
    match m s with
    | (s', Normal a) => k a s'
    | (s', Throw e) => (s', Throw e)
    end.

Definition throw {A : Type} (e : error) : M A := fun s => (s, Throw e).

Definition get_locals : M Locals := fun s => (s, Normal (locals s)).

Definition set_locals (f : Locals -> Locals) : M unit :=
  fun s => (mkState (dom s) (f (locals s)), Normal tt).

Definition set_dom (f : Dom -> Dom) : M unit :=
  fun s => (mkState (f (dom s)) (locals s), Normal tt).

(** Reading a property of a reference that may be [undefined]. *)
Definition deref {A : Type} (o : option A) : M A :=
  match o with
  | Some a => ret a
  | None => throw TypeError
  end.

(** *** [draw], up to the creation of the title element *)

Section Draw.

Context {I : Imports}.

Notation "x <- c ;; k" := (bindM c (fun x => k))
  (at level 61, c at next level, right associativity).
Notation "c ;;; k" := (bindM c (fun _ => k))
  (at level 61, right associativity).

(** [gd._context.edits[editAttr]].  The third test of the source is
    [prop.indexOf('colorbar' !== -1)], that is [prop.indexOf(true)], which
    is falsy exactly when [prop] starts with "true". *)
Definition editable_of (prop : string) (e : Edits) : value :=
  if String.eqb prop "title.text" then titleText e
  else if includes prop "axis" then axisTitleText e
  else if negb (String.prefix "true" prop) then colorbarTitleText e
  else VUndefined.

(** [(title && title.text ? title.text : '')]. *)
Definition title_text (title : option Title) : string :=
  match title with
  | Some tl =>
      match text tl with
      | Some s => s
      | None => ""
      end
  | None => ""
  end.

(** [title && title.font ? title.font : {}]. *)
Definition title_font (title : option Title) : Font :=
  match title with
  | Some tl =>
      match font tl with
      | Some f => f
      | None => mkFont VUndefined None VUndefined
      end
  | None => mkFont VUndefined None VUndefined
  end.

(** The values of [txt], [opacity] and [isplaceholder] when
    [elShouldExist] is computed. *)
Record Prologue : Type := mkPrologue {
  p_txt : string;
  p_opacity : Q;
  p_isplaceholder : bool
}.

Definition prologue (gd : GraphDiv) (o : Options) : Prologue :=
  let editable := editable_of (propName o) (edits gd) in
  let txt := String_trim (title_text (propContainer_title o)) in
  let '(txt, opacity, isph) :=
    if String.eqb txt "" then (txt, 0, false)
    else if String.eqb (strip_num txt) (strip_num (placeholder o))
    then ((if truthy editable then txt else ""), 2 # 10, true)
    else (txt, 1, false) in
  let txt :=
    match _meta o with
    | Some m => Lib_templateString txt m
    | None =>
        match fl_meta (_fullLayout gd) with
        | Some m => Lib_templateString txt m
        | None => txt
        end
    end in
  mkPrologue txt opacity isph.

(** [txt || editable], as a condition. *)
Definition elShouldExist (txt : string) (editable : value) : bool :=
  negb (String.eqb txt "") || truthy editable.

(** [selection.text(v)] writes the empty string for [null] and
    [undefined]. *)
Definition d3_text (v : value) : value :=
  match v with
  | VUndefined | VNull => VStr ""
  | _ => v
  end.

(** [sel = g.selectAll("text").data(exists ? [0] : []);
     sel.enter().append("text")]. *)
Definition enter_text (exists_ : bool) (g : Group) : Group :=
  if exists_ then
    match g_text g with
    | Some _ => g
    | None => mkGroup (Some new_text) (g_transform g)
    end
  else g.

(** Applying [f] to the nodes of the update selection. *)
Definition on_text (exists_ : bool) (f : TextEl -> TextEl) (g : Group)
  : Group :=
  if exists_ then
    match g_text g with
    | Some e => mkGroup (Some (f e)) (g_transform g)
    | None => g
    end
  else g.

(** [sel.exit().remove()]. *)
Definition exit_remove (exists_ : bool) (g : Group) : Group :=
  if exists_ then g else mkGroup None (g_transform g).

Definition set_text_class (v : value) (c : string) (e : TextEl) : TextEl :=
  mkTextEl (d3_text v) c (el_transform e) (el_style e) (el_x e) (el_y e)
    (el_anchor e) (el_js_placeholder e).

(** [el.text(v).attr("class", c); el.exit().remove();]. *)
Definition show (exists_ : bool) (v : value) (c : string) (g : Group)
  : Group :=
  exit_remove exists_ (on_text exists_ (set_text_class v c) g).

Definition is_false (v : value) : bool := strict_eq v (VBool false).
Definition is_true (v : value) : bool := strict_eq v (VBool true).
Definition is_str (v : value) (s : string) : bool := strict_eq v (VStr s).

(** The condition under which the x-axis title is blanked. *)
Definition xtitle_hidden (xtitleTop xtitleBottom xaxisSide : value) : bool :=
  (is_false xtitleTop && is_str xaxisSide "top") ||
  (is_false xtitleBottom && is_str xaxisSide "bottom") ||
  (is_false xtitleBottom && is_str xaxisSide "both") ||
  is_str xaxisSide "".

Definition ytitle_hidden (ytitleRight ytitleLeft yaxisSide : value) : bool :=
  (is_false ytitleRight && is_str yaxisSide "right") ||
  (is_false ytitleLeft && is_str yaxisSide "left") ||
  (is_false ytitleLeft && is_str yaxisSide "both") ||
  is_str yaxisSide "".

Definition polartitle_hidden (lay : option Layout) : bool :=
  let rside :=
    match lay with
    | Some ly => l_radialaxis_side ly
    | None => VUndefined
    end in
  (is_false (inpixon_flag lay radartitleclockwise) &&
   is_str rside "clockwise") ||
  (is_false (inpixon_flag lay radartitlecounterclockwise) &&
   is_str rside "counterclockwise").

(** The text [draw] writes into the title element of class [titleClass],
    or [None] when no branch of the source matches the class. *)
Definition title_text_for (gd : GraphDiv) (titleClass : string)
  (txt : string) : option value :=
  let lay := layout gd in
  if String.eqb titleClass "gtitle" then Some (VStr txt)
  else if String.eqb titleClass "xtitle" then
    if xtitle_hidden (inpixon_flag lay xtitletop)
         (inpixon_flag lay xtitlebottom) (axis_side lay l_xaxis)
    then Some (VStr "") else Some (VStr txt)
  else if String.eqb titleClass "ytitle" then
    if ytitle_hidden (inpixon_flag lay ytitleright)
         (inpixon_flag lay ytitleleft) (axis_side lay l_yaxis)
    then Some (VStr "") else Some (VStr txt)
  else if String.eqb titleClass "polartitle" then
    if polartitle_hidden lay then Some (VStr "") else Some (VStr txt)
  else if String.eqb titleClass "atitle" then
    if is_true (inpixon_flag lay disableternaryatitle)
    then Some (VStr txt) else Some (VStr "")
  else if String.eqb titleClass "btitle" then
    if is_true (inpixon_flag lay disableternarybtitle)
    then Some (VStr txt) else Some (VStr "")
  else if String.eqb titleClass "ctitle" then
    if is_true (inpixon_flag lay disableternaryctitle)
    then Some (VStr txt) else Some (VStr "")
  else None.

(** The title group after the chain of [if (titleClass === ...)]
    statements. *)
Definition write_title (gd : GraphDiv) (titleClass : string)
  (txt : string) (exists_ : bool) (g : Group) : Group :=
  let g := enter_text exists_ g in
  match title_text_for gd titleClass txt with
  | Some v => show exists_ v titleClass g
  | None => g
  end.

(** *** The closures [drawTitle], [scootTitle] and [titleLayout] *)

(** [transformVal] in [drawTitle]. *)
Definition transformVal (tr : option TransformOpt) (a : Attributes)
  : transform_attr :=
  match tr with
  | Some tr =>
      Some (List.app
              (if truthy (rotate tr)
               then [Rotate (rotate tr) (attr_x a) (attr_y a)] else [])
              (match offset tr with
               | Some off => if Qeq_bool off 0 then [] else strTranslate 0 off
               | None => []
               end))
  | None => None
  end.

(** [drawTitle(titleEl)] on one text element.  [fontFamily] and
    [fontColor] are never assigned after the prologue; [transform],
    [fontSize] and [opacity] are read from the locals at the time of the
    call.  ([svgTextUtils.convertToTspans] lays the text out and leaves
    these attributes alone.) *)
Definition drawTitle (o : Options) (fnt : Font) (lv : Locals)
  (e : TextEl) : TextEl :=
  let a := attributes o in
  mkTextEl (el_text e) (el_class e)
    (transformVal (v_transform lv) a)
    (Some (mkTextStyle (family fnt)
             (d3_round (v_fontSize lv) 2)
             (Color_rgb (color fnt))
             (VNum (v_opacity lv * Color_opacity (color fnt)))
             Plots_fontWeight))
    (Some (attr_x a)) (Some (attr_y a)) (text_anchor a)
    (el_js_placeholder e).

(** [options.avoid || {}]. *)
Definition avoid_of (o : Options) : Avoid :=
  match avoid o with
  | Some a => a
  | None => no_avoid
  end.

(** [Lib.syncOrAsync([drawTitle, scootTitle], titleEl)] when
    [drawTitle] returns no pending promise: both run in sequence. *)
Definition titleLayout (gd : GraphDiv) (o : Options) (ms : Measured)
  (fnt : Font) (txt : string) : M unit :=
  lv <- get_locals ;;
  set_dom (fun d =>
    let g := on_text true (drawTitle o fnt lv) (title_group d) in
    let g := mkGroup (g_text g)
               (Scoot.scootTitle Lib_bBoxIntersect (avoid_of o) txt
                  (fl_width (_fullLayout gd)) (fl_height (_fullLayout gd))
                  (title_bb ms) (g_transform g)) in
    mkDom g (xboth_group d) (yboth_group d)).

(** *** The axis-side branches *)

(** [s.charAt(0)]. *)
Definition charAt0 (s : string) : string :=
  match s with
  | String c _ => String c EmptyString
  | EmptyString => EmptyString
  end.

(** [approxTitleDepth(ax)]: the identifier is bound nowhere in the
    module, so evaluating the call throws. *)
Definition approxTitleDepth (ax : FullAxis) : M Q := throw ReferenceError.

(** [titleStandoff] as both branches compute it. *)
Definition titleStandoff_of (ax : FullAxis) (axLetter : string)
  (fontSize : Q) : M Q :=
  match title_standoff ax with
  | Some standoff =>
      d <- approxTitleDepth ax ;;
      ret (_depth ax + standoff + d)
  | None =>
      let isInside := false in
      let base :=
        if String.eqb (type ax) "multicategory" then _depth ax
        else
          let offsetBase := (15 # 10) * fontSize in
          let offsetBase :=
            if isInside then
              let ob := (5 # 10) * fontSize in
              if String.eqb (ticks ax) "outside" then ob + ticklen ax else ob
            else offsetBase in
          10 + offsetBase +
          (match linewidth ax with
           | Some lw => if Qeq_bool lw 0 then 0 else lw - 1
           | None => 0
           end) in
      ret
        (if negb isInside then
           if String.eqb axLetter "x" then
             base +
             (if String.eqb (ax_side ax) "top"
              then fontSize * (if showticklabels ax then 1 else 0)
              else fontSize * (if showticklabels ax then 15 # 10 else 5 # 10))
           else
             base +
             (if String.eqb (ax_side ax) "right"
              then fontSize * (if showticklabels ax then 1 else 5 # 10)
              else fontSize * (if showticklabels ax then 5 # 10 else 0))
         else base)
  end.

Definition set_fontSize (fs : Q) (lv : Locals) : Locals :=
  mkLocals (v_transform lv) (Some fs) (v_opacity lv) (v_isplaceholder lv)
    (v_anchorAxis lv).

Definition set_transform (tr : TransformOpt) (lv : Locals) : Locals :=
  mkLocals (Some tr) (v_fontSize lv) (v_opacity lv) (v_isplaceholder lv)
    (v_anchorAxis lv).

Definition set_anchorAxis (aa : option AnchorAxis) (lv : Locals) : Locals :=
  mkLocals (v_transform lv) (v_fontSize lv) (v_opacity lv)
    (v_isplaceholder lv) aa.

Definition rotate_minus_90 : TransformOpt :=
  mkTransformOpt (VStr "-90") (Some 0).

(** The style both duplicates receive; [is_both] is
    [gd.layout.<x|y>axis.side === "both"]. *)
Definition both_style (fnt : Font) (lv : Locals) (is_both : bool)
  : TextStyle :=
  mkTextStyle (family fnt)
    (d3_round (v_fontSize lv) 2)
    (Color_rgb (color fnt))
    (if is_both then VNum (v_opacity lv * Color_opacity (color fnt))
     else VStr "0")
    Plots_fontWeight.

(** [gd.layout.<x|y>axis.title.text], read without guards. *)
Definition layout_axis_title_text (gd : GraphDiv)
  (axis : Layout -> option LayoutAxis) : M value :=
  ly <- deref (layout gd) ;;
  la <- deref (axis ly) ;;
  tl <- deref (la_title la) ;;
  ret (lt_text tl).

Definition set_text (v : value) (e : TextEl) : TextEl :=
  mkTextEl (d3_text v) (el_class e) (el_transform e) (el_style e)
    (el_x e) (el_y e) (el_anchor e) (el_js_placeholder e).

Definition set_style_attrs (st : TextStyle) (a : Attributes) (e : TextEl)
  : TextEl :=
  mkTextEl (el_text e) (el_class e) (el_transform e) (Some st)
    (Some (attr_x a)) (Some (attr_y a)) (text_anchor a)
    (el_js_placeholder e).

Definition set_xy (px py : Q) (e : TextEl) : TextEl :=
  mkTextEl (el_text e) (el_class e) (el_transform e) (el_style e)
    (Some px) (Some py) (el_anchor e) (el_js_placeholder e).

Definition set_el_transform (tr : transform_attr) (e : TextEl) : TextEl :=
  mkTextEl (el_text e) (el_class e) tr (el_style e)
    (el_x e) (el_y e) (el_anchor e) (el_js_placeholder e).

Definition on_xboth (f : Group -> Group) : M unit :=
  set_dom (fun d => mkDom (title_group d) (f (xboth_group d)) (yboth_group d)).

Definition on_yboth (f : Group -> Group) : M unit :=
  set_dom (fun d => mkDom (title_group d) (xboth_group d) (f (yboth_group d))).

Definition one_of (v : value) (ss : list string) : bool :=
  existsb (is_str v) ss.

(** The branch for [xaxisSide] in "both", "bottom", "top". *)
Definition x_branch (gd : GraphDiv) (o : Options) (ms : Measured)
  (fnt : Font) (txt : string) : M unit :=
  let lay := layout gd in
  let fl := _fullLayout gd in
  let xaxisSide := axis_side lay l_xaxis in
  let xtitleTop := inpixon_flag lay xtitletop in
  if one_of xaxisSide ["both"; "bottom"; "top"] then
    ax <- deref (fl_xaxis fl) ;;
    let axLetter := charAt0 (_id ax) in
    let fontSize := title_font_size ax in
    set_locals (set_fontSize fontSize) ;;;
    let gs := _size fl in
    titleStandoff <- titleStandoff_of ax axLetter fontSize ;;
    lv0 <- get_locals ;;
    let anchorAxis :=
      if negb (String.eqb (anchor ax) "free") then _anchorAxis ax
      else if String.eqb axLetter "x" then
        Some (mkAnchorAxis
                (gs_t gs + (1 - num_or (position ax) 0) * gs_h gs) 0)
      else if String.eqb axLetter "y" then
        Some (mkAnchorAxis (gs_l gs + num_or (position ax) 0 * gs_w gs) 0)
      else v_anchorAxis lv0 in
    set_locals (set_anchorAxis anchorAxis) ;;;
    aa <- deref anchorAxis ;;
    xy <- (if String.eqb axLetter "x"
           then ret (_offset ax + _length ax / 2, aa_offset aa - titleStandoff)
           else
             set_locals (set_transform rotate_minus_90) ;;;
             ret (aa_offset aa + titleStandoff, _offset ax + _length ax / 2)) ;;
    (* [group_xboth] is assigned only when no container was supplied *)
    (if containerGroup o then throw TypeError else ret tt) ;;;
    on_xboth (enter_text true) ;;;
    v <- (if truthy xtitleTop && is_str xaxisSide "both"
          then layout_axis_title_text gd l_xaxis
          else ret (VStr "")) ;;
    on_xboth (on_text true (set_text v)) ;;;
    lv <- get_locals ;;
    on_xboth (on_text true
      (fun e => set_xy (fst xy) (snd xy)
                  (set_style_attrs
                     (both_style fnt lv (is_str xaxisSide "both"))
                     (attributes o) e))) ;;;
    on_xboth (fun g =>
      mkGroup (g_text g)
        (Scoot.xboth_scoot Lib_bBoxIntersect (avoid_of o) txt
           (is_str xaxisSide "both") (fl_width fl) (fl_height fl)
           (xboth_bb ms) (g_transform g)))
  else ret tt.

(** The branch for [yaxisSide] in "both", "left", "right". *)
Definition y_branch (gd : GraphDiv) (o : Options) (ms : Measured)
  (fnt : Font) (txt : string) : M unit :=
  let lay := layout gd in
  let fl := _fullLayout gd in
  let yaxisSide := axis_side lay l_yaxis in
  let ytitleRight := inpixon_flag lay ytitleright in
  if one_of yaxisSide ["both"; "left"; "right"] then
    ax <- deref (fl_yaxis fl) ;;
    let axLetter := charAt0 (_id ax) in
    let fontSize := title_font_size ax in
    set_locals (set_fontSize fontSize) ;;;
    let gs := _size fl in
    titleStandoff <- titleStandoff_of ax axLetter fontSize ;;
    lv0 <- get_locals ;;
    (* [var anchorAxis;] does not reset the variable: without an
       assignment it keeps what the x-axis branch left *)
    let anchorAxis :=
      if negb (String.eqb (anchor ax) "free") then _anchorAxis ax
      else if String.eqb axLetter "y" then
        Some (mkAnchorAxis (gs_l gs + num_or (position ax) 0 * gs_w gs) 0)
      else v_anchorAxis lv0 in
    set_locals (set_anchorAxis anchorAxis) ;;;
    let py := _offset ax + _length ax / 2 in
    aa <- deref anchorAxis ;;
    let px := aa_offset aa + aa_length aa + titleStandoff in
    set_locals (set_transform rotate_minus_90) ;;;
    (if containerGroup o then throw TypeError else ret tt) ;;;
    on_yboth (enter_text true) ;;;
    v <- (if truthy ytitleRight && is_str yaxisSide "both"
          then layout_axis_title_text gd l_yaxis
          else ret (VStr "")) ;;
    on_yboth (on_text true (set_text v)) ;;;
    lv <- get_locals ;;
    on_yboth (on_text true
      (fun e => set_xy px py
                  (set_el_transform (Some [Rotate (VNum (-270)) px py])
                     (set_style_attrs
                        (both_style fnt lv (is_str yaxisSide "both"))
                        (attributes o) e)))) ;;;
    on_yboth (fun g =>
      mkGroup (g_text g)
        (Scoot.yboth_scoot (avoid_of o) txt (fl_width fl) (fl_height fl)
           (yboth_bb ms) (g_transform g)))
  else ret tt.

(** *** The end of [draw] and the function itself *)

Definition setPlaceholder (o : Options) : M unit :=
  set_locals (fun lv =>
    mkLocals (v_transform lv) (v_fontSize lv) 0 true (v_anchorAxis lv)) ;;;
  set_dom (fun d =>
    mkDom (on_text true (set_text (VStr (placeholder o))) (title_group d))
      (xboth_group d) (yboth_group d)).

Definition set_js_placeholder (b : bool) (e : TextEl) : TextEl :=
  mkTextEl (el_text e) (el_class e) (el_transform e) (el_style e)
    (el_x e) (el_y e) (el_anchor e) b.

(** The statements after the branches.  Of the listeners installed by
    [svgTextUtils.makeEditable], the one for "cancel" is modelled below
    ([on_cancel]); the others do not call the closures. *)
Definition epilogue (o : Options) (txt : string) (editable : value)
  : M unit :=
  (if truthy editable && String.eqb txt "" then setPlaceholder o
   else ret tt) ;;;
  lv <- get_locals ;;
  set_dom (fun d =>
    mkDom (on_text true (set_js_placeholder (v_isplaceholder lv))
             (title_group d))
      (xboth_group d) (yboth_group d)).

(** The locals when the closures are created. *)
Definition initial_locals (o : Options) (fnt : Font) (p : Prologue)
  : Locals :=
  mkLocals (transform o) (size fnt) (p_opacity p) (p_isplaceholder p) None.

(** [draw(gd, titleClass, options)] run on the document [d]: the document
    and the locals it leaves, and how it completes. *)
Definition draw (gd : GraphDiv) (titleClass : string) (o : Options)
  (ms : Measured) (d : Dom) : State * completion unit :=
  let p := prologue gd o in
  let txt := p_txt p in
  let fnt := title_font (propContainer_title o) in
  let editable := editable_of (propName o) (edits gd) in
  let ex := elShouldExist txt editable in
  let d := mkDom (write_title gd titleClass txt ex (title_group d))
             (xboth_group d) (yboth_group d) in
  let s := mkState d (initial_locals o fnt p) in
  if negb ex then (s, Normal tt)
  else
    (titleLayout gd o ms fnt txt ;;;
     x_branch gd o ms fnt txt ;;;
     y_branch gd o ms fnt txt ;;;
     epilogue o txt editable) s.

(** The listener [draw] installs for the "cancel" event of an editable
    title: [this.text(this.attr('data-unformatted')).call(titleLayout)],
    run in the state [draw] left. *)
Definition on_cancel (gd : GraphDiv) (o : Options) (ms : Measured)
  (unformatted : value) (s : State) : State * completion unit :=
  let p := prologue gd o in
  let fnt := title_font (propContainer_title o) in
  (set_dom (fun d =>
     mkDom (on_text true (set_text unformatted) (title_group d))
       (xboth_group d) (yboth_group d)) ;;;
   titleLayout gd o ms fnt (p_txt p)) s.

End Draw.

End Titles.

(** ** [components/legend/style] *)

Module LegendStyle.

(** *** Inputs *)

(** A piece of a concatenated string: a literal, or a value converted to
    a string by [+] or by a template. *)
Inductive piece : Type :=
| Lit (s : string)
| Val (v : value).

Definition path : Type := list piece.

(** [n / k] for a number that may be [undefined]. *)
Definition div_num (n : option Q) (k : Q) : value :=
  match n with
  | Some q => VNum (q / k)
  | None => VNaN
  end.

Definition num_val (n : option Q) : value :=
  match n with
  | Some q => VNum q
  | None => VUndefined
  end.

(** A color attribute: one value or an array of values. *)
Inductive Color : Type :=
| CVal (v : value)
| CArr (vs : list value).

Definition color_truthy (c : Color) : bool :=
  match c with
  | CVal v => truthy v
  | CArr _ => true
  end.

Record Contours : Type := mkContours {
  coloring : value;
  showlines : value;
  contours_type : value;
  _operation : value
}.

Record Trace : Type := mkTrace {
  type : value;
  visible : value;
  uid : string;
  trace_opacity : value;
  fill : value;
  contours : option Contours;
  vertexcolor : Color;
  facecolor : Color;
  color : Color;
  (** What [extractOpts(trace)] returns. *)
  cOpts_colorscale : option (list (Q * value));
  cOpts_reversescale : value
}.

(** A legend item [d]; the fields are those of [d[0]]. *)
Record Item : Type := mkItem {
  trace : Trace;
  lineHeight : option Q;
  height : option Q
}.

Inductive Valign : Type := VTop | VMiddle | VBottom.

(** The legend object. *)
Record Legend : Type := mkLegend {
  itemsizing : value;
  itemwidth : Q;
  _width : Q;
  valign : Valign;
  hidetoggle : value;
  _inHover : value
}.

(** [gd.data[0]]. *)
Record DataTrace : Type := mkDataTrace {
  mode : value;
  data_contours_coloring : value   (* [contours && contours.coloring] *)
}.

(** The graph div as [style] reads it; [gd.layout] itself is always
    there. *)
Record GraphDiv : Type := mkGraphDiv {
  fullLayout_width : Q;                  (* [gd._fullLayout.width] *)
  layout_legend : option LayoutLegend;   (* [gd.layout.legend] *)
  data0 : option DataTrace
}.

(** The legend objects [style] can be handed: [gd._fullLayout.legend], and
    the object the caller passes, if any. *)
Record Store : Type := mkStore {
  fullLayout_legend : Legend;
  arg_legend : option Legend
}.

(** Values of other modules. *)
Class Imports : Type := {
  itemGap : Q;                            (* [constants.itemGap] *)
  parseInt : value -> option Q;           (* [None] is [NaN] *)
  hasLines : Trace -> value;              (* [subTypes.hasLines] *)
  hasMarkers : Trace -> value;
  hasText : Trace -> value
}.

(** *** What [style] draws for one item *)

Inductive Fill : Type :=
| SolidFill (c : value)
| GradientFill (direction : string) (colorscale : option (list (Q * value))).

Record Glyph : Type := mkGlyph {
  d : path;
  glyph_fill : Fill
}.

(** The value of [useGradient] in [styleSpatial]. *)
Inductive UseGradient : Type := GUnset | GTrue | GRadial | GFalse.

Record StyleGuide : Type := mkStyleGuide {
  showMarker : value;
  showLine : value;
  showFill : value;
  showGradientLine : value;
  showGradientFill : value;
  anyLine : value;
  anyFill : value
}.

(** The paths [styleLines] leaves in [.legendfill] and [.legendlines]. *)
Record Lines : Type := mkLines {
  pathStart : string;
  fill_path : option path;
  line_path : option path
}.

(** The paths [stylePoints] leaves in [g.legendpoints]. *)
Record Points : Type := mkPoints {
  marker_path : bool;
  point_text : bool
}.

(** *** The first pass of [style]: position of the glyph layer *)

Section Style.

Context {I : Imports}.

Notation "x <- c ;; k" := (JS.bind c (fun x => k))
  (at level 61, c at next level, right associativity).

(** [gd.layout.legend && gd.layout.legend.inpixonCustomAttribute]. *)
Definition inpixon_of (gd : GraphDiv) : option Inpixon :=
  match layout_legend gd with
  | Some lg => inpixonCustomAttribute lg
  | None => None
  end.

(** [gd.layout.legend && ... && ....inpixonCustomAttribute.f]. *)
Definition chain (gd : GraphDiv) (f : Inpixon -> value) : value :=
  JS.get (inpixon_of gd) f.

Definition boxsizing_chain (gd : GraphDiv) : value :=
  chain gd (fun i => match boxsizing_size i with
                     | Some v => v
                     | None => VUndefined
                     end).

(** The transform the layer gets from the vertical alignment. *)
Definition valign_transform (legend : Legend) (it : Item) : transform_attr :=
  match valign legend, lineHeight it, height it with
  | VMiddle, _, _ => None
  | v, Some lh, Some ht =>
      if Qeq_bool lh 0 || Qeq_bool ht 0 then None
      else
        let factor := match v with VTop => 1 | _ => -1 end in
        let markerOffsetY := factor * ((5 # 10) * (lh - ht + 3)) in
        Some (strTranslate 0 markerOffsetY)
  | _, _, _ => None
  end.

Definition boxSizingAttribute (gd : GraphDiv) : option Q :=
  parseInt (boxsizing_chain gd).

Definition isBoxSizingValid (legend : Legend) (gd : GraphDiv) : bool :=
  match boxSizingAttribute gd with
  | Some b => Qle_bool 0 b &&
              negb (Qle_bool (fullLayout_width gd) (_width legend))
  | None => false
  end.

Definition aftertext (gd : GraphDiv) : bool :=
  strict_eq (chain gd symbolplacement_aftertext) (VBool true).

(** The [transform] attribute of [g.layers] after the first callback of
    [s.each]. *)
Definition layers_transform (legend : Legend) (gd : GraphDiv) (it : Item)
  : transform_attr :=
  let t0 := valign_transform legend it in
  if aftertext gd then
    let moveLegendSymbolBy :=
      _width legend - itemwidth legend - 2 * itemGap in
    let moveLegendSymbolBy :=
      match boxSizingAttribute gd with
      | Some b =>
          if isBoxSizingValid legend gd
          then _width legend - itemwidth legend - 2 * itemGap - b * (5 # 10)
          else moveLegendSymbolBy
      | None => moveLegendSymbolBy
      end in
    Some (strTranslate moveLegendSymbolBy 0)
  else
    match boxSizingAttribute gd with
    | Some b =>
        if isBoxSizingValid legend gd
        then Some (strTranslate (b * (5 # 10)) 0)
        else t0
    | None => t0
    end.

(** *** [styleSpatial] *)

Definition getGradientDirection (reversescale : value) (isRadial : bool)
  : string :=
  let str := if isRadial then "radial" else "horizontal" in
  str ++ (if truthy reversescale then "" else "reversed").

(** The [switch(trace.type)] of [styleSpatial]: [ptsData] (each entry
    reduced to its path [dd[0]]) and [useGradient]. *)
Definition spatial_switch (ty : value) (itemheight : option Q)
  : list path * UseGradient :=
  match ty with
  | VStr ty =>
      if String.eqb ty "histogram2d" || String.eqb ty "heatmap" then
        ([[Lit "M-15,-"; Val (div_num itemheight 15); Lit "V";
           Val (div_num itemheight 5); Lit "H15V-";
           Val (div_num itemheight 15); Lit "Z"]], GTrue)
      else if String.eqb ty "choropleth" || String.eqb ty "choroplethmapbox"
      then
        ([[Lit "M-6,-6V"; Val (div_num itemheight 5); Lit "H6V-6Z"]], GTrue)
      else if String.eqb ty "densitymapbox" then
        ([[Lit "M-6,0 a6,6 0 1,0 12,0 a 6,6 0 1,0 -12,0"]], GRadial)
      else if String.eqb ty "cone" then
        ([[Lit "M-6,2 A2,2 0 0,0 -6,6 V6L6,4Z"];
          [Lit "M-6,-6 A2,2 0 0,0 -6,-2 L6,-4Z"];
          [Lit "M-6,-2 A2,2 0 0,0 -6,2 L6,0Z"]], GFalse)
      else if String.eqb ty "streamtube" then
        ([[Lit "M-6,2 A2,2 0 0,0 -6,6 H6 A2,2 0 0,1 6,2 Z"];
          [Lit "M-6,-6 A2,2 0 0,0 -6,-2 H6 A2,2 0 0,1 6,-6 Z"];
          [Lit "M-6,-2 A2,2 0 0,0 -6,2 H6 A2,2 0 0,1 6,-2 Z"]], GFalse)
      else if String.eqb ty "surface" then
        ([[Lit "M-6,-6 A2,3 0 0,0 -6,0 H6 A2,3 0 0,1 6,-6 Z"];
          [Lit "M-6,1 A2,3 0 0,1 -6,6 H6 A2,3 0 0,0 6,0 Z"]], GTrue)
      else if String.eqb ty "mesh3d" then
        ([[Lit "M-6,6H0L-6,-6Z"]; [Lit "M6,6H0L6,-6Z"];
          [Lit "M-6,-6H6L0,6Z"]], GFalse)
      else if String.eqb ty "volume" then
        ([[Lit "M-6,6H0L-6,-6Z"]; [Lit "M6,6H0L6,-6Z"];
          [Lit "M-6,-6H6L0,6Z"]], GTrue)
      else if String.eqb ty "isosurface" then
        ([[Lit "M-6,6H0L-6,-6Z"]; [Lit "M6,6H0L6,-6Z"];
          [Lit "M-6,-6 A12,24 0 0,0 6,-6 L0,6Z"]], GFalse)
      else ([], GUnset)
  | _ => ([], GUnset)
  end.

(** [ptsData] and [useGradient] before the data join. *)
Definition spatial_ptsData (tr : Trace) (itemheight : option Q)
  : list path * UseGradient :=
  if truthy (visible tr) then spatial_switch (type tr) itemheight
  else ([], GUnset).

(** [!useGradient]. *)
Definition no_gradient (g : UseGradient) : bool :=
  match g with
  | GUnset | GFalse => true
  | GTrue | GRadial => false
  end.

Definition is_radial (g : UseGradient) : bool :=
  match g with
  | GRadial => true
  | _ => false
  end.

(** [fillColor] for the [i]-th path. *)
Definition spatial_fillColor (tr : Trace) (g : UseGradient) (i : nat)
  : completion value :=
  match cOpts_colorscale tr with
  | None =>
      let c :=
        if color_truthy (vertexcolor tr) then vertexcolor tr
        else if color_truthy (facecolor tr) then facecolor tr
        else color tr in
      Normal (match c with
              | CArr vs => or_ (nth i vs VUndefined) (nth 0 vs VUndefined)
              | CVal v => v
              end)
  | Some colorscale =>
      if no_gradient g then
        let len := List.length colorscale in
        let idx :=
          match i with
          | O => if truthy (cOpts_reversescale tr) then (len - 1)%nat else O
          | S O => if truthy (cOpts_reversescale tr) then O else (len - 1)%nat
          | _ => ((len - 1) / 2)%nat
          end in
        stop <- JS.deref (nth_error colorscale idx) ;;
        Normal (snd stop)
      else Normal VUndefined
  end.

(** The callback of [pts.each] in [styleSpatial]: the fill color when
    there is one, else [fillGradient].  [Drawing.gradient], which is not
    among the sources, reads [colorscale.length] first, so that without a
    colorscale the call raises a TypeError. *)
Definition spatial_glyph (tr : Trace) (g : UseGradient) (i : nat)
  (dd : path) : completion Glyph :=
  fillColor <- spatial_fillColor tr g i ;;
  if truthy fillColor then Normal (mkGlyph dd (SolidFill fillColor))
  else
    colorscale <- JS.deref (cOpts_colorscale tr) ;;
    Normal (mkGlyph dd
              (GradientFill
                 (getGradientDirection (cOpts_reversescale tr) (is_radial g))
                 (Some colorscale))).

Fixpoint each_indexed {A B : Type} (f : nat -> A -> completion B)
  (i : nat) (xs : list A) : completion (list B) :=
  match xs with
  | [] => Normal []
  | a :: r =>
      b <- f i a ;;
      bs <- each_indexed f (S i) r ;;
      Normal (b :: bs)
  end.

(** [gd.layout.legend.inpixonCustomAttribute.itemheight], read without
    guards. *)
Definition read_itemheight (gd : GraphDiv) : completion (option Q) :=
  lg <- JS.deref (layout_legend gd) ;;
  inp <- JS.deref (inpixonCustomAttribute lg) ;;
  Normal (itemheight inp).

(** [styleSpatial(d)]: the [path.legend3dandfriends] elements of the
    item. *)
Definition styleSpatial (gd : GraphDiv) (it : Item)
  : completion (list Glyph) :=
  let tr := trace it in
  ih <- read_itemheight gd ;;
  let '(ptsData, useGradient) := spatial_ptsData tr ih in
  each_indexed (spatial_glyph tr useGradient) O ptsData.

(** *** [getStyleGuide], [styleLines] and [stylePoints] *)

Definition is_str (v : value) (s : string) : bool := strict_eq v (VStr s).

(** [hidetoggle ? false : v]. *)
Definition unless (hidetoggle v : value) : value :=
  if truthy hidetoggle then VBool false else v.

Definition getStyleGuide (it : Item) (hidetoggle : value) : StyleGuide :=
  let tr := trace it in
  let showLine := hasLines tr in
  let showMarker := hasMarkers tr in
  let showFill :=
    and_ (and_ (visible tr) (fill tr))
         (VBool (negb (is_str (fill tr) "none"))) in
  let showGradientLine := VBool false in
  let showGradientFill := VBool false in
  let '(showLine, showGradientLine, showFill, showGradientFill) :=
    match contours tr with
    | Some c =>
        let '(showLine, showGradientLine) :=
          if is_str (coloring c) "lines" then (showLine, VBool true)
          else (or_ (or_ (VBool (is_str (coloring c) "none"))
                         (VBool (is_str (coloring c) "heatmap")))
                    (showlines c),
                showGradientLine) in
        let '(showFill, showGradientFill) :=
          if is_str (contours_type c) "constraint"
          then (VBool (negb (is_str (_operation c) "=")), showGradientFill)
          else if is_str (coloring c) "fill" || is_str (coloring c) "heatmap"
          then (showFill, VBool true)
          else (showFill, showGradientFill) in
        (showLine, showGradientLine, showFill, showGradientFill)
    | None => (showLine, showGradientLine, showFill, showGradientFill)
    end in
  mkStyleGuide
    (unless hidetoggle showMarker)
    (unless hidetoggle showLine)
    (unless hidetoggle showFill)
    (unless hidetoggle showGradientLine)
    (unless hidetoggle showGradientFill)
    (or_ showLine showGradientLine)
    (or_ showFill showGradientFill).

(** [symbolStyle === "markers" || symbolStyle === "none"]. *)
Definition hides_lines (symbolStyle : value) : bool :=
  is_str symbolStyle "markers" || is_str symbolStyle "none".

Definition set_itemwidth (iw : Q) (lg : Legend) : Legend :=
  mkLegend (itemsizing lg) iw (_width lg) (valign lg) (hidetoggle lg)
    (_inHover lg).

(** The assignment [styleLines] makes to the legend object. *)
Definition styleLines_legend (gd : GraphDiv) (lg : Legend) : Legend :=
  if is_str (chain gd symbolstyle_style) "none"
  then set_itemwidth 0 lg else lg.

Definition pathStart_of (tr : Trace) (sg : StyleGuide) : string :=
  if truthy (or_ (hasMarkers tr) (VBool (negb (truthy (anyFill sg)))))
  then "M5,0"
  else if truthy (anyLine sg) then "M5,-2" else "M5,-3".

(** [styleLines(d)]; [itemWidth] is the variable of [style].  The stroke
    and fill styling done through [Drawing] is left out. *)
Definition styleLines (gd : GraphDiv) (itemWidth : Q) (lg : Legend)
  (it : Item) : Legend * completion Lines :=
  let sg := getStyleGuide it (hidetoggle lg) in
  let symbolStyle := chain gd symbolstyle_style in
  let showFill := if hides_lines symbolStyle then VBool false
                  else showFill sg in
  let showLine := if hides_lines symbolStyle then VBool false
                  else showLine sg in
  let lg' := styleLines_legend gd lg in
  let tr := trace it in
  let ps := pathStart_of tr sg in
  (lg',
   ih <- read_itemheight gd ;;
   let fillp :=
     if truthy (or_ showFill (showGradientFill sg))
     then Some [Lit ps; Lit "h"; Val (VNum itemWidth); Lit "v";
                Val (div_num ih 5); Lit "h-"; Val (VNum itemWidth); Lit "z"]
     else None in
   d0 <- JS.deref (data0 gd) ;;
   let tail :=
     if truthy (showGradientLine sg)
     then [Lit "l"; Val (VNum itemWidth); Lit ",0.0001"]
     else if is_str (mode d0) "markers+lines" ||
             is_str (data_contours_coloring d0) "fill"
     then [Lit "h"; Val (VNum itemWidth)]
     else [Lit "h"; Val (num_val ih)] in
   let linep :=
     if truthy (or_ showLine (showGradientLine sg))
     then Some (Lit ps :: tail) else None in
   Normal (mkLines ps fillp linep)).

(** [stylePoints(d)]: whether a [path.scatterpts] and a [g.pointtext]
    are left in the item. *)
Definition stylePoints (gd : GraphDiv) (lg : Legend) (it : Item) : Points :=
  let sg := getStyleGuide it (hidetoggle lg) in
  let symbolStyle := chain gd symbolstyle_style in
  let showMarker :=
    if is_str symbolStyle "lines" || is_str symbolStyle "none"
    then VBool false else showMarker sg in
  let showText :=
    negb (truthy showMarker) && negb (truthy (anyLine sg)) &&
    negb (truthy (anyFill sg)) && truthy (hasText (trace it)) in
  mkPoints (truthy showMarker) showText.

(** *** [style] *)

Record Output : Type := mkOutput {
  centerTransform : list transform_fn;
  layers : list transform_attr;
  spatial : list (list Glyph);
  lines : list Lines;
  points : list Points
}.

(** [if(!legend) legend = fullLayout.legend]: the object [style] works
    on, and writing it back to where it lives. *)
Definition the_legend (st : Store) : Legend :=
  match arg_legend st with
  | Some lg => lg
  | None => fullLayout_legend st
  end.

Definition put_legend (st : Store) (lg : Legend) : Store :=
  match arg_legend st with
  | Some _ => mkStore (fullLayout_legend st) (Some lg)
  | None => mkStore lg None
  end.

Fixpoint each {A B : Type} (f : A -> completion B) (xs : list A)
  : completion (list B) :=
  match xs with
  | [] => Normal []
  | a :: r =>
      b <- f a ;;
      bs <- each f r ;;
      Normal (b :: bs)
  end.

(** [s.each(styleLines)]: the legend object is threaded through the
    calls. *)
Fixpoint each_styleLines (gd : GraphDiv) (itemWidth : Q) (lg : Legend)
  (items : list Item) : Legend * completion (list Lines) :=
  match items with
  | [] => (lg, Normal [])
  | it :: r =>
      match styleLines gd itemWidth lg it with
      | (lg', Normal ln) =>
          match each_styleLines gd itemWidth lg' r with
          | (lg'', Normal lns) => (lg'', Normal (ln :: lns))
          | (lg'', Throw e) => (lg'', Throw e)
          end
      | (lg', Throw e) => (lg', Throw e)
      end
  end.

(** [style(s, gd, legend)] on the items of the selection [s].  Of the
    chain of [each] calls, the first callback, [styleSpatial],
    [styleLines] and [stylePoints] are modelled; the callbacks for
    waterfall, funnel, bar, box, funnelarea, pie, candlestick and ohlc
    traces draw other glyphs and do not assign to the legend object;
    they are taken to complete, so that an error [style] is shown to
    raise is one of the callbacks embedded here. *)
Definition style (items : list Item) (gd : GraphDiv) (st : Store)
  : Store * completion Output :=
  let legend := the_legend st in
  let itemWidth := itemwidth legend in
  let centerPos := (itemWidth + itemGap * 2) / 2 in
  let centerTransform := strTranslate centerPos 0 in
  let layers := map (layers_transform legend gd) items in
  match each (styleSpatial gd) items with
  | Throw e => (st, Throw e)
  | Normal spatial =>
      match each_styleLines gd itemWidth legend items with
      | (legend', Throw e) => (put_legend st legend', Throw e)
      | (legend', Normal lines) =>
          let points := map (stylePoints gd legend') items in
          (put_legend st legend',
           Normal (mkOutput centerTransform layers spatial lines points))
      end
  end.

End Style.

End LegendStyle.

(** ** [components/legend/style]: bounded widths and sizes *)

Module LegendBounds.

Definition CST_MARKER_SIZE : Q := 12.
Definition CST_LINE_WIDTH : Q := 5.
Definition CST_MARKER_LINE_WIDTH : Q := 2.
Definition MAX_LINE_WIDTH : Q := 10.
Definition MAX_MARKER_LINE_WIDTH : Q := 5.

(** [trace.line], [marker.line], [increasing.line], ...: an object with
    a [width]. *)
Record Line : Type := mkLine {
  width : option Q
}.

(** [legend.itemsizing === 'constant']. *)
Definition constantItemSizing (legend : LegendStyle.Legend) : bool :=
  strict_eq (LegendStyle.itemsizing legend) (VStr "constant").

(** [boundLineWidth(mlw, cont, max, cst)]; [mlw] is a number or
    [undefined]. *)
Definition boundLineWidth (legend : LegendStyle.Legend) (mlw : option Q)
  (cont : option Line) (max cst : Q) : Q :=
  let bounded v := if constantItemSizing legend then cst else Qmin v max in
  let from_cont :=
    match cont with
    | Some c =>
        match width c with
        | Some w => if Qlt_le_dec 0 w then bounded w else 0
        | None => 0
        end
    | None => 0
    end in
  match mlw with
  | Some m => if Qeq_bool (m + 1) 0 then from_cont else bounded m
  | None => from_cont
  end.

(** The width [styleLines] gives the legend line. *)
Definition line_width (legend : LegendStyle.Legend) (line : option Line)
  : Q :=
  boundLineWidth legend None line MAX_LINE_WIDTH CST_LINE_WIDTH.

(** The stroke width of the box, candlestick, ohlc and waterfall
    glyphs. *)
Definition stroke_width (legend : LegendStyle.Legend) (line : option Line)
  : Q :=
  boundLineWidth legend None line MAX_MARKER_LINE_WIDTH
    CST_MARKER_LINE_WIDTH.

(** The stroke width of the bar-like glyphs, [d0.mlw] first. *)
Definition bar_stroke_width (legend : LegendStyle.Legend) (mlw : option Q)
  (line : option Line) : Q :=
  boundLineWidth legend mlw line MAX_MARKER_LINE_WIDTH
    CST_MARKER_LINE_WIDTH.

(** [boundVal] of [stylePoints] from [valToBound] on, for an attribute
    that is a number or [undefined]; [cst] and [bounds] may be left
    out. *)
Definition boundVal (legend : LegendStyle.Legend) (valToBound : option Q)
  (bounds : option (Q * Q)) (cst : option Q) : option Q :=
  let valToBound :=
    match valToBound, cst with
    | Some q, Some c =>
        if constantItemSizing legend && negb (Qeq_bool q 0)
        then Some c else Some q
    | _, _ => valToBound
    end in
  match bounds, valToBound with
  | Some (lo, hi), Some q =>
      if Qlt_le_dec q lo then Some lo
      else if Qlt_le_dec hi q then Some hi
      else Some q
  | _, _ => valToBound
  end.

(** The edits [stylePoints] makes when the marker is shown. *)
Definition marker_opacity (legend : LegendStyle.Legend) (v : option Q)
  : option Q :=
  boundVal legend v (Some (2 # 10, 1)) None.

Definition marker_line_width (legend : LegendStyle.Legend) (v : option Q)
  : option Q :=
  boundVal legend v (Some (0, 5)) (Some CST_MARKER_LINE_WIDTH).

Definition marker_size (legend : LegendStyle.Legend) (v : option Q)
  : option Q :=
  boundVal legend v (Some (2, 16)) (Some CST_MARKER_SIZE).

(** ... and when the line is shown. *)
Definition point_line_width (legend : LegendStyle.Legend) (v : option Q)
  : option Q :=
  boundVal legend v (Some (0, 10)) (Some CST_LINE_WIDTH).

End LegendBounds.

(** ** Notions used to state the properties *)


(** A statement leaves the observation [obs] of the state unchanged,
    however it completes. *)
Definition preserves {A X : Type} (obs : Titles.State -> X) (m : Titles.M A)
  : Prop :=
  forall s, obs (fst (m s)) = obs s.

Definition title_transform (s : Titles.State) : transform_attr :=
  Titles.g_transform (Titles.title_group (Titles.dom s)).

(** One run of the avoidance code: the bound and the shift it computed,
    and the [transform] attribute it left on the group. *)
Record Avoidance : Type := mkAvoidance {
  av_maxshift : Q;
  av_shift : Q;
  av_after : transform_attr
}.

Definition scootTitle_run (isect : BBox -> BBox -> Q -> bool)
  (avoid : Avoid) (s : Side) (sel : list BBox) (txt : string)
  (fullWidth fullHeight : Q) (titlebb : BBox) (prev : transform_attr)
  : Avoidance :=
  mkAvoidance
    (Scoot.maxshift_of avoid s fullWidth fullHeight titlebb)
    (Scoot.scoot_shift isect avoid s sel fullWidth fullHeight titlebb)
    (Scoot.scootTitle isect avoid txt fullWidth fullHeight titlebb prev).

Definition xboth_run (isect : BBox -> BBox -> Q -> bool)
  (avoid : Avoid) (s : Side) (sel : list BBox) (txt : string)
  (xside_both : bool) (fullWidth fullHeight : Q) (titlebb : BBox)
  (prev : transform_attr) : Avoidance :=
  mkAvoidance
    (Scoot.xboth_maxshift avoid s xside_both fullWidth fullHeight titlebb)
    (Scoot.xboth_shift isect avoid s sel xside_both fullWidth fullHeight
       titlebb)
    (Scoot.xboth_scoot isect avoid txt xside_both fullWidth fullHeight
       titlebb prev).

(** The bound as the specification words it: the run never moves the
    title past the paper edge on [avoid.side].  [sgn] is the run's
    [shiftSign]. *)
Definition never_off_paper (sgn : Q) (s : Side) (fullWidth fullHeight : Q)
  (titlebb : BBox) (r : Avoidance) : Prop :=
  av_maxshift r ==
    sgn * (bb_side (Scoot.paperbb fullWidth fullHeight) s - bb_side titlebb s)
  /\ av_shift r <= av_maxshift r
  /\ (av_maxshift r < 0 -> av_shift r == av_maxshift r)
  /\ (av_after r <> None -> 0 < av_shift r \/ av_maxshift r < 0).

(** [gd.layout.<x|y>axis.title.text] when every object on the way is
    there. *)
Definition axis_title_text (lay : option Layout)
  (axis : Layout -> option LayoutAxis) : option value :=
  match lay with
  | Some ly =>
      match axis ly with
      | Some la =>
          match la_title la with
          | Some tl => Some (lt_text tl)
          | None => None
          end
      | None => None
      end
  | None => None
  end.

(** The opacity written in the style of a text element. *)
Definition opacity_of (e : Titles.TextEl) : option value :=
  match Titles.el_style e with
  | Some st => Some (Titles.style_opacity st)
  | None => None
  end.

(** The attributes [drawTitle] writes on the title element. *)
Definition title_attrs (s : Titles.State)
  : option (transform_attr * option Titles.TextStyle) :=
  match Titles.g_text (Titles.title_group (Titles.dom s)) with
  | Some e => Some (Titles.el_transform e, Titles.el_style e)
  | None => None
  end.




(** The text and class of the text element of a group. *)
Definition written (g : Titles.Group) : option (value * string) :=
  match Titles.g_text g with
  | Some e => Some (Titles.el_text e, Titles.el_class e)
  | None => None
  end.

Definition title_written (s : Titles.State) : option (value * string) :=
  written (Titles.title_group (Titles.dom s)).

(** The title classes for which [draw] has a branch that writes the
    text. *)
Definition known_title_class (cls : string) : bool :=
  existsb (String.eqb cls)
    ["gtitle"; "xtitle"; "ytitle"; "polartitle"; "atitle"; "btitle";
     "ctitle"].

(** The distance [titleStandoff] of an axis whose title has no standoff
    of its own, as a function of the axis letter and the font size. *)
Definition standoff_value (ax : Titles.FullAxis) (axLetter : string)
  (fontSize : Q) : Q :=
  (if String.eqb (Titles.type ax) "multicategory" then Titles._depth ax
   else 10 + (15 # 10) * fontSize +
        match Titles.linewidth ax with
        | Some lw => if Qeq_bool lw 0 then 0 else lw - 1
        | None => 0
        end) +
  fontSize *
  (if String.eqb axLetter "x" then
     if String.eqb (Titles.ax_side ax) "top"
     then (if Titles.showticklabels ax then 1 else 0)
     else (if Titles.showticklabels ax then 15 # 10 else 5 # 10)
   else
     if String.eqb (Titles.ax_side ax) "right"
     then (if Titles.showticklabels ax then 1 else 5 # 10)
     else (if Titles.showticklabels ax then 5 # 10 else 0)).

(** The value of the variable [anchorAxis] after the assignments of a
    branch ([x_too]: the x-axis branch, which also has a case for the
    letter x), when it held [before]. *)
Definition anchor_axis_from (gd : Titles.GraphDiv) (ax : Titles.FullAxis)
  (x_too : bool) (before : option Titles.AnchorAxis)
  : option Titles.AnchorAxis :=
  let gs := Titles._size (Titles._fullLayout gd) in
  let letter := Titles.charAt0 (Titles._id ax) in
  if negb (String.eqb (Titles.anchor ax) "free") then Titles._anchorAxis ax
  else if x_too && String.eqb letter "x" then
    Some (Titles.mkAnchorAxis
            (Titles.gs_t gs +
             (1 - num_or (Titles.position ax) 0) * Titles.gs_h gs) 0)
  else if String.eqb letter "y" then
    Some (Titles.mkAnchorAxis
            (Titles.gs_l gs + num_or (Titles.position ax) 0 * Titles.gs_w gs)
            0)
  else before.

(** What the x-axis branch leaves in [anchorAxis] for the y-axis branch:
    [undefined] when the x-axis branch is not entered. *)
Definition carried_anchor (gd : Titles.GraphDiv) : option Titles.AnchorAxis :=
  if Titles.one_of (axis_side (Titles.layout gd) l_xaxis)
       ["both"; "bottom"; "top"]
  then match Titles.fl_xaxis (Titles._fullLayout gd) with
       | Some xax => anchor_axis_from gd xax true None
       | None => None
       end
  else None.

(** The axis the title is measured from, in the x-axis branch of [draw]
    ([x_too]) and in the y-axis branch that follows it. *)
Definition anchor_axis (gd : Titles.GraphDiv) (ax : Titles.FullAxis)
  (x_too : bool) : option Titles.AnchorAxis :=
  anchor_axis_from gd ax x_too (if x_too then None else carried_anchor gd).

(** The state in which the axis branches of [draw] start: the title
    element written, [drawTitle] and [scootTitle] run. *)
Definition after_titleLayout {I : Titles.Imports} (gd : Titles.GraphDiv)
  (cls : string) (o : Titles.Options) (ms : Titles.Measured)
  (d : Titles.Dom) : Titles.State :=
  let p := Titles.prologue gd o in
  let fnt := Titles.title_font (Titles.propContainer_title o) in
  fst (Titles.titleLayout gd o ms fnt (Titles.p_txt p)
         (Titles.mkState
            (Titles.mkDom
               (Titles.write_title gd cls (Titles.p_txt p) true
                  (Titles.title_group d))
               (Titles.xboth_group d) (Titles.yboth_group d))
            (Titles.initial_locals o fnt p))).

(** The same axis with other tick settings. *)
Definition with_ticks (ax : Titles.FullAxis) (tk : string) (tl : Q)
  : Titles.FullAxis :=
  Titles.mkFullAxis (Titles._id ax) (Titles.title_font_size ax)
    (Titles.title_standoff ax) (Titles._depth ax) (Titles.type ax) tk tl
    (Titles.linewidth ax) (Titles.ax_side ax) (Titles.showticklabels ax)
    (Titles.anchor ax) (Titles._anchorAxis ax) (Titles.position ax)
    (Titles._offset ax) (Titles._length ax).

(** The same graph with other tick settings on both axes. *)
Definition retick (gd : Titles.GraphDiv) (tk : string) (tl : Q)
  : Titles.GraphDiv :=
  let fl := Titles._fullLayout gd in
  Titles.mkGraphDiv
    (Titles.mkFullLayout (Titles.fl_width fl) (Titles.fl_height fl)
       (Titles.fl_meta fl)
       (option_map (fun ax => with_ticks ax tk tl) (Titles.fl_xaxis fl))
       (option_map (fun ax => with_ticks ax tk tl) (Titles.fl_yaxis fl))
       (Titles._size fl))
    (Titles.layout gd) (Titles.edits gd).




(** The trace types whose glyphs [styleSpatial] fills with single colors
    taken from the colorscale. *)
Definition stop_colored_types : list string :=
  ["cone"; "streamtube"; "mesh3d"; "isosurface"].

Definition stop_colored (tr : LegendStyle.Trace) : bool :=
  truthy (LegendStyle.visible tr) &&
  match LegendStyle.type tr with
  | VStr ty => existsb (String.eqb ty) stop_colored_types
  | _ => false
  end.

(** [styleSpatial] would index an empty colorscale. *)
Definition reads_empty_colorscale (tr : LegendStyle.Trace) : bool :=
  stop_colored tr &&
  match LegendStyle.cOpts_colorscale tr with
  | Some [] => true
  | _ => false
  end.

(** The fill of a glyph whose color is taken from a stop of the
    colorscale [cs]: the gradient when the color is falsy. *)
Definition fill_of_stop (tr : LegendStyle.Trace) (cs : list (Q * value))
  (stop : Q * value) : LegendStyle.Fill :=
  if truthy (snd stop) then LegendStyle.SolidFill (snd stop)
  else LegendStyle.GradientFill
         (LegendStyle.getGradientDirection
            (LegendStyle.cOpts_reversescale tr) false)
         (Some cs).

(** The font size written in the style of a text element. *)
Definition font_size_of (e : Titles.TextEl) : option (option Q) :=
  match Titles.el_style e with
  | Some st => Some (Titles.font_size_px st)
  | None => None
  end.

(** ** Sample inputs *)

Module Sample.

(** Stand-ins for the imported functions: colors are opaque, nothing is
    rounded, trimmed or substituted. *)
Definition titles_imports : Titles.Imports :=
  {| Titles.Color_rgb := fun c => c;
     Titles.Color_opacity := fun _ => 1;
     Titles.d3_round := fun q _ => q;
     Titles.Plots_fontWeight := VStr "normal";
     Titles.String_trim := fun s => s;
     Titles.strip_num := fun s => s;
     Titles.Lib_templateString := fun s _ => s;
     Titles.Lib_bBoxIntersect := bBoxIntersect_pad |}.

Definition no_flags : Inpixon :=
  mkInpixon VUndefined VUndefined VUndefined VUndefined VUndefined VUndefined
    VUndefined VUndefined VUndefined None VUndefined VUndefined VUndefined
    (Some 20).

(** The duplicated titles are switched on. *)
Definition both_flags : Inpixon :=
  mkInpixon (VBool true) VUndefined VUndefined (VBool true) VUndefined
    VUndefined VUndefined VUndefined VUndefined None VUndefined VUndefined
    VUndefined (Some 20).

Definition layout_with (xside yside : value) (inp : Inpixon) : Layout :=
  mkLayout
    (Some (mkLayoutAxis xside (Some (mkLayoutTitle (VStr "x label")))))
    (Some (mkLayoutAxis yside (Some (mkLayoutTitle (VStr "y label")))))
    (Some (mkLayoutLegend (Some inp)))
    VUndefined.

Definition axis (id : string) (standoff : option Q) : Titles.FullAxis :=
  Titles.mkFullAxis id 14 standoff 30 "linear" "outside" 5 (Some 1)
    "bottom" true "y" (Some (Titles.mkAnchorAxis 80 320)) None 80 540.

Definition full_layout (xstandoff : option Q) : Titles.FullLayout :=
  Titles.mkFullLayout 700 450 None
    (Some (axis "x" xstandoff)) (Some (axis "y" None))
    (Titles.mkGraphSize 80 100 540 270).

Definition no_edits : Titles.Edits :=
  Titles.mkEdits VUndefined VUndefined VUndefined.

Definition gd_with (xside yside : value) (inp : Inpixon)
  (xstandoff : option Q) : Titles.GraphDiv :=
  Titles.mkGraphDiv (full_layout xstandoff)
    (Some (layout_with xside yside inp)) no_edits.

Definition title_font : Titles.Font :=
  Titles.mkFont (VStr "Arial") (Some 17) (VStr "#444").

Definition options_with (txt : string) (av : option Avoid)
  (tr : option Titles.TransformOpt) : Titles.Options :=
  Titles.mkOptions
    (Some (Titles.mkTitle (Some txt) (Some title_font)))
    "xaxis.title.text" "Click to enter X axis title" None av
    (Titles.mkAttributes 350 420 (VStr "middle")) tr false None.

(** An editable figure and the options of its main title, drawn without
    a transform. *)
Definition editable_edits : Titles.Edits :=
  Titles.mkEdits (VBool true) (VBool true) (VBool true).

Definition gd_editable (xside yside : value) : Titles.GraphDiv :=
  Titles.mkGraphDiv (full_layout None)
    (Some (layout_with xside yside no_flags)) editable_edits.

Definition main_title_options : Titles.Options :=
  Titles.mkOptions
    (Some (Titles.mkTitle (Some "Revenue") (Some title_font)))
    "title.text" "Click to enter Plot title" None None
    (Titles.mkAttributes 350 40 (VStr "middle")) None false None.

(** A title box above the tick labels, and a tick label it touches. *)
Definition title_box : BBox := mkBBox 300 400 400 420 100 20.
Definition tick_box : BBox := mkBBox 340 360 390 405 20 15.

Definition measured : Titles.Measured :=
  Titles.mkMeasured title_box title_box title_box.

Definition avoid_ticks : Avoid :=
  mkAvoid (Some [tick_box]) (Some SBottom) None None None None.

Definition avoid_nothing : Avoid :=
  mkAvoid (Some []) (Some SBottom) None None None None.

(** The same tick label, to be avoided on the left. *)
Definition avoid_left : Avoid :=
  mkAvoid (Some [tick_box]) (Some SLeft) None None None None.

Definition empty_group : Titles.Group := Titles.mkGroup None None.

Definition empty_dom : Titles.Dom :=
  Titles.mkDom empty_group empty_group empty_group.

(** Legend styling: stand-ins for the imported values ([parseInt]
    truncates numbers and rejects everything else), a legend, and a
    figure whose symbol style is "none". *)
Definition legend_imports : LegendStyle.Imports :=
  {| LegendStyle.itemGap := 5;
     LegendStyle.parseInt := fun v =>
       match v with
       | VNum q =>
           Some (inject_Z (if Qlt_le_dec q 0 then Qceiling q else Qfloor q))
       | _ => None
       end;
     LegendStyle.hasLines := fun tr => LegendStyle.visible tr;
     LegendStyle.hasMarkers := fun _ => VBool false;
     LegendStyle.hasText := fun _ => VBool false |}.

Definition legend : LegendStyle.Legend :=
  LegendStyle.mkLegend (VStr "trace") 30 120 LegendStyle.VMiddle VUndefined
    VUndefined.


Definition inpixon_with (size : option value) (aftertext style : value)
  : Inpixon :=
  mkInpixon VUndefined VUndefined VUndefined VUndefined VUndefined VUndefined
    VUndefined VUndefined VUndefined size aftertext style VUndefined
    (Some 20).

Definition legend_gd (inp : Inpixon) : LegendStyle.GraphDiv :=
  LegendStyle.mkGraphDiv 700 (Some (mkLayoutLegend (Some inp)))
    (Some (LegendStyle.mkDataTrace (VStr "lines") VUndefined)).

Definition trace_of (ty : string) (fill : value)
  (colorscale : option (list (Q * value))) : LegendStyle.Trace :=
  LegendStyle.mkTrace (VStr ty) (VBool true) "a1b2c3" (VNum 1) fill None
    (LegendStyle.CVal VUndefined) (LegendStyle.CVal VUndefined)
    (LegendStyle.CVal (VStr "#1f77b4")) colorscale VUndefined.


Definition item_of (tr : LegendStyle.Trace) : LegendStyle.Item :=
  LegendStyle.mkItem tr (Some 19) (Some 19).

Definition viridis : list (Q * value) :=
  [(0, VStr "#440154"); (5 # 10, VStr "#21918c"); (1, VStr "#fde725")].

End Sample.

(** * Properties *)

(** ** Title avoidance ([scootTitle]) *)

Module ScootFacts.
Import Scoot.

Section Shift.

Variable isect : BBox -> BBox -> Q -> bool.






End Shift.


(** [strTranslate] writes nothing for a null translation, and a group
    without translation is not displaced. *)
Lemma strTranslate_cases x y :
  (x == 0 /\ y == 0 /\ strTranslate x y = []) \/
  (~ (x == 0 /\ y == 0) /\ strTranslate x y = [Translate x y]).
Proof.
  unfold strTranslate.
  destruct (Qeq_bool x 0) eqn:Ex, (Qeq_bool y 0) eqn:Ey; cbn [andb].
  - left. split; [|split]; [apply Qeq_bool_iff, Ex | apply Qeq_bool_iff, Ey |
                            reflexivity].
  - right. split; [|reflexivity]. intros [_ H].
    apply Qeq_bool_iff in H. congruence.
  - right. split; [|reflexivity]. intros [H _].
    apply Qeq_bool_iff in H. congruence.
  - right. split; [|reflexivity]. intros [H _].
    apply Qeq_bool_iff in H. congruence.
Qed.

Lemma strTranslate_nonzero x y :
  ~ (x == 0 /\ y == 0) -> strTranslate x y = [Translate x y].
Proof.
  intros H. destruct (strTranslate_cases x y) as [(A & B & _)|[_ E]];
    [exfalso; apply H; split; assumption | exact E].
Qed.





End ScootFacts.


(** ** Frame properties of the statements of [draw] *)

Module Frame.
Import Titles.

Section Rules.

Context {A X : Type} (obs : State -> X).

Lemma preserves_ret (a : A) : preserves obs (ret a).
Proof. intros s; reflexivity. Qed.

Lemma preserves_throw (e : error) : preserves obs (@throw A e).
Proof. intros s; reflexivity. Qed.

Lemma preserves_deref (o : option A) : preserves obs (deref o).
Proof. destruct o; intros s; reflexivity. Qed.

Lemma preserves_bind {B : Type} (m : M B) (k : B -> M A) :
  preserves obs m -> (forall b, preserves obs (k b)) ->
  preserves obs (bindM m k).
Proof.
  intros Hm Hk s. unfold bindM.
  specialize (Hm s). destruct (m s) as [s' [b|e]]; simpl in *.
  - rewrite Hk. exact Hm.
  - exact Hm.
Qed.

End Rules.

Lemma preserves_get_locals {X : Type} (obs : State -> X) :
  preserves obs get_locals.
Proof. intros s; reflexivity. Qed.

(** Splits a statement into its primitive steps; what is left are the
    assignments to the state, each closed by computation when it does not
    touch the observation. *)
Ltac frame :=
  repeat first
    [ apply preserves_ret
    | apply preserves_throw
    | apply preserves_deref
    | apply preserves_get_locals
    | apply preserves_bind; [ | intros ? ]
    | match goal with
      | |- preserves _ (if ?c then _ else _) => destruct c
      | |- preserves _ (match ?x with _ => _ end) => destruct x
      | |- preserves _ (let '(_, _) := ?x in _) => destruct x
      end
    | (intros ?; reflexivity) ].

Section Branches.

Context {I : Imports}.
Variables (gd : GraphDiv) (o : Options) (ms : Measured) (fnt : Font)
  (txt : string).

Lemma titleStandoff_of_frame {X : Type} (obs : State -> X) ax letter fs :
  preserves obs (titleStandoff_of ax letter fs).
Proof. unfold titleStandoff_of, approxTitleDepth. frame. Qed.

Lemma layout_axis_title_text_frame {X : Type} (obs : State -> X) axis :
  preserves obs (layout_axis_title_text gd axis).
Proof. unfold layout_axis_title_text. frame. Qed.

(** The axis branches and the end of [draw] never touch the transform of
    the title group. *)
Lemma x_branch_title_transform :
  preserves title_transform (x_branch gd o ms fnt txt).
Proof.
  unfold x_branch.
  destruct (one_of _ _); [|apply preserves_ret].
  repeat first
    [ apply titleStandoff_of_frame
    | apply layout_axis_title_text_frame
    | progress frame ].
Qed.

Lemma y_branch_title_transform :
  preserves title_transform (y_branch gd o ms fnt txt).
Proof.
  unfold y_branch.
  destruct (one_of _ _); [|apply preserves_ret].
  repeat first
    [ apply titleStandoff_of_frame
    | apply layout_axis_title_text_frame
    | progress frame ].
Qed.

Lemma on_text_transform b f g :
  g_transform (on_text b f g) = g_transform g.
Proof. unfold on_text. destruct b, (g_text g); reflexivity. Qed.

Lemma epilogue_title_transform editable :
  preserves title_transform (epilogue o txt editable).
Proof.
  unfold epilogue, setPlaceholder.
  frame; intros s; unfold title_transform; simpl;
    destruct (g_text (title_group (dom s))); reflexivity.
Qed.

End Branches.
End Frame.

(** ** [draw]: the title group *)

Module TitleGroupFacts.
Import Titles Scoot Frame ScootFacts.

Section Draw.

Context {I : Imports}.

Lemma write_title_transform gd cls txt ex g :
  g_transform (write_title gd cls txt ex g) = g_transform g.
Proof.
  unfold write_title, show, exit_remove, on_text, enter_text.
  destruct g as [[e|] tr], (title_text_for gd cls txt), ex; reflexivity.
Qed.

(** After [draw], whichever way it completes, the transform of the title
    group is the one [scootTitle] computed. *)
Lemma draw_title_transform gd cls o ms d :
  let txt := p_txt (prologue gd o) in
  elShouldExist txt (editable_of (propName o) (edits gd)) = true ->
  title_transform (fst (draw gd cls o ms d)) =
  scootTitle Lib_bBoxIntersect (avoid_of o) txt
    (fl_width (_fullLayout gd)) (fl_height (_fullLayout gd))
    (title_bb ms) (g_transform (title_group d)).
Proof.
  intros txt Hex. unfold draw. fold txt. rewrite Hex. simpl negb. cbv iota.
  match goal with
  | |- title_transform (fst (bindM ?m ?k ?s0)) = _ =>
      assert (Hk : preserves title_transform (k tt));
      [ | unfold bindM at 1; unfold titleLayout at 1;
          unfold bindM at 1, get_locals at 1, set_dom at 1; cbv beta iota;
          rewrite Hk ]
  end.
  - apply preserves_bind; [apply x_branch_title_transform | intros _].
    apply preserves_bind; [apply y_branch_title_transform | intros _].
    apply epilogue_title_transform.
  - unfold title_transform.
    cbn [fst dom title_group g_transform].
    rewrite on_text_transform.
    cbn [fst dom title_group g_transform].
    rewrite write_title_transform. reflexivity.
Qed.

End Draw.



End TitleGroupFacts.

(** ** The bounds kept by the avoidance code *)

Module BoundFacts.
Import Scoot.

Lemma shift_of_le_maxshift isect sgn s back avoid sel titlebb maxshift :
  shift_of isect sgn s back avoid sel titlebb maxshift <= maxshift.
Proof.
  unfold shift_of. destruct (Qlt_le_dec maxshift 0).
  - apply Qle_refl.
  - apply Q.le_min_l.
Qed.

Lemma shift_of_forced isect sgn s back avoid sel titlebb maxshift :
  maxshift < 0 ->
  shift_of isect sgn s back avoid sel titlebb maxshift = maxshift.
Proof.
  intros H. unfold shift_of. destruct (Qlt_le_dec maxshift 0); [reflexivity|].
  lra.
Qed.

Lemma scoot_applies_iff shift maxshift :
  scoot_applies shift maxshift = true <-> 0 < shift \/ maxshift < 0.
Proof.
  unfold scoot_applies.
  destruct (Qlt_le_dec 0 shift) as [a|a], (Qlt_le_dec maxshift 0) as [b|b];
    simpl; split; intros H; try reflexivity; try discriminate;
    try (left; exact a); try (right; exact b); destruct H; lra.
Qed.

(** C2 (as amended).  In [scootTitle], [maxshift] is [avoid.maxShift]
    when that is a non-zero number and otherwise the signed distance from
    the title box to the paper edge on [avoid.side]; the shift never
    exceeds [maxshift], is [maxshift] when [maxshift < 0], and a translate
    is applied exactly when [shift > 0] or [maxshift < 0].  In the x-axis
    branch [maxshift] is [avoid.maxShift] when non-zero and otherwise
    [shiftSign * (0 - titlebb.height)]; the shift never exceeds it and is
    forced to it when it is negative, and the group always receives
    [translate(shift, maxshift)]. *)
Theorem avoidance_shift_bounded_by_maxshift :
  forall isect avoid s sel txt xside_both fullWidth fullHeight titlebb prev,
    txt <> "" ->
    selection avoid = Some sel ->
    side avoid = Some s ->
    let r := scootTitle_run isect avoid s sel txt fullWidth fullHeight
               titlebb prev in
    let x := xboth_run isect avoid s sel txt xside_both fullWidth fullHeight
               titlebb prev in
    (av_maxshift r =
       num_or (maxShift avoid)
         (shiftSign s *
            (bb_side (paperbb fullWidth fullHeight) s - bb_side titlebb s))
     /\ av_shift r <= av_maxshift r
     /\ (av_maxshift r < 0 -> av_shift r = av_maxshift r)
     /\ (av_after r <> None <-> 0 < av_shift r \/ av_maxshift r < 0))
    /\
    (av_maxshift x =
       num_or (maxShift avoid)
         (xboth_shiftSign s xside_both * (0 - height titlebb))
     /\ av_shift x <= av_maxshift x
     /\ (av_maxshift x < 0 -> av_shift x = av_maxshift x)
     /\ av_after x = Some (strTranslate (av_shift x) (av_maxshift x))).
Proof.
  intros isect avoid s sel txt xb fw fh titlebb prev Htxt Hsel Hside.
  assert (Hne : String.eqb txt "" = false)
    by (destruct (String.eqb_spec txt ""); [contradiction|reflexivity]).
  cbv zeta. split.
  - unfold scootTitle_run; cbn [av_maxshift av_shift av_after].
    split; [reflexivity|].
    split; [apply shift_of_le_maxshift|].
    split; [apply shift_of_forced|].
    unfold scootTitle. rewrite Hsel, Hside, Hne.
    rewrite <- scoot_applies_iff.
    destruct (scoot_applies _ _).
    + destruct (shiftTemplate s _). split; [reflexivity|discriminate].
    + split; [intros H; now elim H | discriminate].
  - unfold xboth_run; cbn [av_maxshift av_shift av_after].
    split; [reflexivity|].
    split; [apply shift_of_le_maxshift|].
    split; [apply shift_of_forced|].
    unfold xboth_scoot. rewrite Hsel, Hside, Hne. reflexivity.
Qed.

Lemma avoidance_shift_bounded_witness :
  let r := scootTitle_run bBoxIntersect_pad Sample.avoid_ticks SBottom
             [Sample.tick_box] "Revenue" 700 450 Sample.title_box None in
  let x := xboth_run bBoxIntersect_pad Sample.avoid_ticks SBottom
             [Sample.tick_box] "Revenue" true 700 450 Sample.title_box None in
  "Revenue" <> "" /\
  (av_shift r <= av_maxshift r /\ av_after r <> None) /\
  (av_shift x <= av_maxshift x /\
   av_after x = Some (strTranslate (av_shift x) (av_maxshift x))).
Proof.
  intros r x.
  pose proof (avoidance_shift_bounded_by_maxshift bBoxIntersect_pad
                Sample.avoid_ticks SBottom [Sample.tick_box] "Revenue" true
                700 450 Sample.title_box None
                ltac:(discriminate) eq_refl eq_refl) as [HR HX].
  split; [discriminate|]. split.
  - split; [apply HR | discriminate].
  - split; apply HX.
Defined.

(** C2 (as stated) fails in the x-axis branch.  With nothing to avoid on
    the "bottom" side of an x-axis whose side is "both", and a title box
    20px high, the branch computes [maxshift = 20] (not the distance
    [-(450 - 420)] to the paper edge) and [shift = 0], and still writes
    [translate(0, 20)] on the group. *)
Lemma xboth_translate_is_unconditional :
  let gd := Sample.gd_with (VStr "both") VUndefined Sample.no_flags None in
  let o := Sample.options_with "Revenue" (Some Sample.avoid_nothing) None in
  let x := xboth_run bBoxIntersect_pad Sample.avoid_nothing SBottom []
             "Revenue" true 700 450 Sample.title_box None in
  Titles.g_transform
    (Titles.xboth_group
       (Titles.dom
          (fst (@Titles.draw Sample.titles_imports gd "xtitle" o
                  Sample.measured Sample.empty_dom)))) = av_after x
  /\ av_after x = Some [Translate 0 20]
  /\ av_shift x == 0
  /\ av_maxshift x == 20
  /\ ~ never_off_paper (xboth_shiftSign SBottom true) SBottom 700 450
         Sample.title_box x.
Proof.
  cbv zeta.
  split; [vm_compute; reflexivity|].
  split; [vm_compute; reflexivity|].
  split; [vm_compute; reflexivity|].
  split; [vm_compute; reflexivity|].
  intros (_ & _ & _ & H).
  destruct H as [H|H]; [discriminate | vm_compute in H; discriminate
                                     | vm_compute in H; discriminate].
Qed.

End BoundFacts.

(** ** Visibility of the axis titles *)

Module VisibilityFacts.
Import Titles Frame.

Lemma is_false_iff v : is_false v = true <-> v = VBool false.
Proof.
  unfold is_false. destruct v as [| |[|]| | |]; simpl; split;
    intros H; try discriminate; reflexivity.
Qed.

Lemma is_str_iff v s : is_str v s = true <-> v = VStr s.
Proof.
  unfold is_str. destruct v; simpl; split; intros H; try discriminate.
  - apply String.eqb_eq in H. now subst.
  - injection H as ->. apply String.eqb_refl.
Qed.

(** The blanking condition of the x-axis title, in the words of the
    specification. *)
Lemma xtitle_hidden_iff top bottom sd :
  xtitle_hidden top bottom sd = true <->
  (top = VBool false /\ sd = VStr "top") \/
  (bottom = VBool false /\ (sd = VStr "bottom" \/ sd = VStr "both")) \/
  sd = VStr "".
Proof.
  unfold xtitle_hidden.
  rewrite !orb_true_iff, !andb_true_iff, !is_false_iff, !is_str_iff.
  tauto.
Qed.

Lemma ytitle_hidden_iff rt lf sd :
  ytitle_hidden rt lf sd = true <->
  (rt = VBool false /\ sd = VStr "right") \/
  (lf = VBool false /\ (sd = VStr "left" \/ sd = VStr "both")) \/
  sd = VStr "".
Proof.
  unfold ytitle_hidden.
  rewrite !orb_true_iff, !andb_true_iff, !is_false_iff, !is_str_iff.
  tauto.
Qed.

Section Draw.

Context {I : Imports}.
Variables (gd : GraphDiv) (o : Options) (ms : Measured) (fnt : Font)
  (txt : string).

Lemma x_branch_title_written :
  preserves title_written (x_branch gd o ms fnt txt).
Proof.
  unfold x_branch.
  destruct (one_of _ _); [|apply preserves_ret].
  repeat first
    [ apply titleStandoff_of_frame
    | apply layout_axis_title_text_frame
    | progress frame ].
Qed.

Lemma y_branch_title_written :
  preserves title_written (y_branch gd o ms fnt txt).
Proof.
  unfold y_branch.
  destruct (one_of _ _); [|apply preserves_ret].
  repeat first
    [ apply titleStandoff_of_frame
    | apply layout_axis_title_text_frame
    | progress frame ].
Qed.

(** With a title text, the end of [draw] writes no placeholder. *)
Lemma epilogue_title_written editable :
  txt <> "" -> preserves title_written (epilogue o txt editable).
Proof.
  intros Htxt. unfold epilogue.
  assert (E : String.eqb txt "" = false)
    by (destruct (String.eqb_spec txt ""); [contradiction|reflexivity]).
  rewrite E, andb_false_r.
  frame; intros s; destruct s as [[[[e|] tr] xg yg] lv]; reflexivity.
Qed.

Lemma titleLayout_title_written :
  preserves title_written (titleLayout gd o ms fnt txt).
Proof.
  unfold titleLayout.
  frame; intros s; destruct s as [[[[e|] tr] xg yg] lv]; reflexivity.
Qed.

End Draw.

(** What [draw] wrote into the title element is still there when it
    ends, however it completes. *)
Lemma draw_title_written {I : Imports} gd cls o ms d :
  let txt := p_txt (prologue gd o) in
  txt <> "" ->
  title_written (fst (draw gd cls o ms d)) =
  written (write_title gd cls txt true (title_group d)).
Proof.
  intros txt Htxt. unfold draw. fold txt.
  assert (Hex : elShouldExist txt (editable_of (propName o) (edits gd)) = true).
  { unfold elShouldExist.
    destruct (String.eqb_spec txt ""); [contradiction|reflexivity]. }
  rewrite Hex. simpl negb. cbv iota.
  match goal with
  | |- title_written (fst (?m ?s0)) = _ =>
      assert (Hm : preserves title_written m); [ | rewrite Hm; reflexivity ]
  end.
  apply preserves_bind; [apply titleLayout_title_written | intros _].
  apply preserves_bind; [apply x_branch_title_written | intros _].
  apply preserves_bind; [apply y_branch_title_written | intros _].
  apply epilogue_title_written, Htxt.
Qed.

(** C3.  For a title of class "xtitle", [draw] writes the empty string
    into the title element exactly when ([xtitletop === false] and the
    x-axis side is "top") or ([xtitlebottom === false] and the side is
    "bottom" or "both") or the side is the empty string, and the title
    text otherwise; likewise for "ytitle" with [ytitleright],
    [ytitleleft] and the sides "right", "left", "both", "".  When the
    title text is not empty, this is the text of the element when [draw]
    ends. *)
Theorem axis_title_hidden_exactly_when_flagged :
  forall (I : Imports) gd o ms d,
    let lay := layout gd in
    let txt := p_txt (prologue gd o) in
    let xtop := inpixon_flag lay xtitletop in
    let xbottom := inpixon_flag lay xtitlebottom in
    let xside := axis_side lay l_xaxis in
    let yright := inpixon_flag lay ytitleright in
    let yleft := inpixon_flag lay ytitleleft in
    let yside := axis_side lay l_yaxis in
    let xhidden :=
      (xtop = VBool false /\ xside = VStr "top") \/
      (xbottom = VBool false /\
       (xside = VStr "bottom" \/ xside = VStr "both")) \/
      xside = VStr "" in
    let yhidden :=
      (yright = VBool false /\ yside = VStr "right") \/
      (yleft = VBool false /\
       (yside = VStr "left" \/ yside = VStr "both")) \/
      yside = VStr "" in
    (forall g,
       (xhidden ->
        written (write_title gd "xtitle" txt true g) =
          Some (VStr "", "xtitle")) /\
       (~ xhidden ->
        written (write_title gd "xtitle" txt true g) =
          Some (VStr txt, "xtitle")) /\
       (yhidden ->
        written (write_title gd "ytitle" txt true g) =
          Some (VStr "", "ytitle")) /\
       (~ yhidden ->
        written (write_title gd "ytitle" txt true g) =
          Some (VStr txt, "ytitle"))) /\
    (txt <> "" ->
     (xhidden ->
      title_written (fst (draw gd "xtitle" o ms d)) =
        Some (VStr "", "xtitle")) /\
     (~ xhidden ->
      title_written (fst (draw gd "xtitle" o ms d)) =
        Some (VStr txt, "xtitle")) /\
     (yhidden ->
      title_written (fst (draw gd "ytitle" o ms d)) =
        Some (VStr "", "ytitle")) /\
     (~ yhidden ->
      title_written (fst (draw gd "ytitle" o ms d)) =
        Some (VStr txt, "ytitle"))).
Proof.
  intros I gd o ms d. cbv zeta.
  set (lay := layout gd). set (txt := p_txt (prologue gd o)).
  pose proof (xtitle_hidden_iff (inpixon_flag lay xtitletop)
                (inpixon_flag lay xtitlebottom) (axis_side lay l_xaxis))
    as HX.
  pose proof (ytitle_hidden_iff (inpixon_flag lay ytitleright)
                (inpixon_flag lay ytitleleft) (axis_side lay l_yaxis))
    as HY.
  assert (Hwrite : forall g,
    written (write_title gd "xtitle" txt true g) =
      Some (VStr (if xtitle_hidden (inpixon_flag lay xtitletop)
                       (inpixon_flag lay xtitlebottom)
                       (axis_side lay l_xaxis)
                  then "" else txt), "xtitle") /\
    written (write_title gd "ytitle" txt true g) =
      Some (VStr (if ytitle_hidden (inpixon_flag lay ytitleright)
                       (inpixon_flag lay ytitleleft)
                       (axis_side lay l_yaxis)
                  then "" else txt), "ytitle")).
  { intros g. unfold write_title, title_text_for. simpl String.eqb.
    cbv iota. fold lay.
    destruct (xtitle_hidden _ _ _), (ytitle_hidden _ _ _);
      destruct g as [[e|] tr]; split; reflexivity. }
  assert (Hcases : forall g,
    (xtitle_hidden (inpixon_flag lay xtitletop)
       (inpixon_flag lay xtitlebottom) (axis_side lay l_xaxis) = true ->
     written (write_title gd "xtitle" txt true g) =
       Some (VStr "", "xtitle")) /\
    (xtitle_hidden (inpixon_flag lay xtitletop)
       (inpixon_flag lay xtitlebottom) (axis_side lay l_xaxis) <> true ->
     written (write_title gd "xtitle" txt true g) =
       Some (VStr txt, "xtitle")) /\
    (ytitle_hidden (inpixon_flag lay ytitleright)
       (inpixon_flag lay ytitleleft) (axis_side lay l_yaxis) = true ->
     written (write_title gd "ytitle" txt true g) =
       Some (VStr "", "ytitle")) /\
    (ytitle_hidden (inpixon_flag lay ytitleright)
       (inpixon_flag lay ytitleleft) (axis_side lay l_yaxis) <> true ->
     written (write_title gd "ytitle" txt true g) =
       Some (VStr txt, "ytitle"))).
  { intros g. destruct (Hwrite g) as [Wx Wy]. rewrite Wx, Wy.
    repeat split; intros H.
    - rewrite H. reflexivity.
    - apply not_true_is_false in H. rewrite H. reflexivity.
    - rewrite H. reflexivity.
    - apply not_true_is_false in H. rewrite H. reflexivity. }
  match type of HX with _ <-> ?R => set (xhidden := R) in * end.
  match type of HY with _ <-> ?R => set (yhidden := R) in * end.
  assert (Hwords : forall g (P : string -> option (value * string)),
    (forall cls, P cls = written (write_title gd cls txt true g)) ->
    (xhidden -> P "xtitle" = Some (VStr "", "xtitle")) /\
    (~ xhidden -> P "xtitle" = Some (VStr txt, "xtitle")) /\
    (yhidden -> P "ytitle" = Some (VStr "", "ytitle")) /\
    (~ yhidden -> P "ytitle" = Some (VStr txt, "ytitle"))).
  { intros g P HP. rewrite !HP.
    destruct (Hcases g) as (A & B & C & D0).
    split; [intros H; apply A, HX; exact H|].
    split; [intros H; apply B; intros E; apply H, HX, E|].
    split; [intros H; apply C, HY; exact H|].
    intros H; apply D0; intros E; apply H, HY, E. }
  split.
  - intros g.
    exact (Hwords g (fun cls => written (write_title gd cls txt true g))
             (fun _ => eq_refl)).
  - intros Htxt.
    exact (Hwords (title_group d)
             (fun cls => title_written (fst (draw gd cls o ms d)))
             (fun cls => draw_title_written gd cls o ms d Htxt)).
Qed.

End VisibilityFacts.

(** ** The duplicated axis titles *)

Module DuplicateFacts.
Import Titles Frame.

Lemma bindM_normal {A B : Type} (m : M A) (k : A -> M B) s s' b :
  bindM m k s = (s', Normal b) ->
  exists a s1, m s = (s1, Normal a) /\ k a s1 = (s', Normal b).
Proof.
  unfold bindM. destruct (m s) as [s1 [a|e]]; intros H.
  - exists a, s1. split; [reflexivity | exact H].
  - discriminate.
Qed.

Lemma deref_normal {A : Type} (o : option A) s s' a :
  deref o s = (s', Normal a) -> o = Some a /\ s' = s.
Proof.
  destruct o; unfold deref, ret, throw; intros H; inversion H; auto.
Qed.

Lemma ret_normal {A : Type} (a b : A) s s' :
  ret a s = (s', Normal b) -> b = a /\ s' = s.
Proof. unfold ret; intros H; inversion H; auto. Qed.

(** Runs a statement known to complete normally backwards, one step at a
    time. *)
Ltac invM :=
  repeat
    (cbv beta in *;
     match goal with
     | H : bindM _ _ _ = (_, Normal _) |- _ =>
         apply bindM_normal in H; destruct H as (? & ? & ? & H)
     | H : deref _ _ = (_, Normal _) |- _ =>
         apply deref_normal in H; destruct H as [? ?]; subst
     | H : ret _ _ = (_, Normal _) |- _ =>
         apply ret_normal in H; destruct H as [? ?]; subst
     | H : throw _ _ = (_, Normal _) |- _ => discriminate H
     | H : get_locals _ = (_, Normal _) |- _ =>
         unfold get_locals in H; inversion H; subst; clear H
     | H : set_locals _ _ = (_, Normal _) |- _ =>
         unfold set_locals in H; inversion H; subst; clear H
     | H : set_dom _ _ = (_, Normal _) |- _ =>
         unfold set_dom in H; inversion H; subst; clear H
     | H : on_xboth _ _ = (_, Normal _) |- _ => unfold on_xboth in H
     | H : on_yboth _ _ = (_, Normal _) |- _ => unfold on_yboth in H
     | H : (if ?c then _ else _) _ = (_, Normal _) |- _ => destruct c eqn:?
     | H : match ?x with Some _ => _ | None => _ end _ = (_, Normal _) |- _ =>
         destruct x eqn:?
     end).

Section Branches.

Context {I : Imports}.
Variables (gd : GraphDiv) (o : Options) (ms : Measured) (fnt : Font)
  (txt : string).

Lemma layout_axis_title_text_normal axis s s' v :
  layout_axis_title_text gd axis s = (s', Normal v) ->
  axis_title_text (layout gd) axis = Some v /\ s' = s.
Proof.
  unfold layout_axis_title_text, axis_title_text. intros H. invM.
  repeat match goal with E : _ = Some _ |- _ => rewrite E; clear E end.
  auto.
Qed.

Lemma titleStandoff_of_normal ax letter fs s s' q :
  titleStandoff_of ax letter fs s = (s', Normal q) ->
  title_standoff ax = None /\ s' = s.
Proof.
  unfold titleStandoff_of, approxTitleDepth. intros H.
  destruct (title_standoff ax); invM; auto.
Qed.

(** What the x-axis branch leaves in [g-xtitleboth] when it runs to its
    end. *)
Lemma x_branch_normal s s' :
  x_branch gd o ms fnt txt s = (s', Normal tt) ->
  let xside := axis_side (layout gd) l_xaxis in
  let shown := truthy (inpixon_flag (layout gd) xtitletop) &&
               is_str xside "both" in
  one_of xside ["both"; "bottom"; "top"] = true ->
  exists e,
    g_text (xboth_group (dom s')) = Some e /\
    (shown = true ->
     exists v, axis_title_text (layout gd) l_xaxis = Some v /\
               el_text e = d3_text v) /\
    (shown = false -> el_text e = VStr "") /\
    opacity_of e =
      Some (if is_str xside "both"
            then VNum (v_opacity (locals s) * Color_opacity (color fnt))
            else VStr "0").
Proof.
  intros H xside shown Hone. unfold x_branch in H. fold xside in H.
  rewrite Hone in H. fold shown in H. invM.
  all: repeat match goal with
       | H : titleStandoff_of _ _ _ _ = _ |- _ =>
           apply titleStandoff_of_normal in H; destruct H as [? ?]; subst
       | H : layout_axis_title_text _ _ _ = _ |- _ =>
           apply layout_axis_title_text_normal in H; destruct H as [? ?];
           subst
       end.
  all: destruct s as [[tg [[e0|] xtr] yg] lv];
    cbn; eexists; (split; [reflexivity|]); cbn;
    repeat split; try discriminate; try reflexivity;
    try (intros _; eexists; split; [eassumption | reflexivity]).
Qed.


(** What the y-axis branch leaves in [g-ytitleboth] when it runs to its
    end. *)
Lemma y_branch_normal s s' :
  y_branch gd o ms fnt txt s = (s', Normal tt) ->
  let yside := axis_side (layout gd) l_yaxis in
  let shown := truthy (inpixon_flag (layout gd) ytitleright) &&
               is_str yside "both" in
  one_of yside ["both"; "left"; "right"] = true ->
  exists e px py,
    g_text (yboth_group (dom s')) = Some e /\
    (shown = true ->
     exists v, axis_title_text (layout gd) l_yaxis = Some v /\
               el_text e = d3_text v) /\
    (shown = false -> el_text e = VStr "") /\
    opacity_of e =
      Some (if is_str yside "both"
            then VNum (v_opacity (locals s) * Color_opacity (color fnt))
            else VStr "0") /\
    el_transform e = Some [Rotate (VNum (-270)) px py] /\
    el_x e = Some px /\ el_y e = Some py.
Proof.
  intros H yside shown Hone. unfold y_branch in H. fold yside in H.
  rewrite Hone in H. fold shown in H. invM.
  all: repeat match goal with
       | H : titleStandoff_of _ _ _ _ = _ |- _ =>
           apply titleStandoff_of_normal in H; destruct H as [? ?]; subst
       | H : layout_axis_title_text _ _ _ = _ |- _ =>
           apply layout_axis_title_text_normal in H; destruct H as [? ?];
           subst
       end.
  all: destruct s as [[tg xg [[e0|] ytr]] lv];
    cbn; do 3 eexists; (split; [reflexivity|]); cbn;
    repeat split; try discriminate; try reflexivity;
    try (intros _; eexists; split; [eassumption | reflexivity]).
Qed.

(** Frame properties used to carry the two results to the end of
    [draw]. *)
Lemma titleLayout_locals : preserves locals (titleLayout gd o ms fnt txt).
Proof. unfold titleLayout. frame. Qed.

Lemma x_branch_opacity :
  preserves (fun s => v_opacity (locals s)) (x_branch gd o ms fnt txt).
Proof.
  unfold x_branch.
  destruct (one_of _ _); [|apply preserves_ret].
  repeat first
    [ apply titleStandoff_of_frame
    | apply layout_axis_title_text_frame
    | progress frame ].
Qed.

Lemma y_branch_xboth :
  preserves (fun s => xboth_group (dom s)) (y_branch gd o ms fnt txt).
Proof.
  unfold y_branch.
  destruct (one_of _ _); [|apply preserves_ret].
  repeat first
    [ apply titleStandoff_of_frame
    | apply layout_axis_title_text_frame
    | progress frame ].
Qed.

Lemma epilogue_both editable :
  preserves (fun s => (xboth_group (dom s), yboth_group (dom s)))
    (epilogue o txt editable).
Proof. unfold epilogue, setPlaceholder. frame. Qed.

End Branches.

(** C4 (as amended).  For every [draw] call that passes the
    [elShouldExist] gate and completes without error: when the x-axis side
    is "both", "bottom" or "top", [g-xtitleboth] holds a text element that
    carries [gd.layout.xaxis.title.text] exactly when [xtitletop] is
    truthy and the side is "both", and the empty string otherwise; its
    opacity is the title opacity times the opacity of the font color when
    the side is "both" and "0" otherwise.  Likewise for the y-axis with
    "both", "left", "right", [ytitleright] and [g-ytitleboth], whose
    element is moreover rotated by -270 degrees about its own (x, y). *)
Theorem draw_duplicates_axis_titles_when_completed :
  forall (I : Imports) gd titleClass o ms d s',
    let p := prologue gd o in
    let fnt := title_font (propContainer_title o) in
    let title_opacity := VNum (p_opacity p * Color_opacity (color fnt)) in
    let xside := axis_side (layout gd) l_xaxis in
    let yside := axis_side (layout gd) l_yaxis in
    let xshown := truthy (inpixon_flag (layout gd) xtitletop) &&
                  is_str xside "both" in
    let yshown := truthy (inpixon_flag (layout gd) ytitleright) &&
                  is_str yside "both" in
    elShouldExist (p_txt p) (editable_of (propName o) (edits gd)) = true ->
    draw gd titleClass o ms d = (s', Normal tt) ->
    (one_of xside ["both"; "bottom"; "top"] = true ->
     exists e,
       g_text (xboth_group (dom s')) = Some e /\
       (xshown = true ->
        exists v, axis_title_text (layout gd) l_xaxis = Some v /\
                  el_text e = d3_text v) /\
       (xshown = false -> el_text e = VStr "") /\
       opacity_of e =
         Some (if is_str xside "both" then title_opacity else VStr "0"))
    /\
    (one_of yside ["both"; "left"; "right"] = true ->
     exists e px py,
       g_text (yboth_group (dom s')) = Some e /\
       (yshown = true ->
        exists v, axis_title_text (layout gd) l_yaxis = Some v /\
                  el_text e = d3_text v) /\
       (yshown = false -> el_text e = VStr "") /\
       opacity_of e =
         Some (if is_str yside "both" then title_opacity else VStr "0") /\
       el_transform e = Some [Rotate (VNum (-270)) px py] /\
       el_x e = Some px /\ el_y e = Some py).
Proof.
  intros I gd cls o ms d s' p fnt title_opacity xside yside xshown yshown
    Hex H.
  unfold draw in H. fold p fnt in H. rewrite Hex in H.
  simpl negb in H. cbv iota in H.
  apply bindM_normal in H. destruct H as ([] & s1 & H1 & H).
  apply bindM_normal in H. destruct H as ([] & s2 & H2 & H).
  apply bindM_normal in H. destruct H as ([] & s3 & H3 & H4).
  set (s0 := mkState _ _) in H1.
  pose proof (titleLayout_locals gd o ms fnt (p_txt p) s0) as L1.
  rewrite H1 in L1. simpl in L1.
  pose proof (x_branch_opacity gd o ms fnt (p_txt p) s1) as L2.
  rewrite H2 in L2. simpl in L2.
  pose proof (y_branch_xboth gd o ms fnt (p_txt p) s2) as F3.
  rewrite H3 in F3. simpl in F3.
  pose proof (epilogue_both o (p_txt p)
                (editable_of (propName o) (edits gd)) s3) as F4.
  rewrite H4 in F4. simpl in F4. injection F4 as F4x F4y.
  split; intros Hone.
  - destruct (x_branch_normal gd o ms fnt (p_txt p) s1 s2 H2 Hone)
      as (e & He & Hs & Hh & Ho).
    exists e. rewrite F4x, F3. repeat split; try assumption.
    rewrite Ho, L1. reflexivity.
  - destruct (y_branch_normal gd o ms fnt (p_txt p) s2 s3 H3 Hone)
      as (e & px & py & He & Hs & Hh & Ho & Ht & Hx & Hy).
    exists e, px, py. rewrite F4y. repeat split; try assumption.
    rewrite Ho, L2, L1. reflexivity.
Qed.

(** With both duplicates switched on and both sides "both", the sample
    figure gets the two elements with their axis titles. *)
Lemma draw_duplicates_axis_titles_witness :
  let gd := Sample.gd_with (VStr "both") (VStr "both") Sample.both_flags
              None in
  let o := Sample.options_with "Revenue" None None in
  let r := @draw Sample.titles_imports gd "xtitle" o Sample.measured
             Sample.empty_dom in
  snd r = Normal tt /\
  (exists e,
     g_text (xboth_group (dom (fst r))) = Some e /\
     el_text e = VStr "x label" /\ opacity_of e = Some (VNum (1 * 1))) /\
  (exists e px py,
     g_text (yboth_group (dom (fst r))) = Some e /\
     el_text e = VStr "y label" /\
     el_transform e = Some [Rotate (VNum (-270)) px py]).
Proof.
  intros gd o r.
  assert (Hr : r = (fst r, Normal tt)) by (vm_compute; reflexivity).
  destruct (draw_duplicates_axis_titles_when_completed Sample.titles_imports
              gd "xtitle" o Sample.measured Sample.empty_dom (fst r)
              eq_refl Hr) as [HX HY].
  split; [vm_compute; reflexivity|]. split.
  - destruct (HX eq_refl) as (e & He & Hs & _ & Ho).
    destruct (Hs eq_refl) as (v & Hv & Ht).
    injection Hv as <-.
    exists e. repeat split; assumption.
  - destruct (HY eq_refl) as (e & px & py & He & Hs & _ & _ & Ht & _).
    destruct (Hs eq_refl) as (v & Hv & Hv').
    injection Hv as <-.
    exists e, px, py. repeat split; assumption.
Defined.

(** C4 (as stated) fails when the title text is empty and the title is
    not editable: [draw] returns before the branches, and no element is
    created in [g-xtitleboth] although the x-axis side is "both". *)
Lemma no_duplicate_for_absent_title :
  let gd := Sample.gd_with (VStr "both") (VStr "both") Sample.both_flags
              None in
  let o := Sample.options_with "" None None in
  let r := @draw Sample.titles_imports gd "xtitle" o Sample.measured
             Sample.empty_dom in
  axis_side (layout gd) l_xaxis = VStr "both" /\
  snd r = Normal tt /\
  g_text (xboth_group (dom (fst r))) = None /\
  g_text (yboth_group (dom (fst r))) = None.
Proof.
  cbv zeta. repeat split; vm_compute; reflexivity.
Qed.

End DuplicateFacts.

(** ** The standoff path of the axis branches *)

Module StandoffFacts.
Import Titles Frame DuplicateFacts.

Section Branches.

Context {I : Imports}.
Variables (gd : GraphDiv) (o : Options) (ms : Measured) (fnt : Font)
  (txt : string).

Lemma titleStandoff_of_throws ax letter fs s q :
  title_standoff ax = Some q ->
  titleStandoff_of ax letter fs s = (s, Throw ReferenceError).
Proof.
  intros H. unfold titleStandoff_of. rewrite H. reflexivity.
Qed.

Lemma x_branch_standoff_throws s ax q :
  one_of (axis_side (layout gd) l_xaxis) ["both"; "bottom"; "top"] = true ->
  fl_xaxis (_fullLayout gd) = Some ax ->
  title_standoff ax = Some q ->
  snd (x_branch gd o ms fnt txt s) = Throw ReferenceError.
Proof.
  intros Hone Hax Hst. unfold x_branch. rewrite Hone, Hax.
  unfold bindM at 1. cbn [deref ret].
  unfold bindM at 1. cbn [set_locals].
  unfold bindM at 1. rewrite (titleStandoff_of_throws _ _ _ _ q Hst).
  reflexivity.
Qed.

Lemma y_branch_standoff_throws s ax q :
  one_of (axis_side (layout gd) l_yaxis) ["both"; "left"; "right"] = true ->
  fl_yaxis (_fullLayout gd) = Some ax ->
  title_standoff ax = Some q ->
  snd (y_branch gd o ms fnt txt s) = Throw ReferenceError.
Proof.
  intros Hone Hax Hst. unfold y_branch. rewrite Hone, Hax.
  unfold bindM at 1. cbn [deref ret].
  unfold bindM at 1. cbn [set_locals].
  unfold bindM at 1. rewrite (titleStandoff_of_throws _ _ _ _ q Hst).
  reflexivity.
Qed.

End Branches.

(** C8.  An axis-side branch of [draw] that is entered for an axis whose
    title has its own "standoff" property calls [approxTitleDepth], which
    is bound nowhere, and completes by throwing a ReferenceError, and so
    does [draw]; when [draw] completes normally past the [elShouldExist]
    gate, no entered branch took the standoff path. *)
Theorem standoff_path_raises_ReferenceError :
  forall (I : Imports) gd titleClass o ms d,
    let p := prologue gd o in
    let fnt := title_font (propContainer_title o) in
    let fl := _fullLayout gd in
    let gate := elShouldExist (p_txt p) (editable_of (propName o) (edits gd)) in
    let x_entered :=
      one_of (axis_side (layout gd) l_xaxis) ["both"; "bottom"; "top"] in
    let y_entered :=
      one_of (axis_side (layout gd) l_yaxis) ["both"; "left"; "right"] in
    (forall s ax q,
       x_entered = true -> fl_xaxis fl = Some ax ->
       title_standoff ax = Some q ->
       snd (x_branch gd o ms fnt (p_txt p) s) = Throw ReferenceError) /\
    (forall s ax q,
       y_entered = true -> fl_yaxis fl = Some ax ->
       title_standoff ax = Some q ->
       snd (y_branch gd o ms fnt (p_txt p) s) = Throw ReferenceError) /\
    (forall ax q,
       gate = true -> x_entered = true -> fl_xaxis fl = Some ax ->
       title_standoff ax = Some q ->
       snd (draw gd titleClass o ms d) = Throw ReferenceError) /\
    (forall ax q,
       gate = true -> x_entered = false ->
       y_entered = true -> fl_yaxis fl = Some ax ->
       title_standoff ax = Some q ->
       snd (draw gd titleClass o ms d) = Throw ReferenceError) /\
    (gate = true -> snd (draw gd titleClass o ms d) = Normal tt ->
     (forall ax, x_entered = true -> fl_xaxis fl = Some ax ->
                 title_standoff ax = None) /\
     (forall ax, y_entered = true -> fl_yaxis fl = Some ax ->
                 title_standoff ax = None)).
Proof.
  intros I gd cls o ms d p fnt fl gate x_entered y_entered.
  assert (Hdraw : gate = true ->
    draw gd cls o ms d =
    bindM (x_branch gd o ms fnt (p_txt p))
      (fun _ => bindM (y_branch gd o ms fnt (p_txt p))
         (fun _ => epilogue o (p_txt p) (editable_of (propName o) (edits gd))))
      (fst (titleLayout gd o ms fnt (p_txt p)
              (mkState
                 (mkDom (write_title gd cls (p_txt p) true (title_group d))
                    (xboth_group d) (yboth_group d))
                 (initial_locals o fnt p))))).
  { intros Hg. unfold draw. fold p fnt. fold gate. rewrite Hg. reflexivity. }
  split; [intros s ax q; apply x_branch_standoff_throws|].
  split; [intros s ax q; apply y_branch_standoff_throws|].
  split; [|split].
  - intros ax q Hg Hx Hax Hst. rewrite (Hdraw Hg). unfold bindM at 1.
    pose proof (x_branch_standoff_throws gd o ms fnt (p_txt p)
                  (fst (titleLayout gd o ms fnt (p_txt p)
                     (mkState
                        (mkDom (write_title gd cls (p_txt p) true
                                  (title_group d))
                           (xboth_group d) (yboth_group d))
                        (initial_locals o fnt p))))
                  ax q Hx Hax Hst) as T.
    destruct (x_branch _ _ _ _ _ _) as [s2 [[]|e]]; simpl in T;
      [discriminate | now subst].
  - intros ax q Hg Hx Hy Hay Hst. rewrite (Hdraw Hg). unfold bindM at 1.
    unfold x_branch at 1. fold x_entered. rewrite Hx.
    cbn [ret]. unfold bindM at 1.
    match goal with
    | |- snd (let (_, _) := y_branch ?g ?o ?m ?f ?t ?s in _) = _ =>
        pose proof (y_branch_standoff_throws g o m f t s ax q Hy Hay Hst) as T;
        destruct (y_branch g o m f t s) as [s3 [[]|e]]; simpl in T;
        [discriminate | now subst]
    end.
  - intros Hg Hn. rewrite (Hdraw Hg) in Hn.
    destruct (bindM _ _ _) as [s' [[]|e]] eqn:E; [|discriminate].
    apply bindM_normal in E. destruct E as ([] & s2 & H2 & E).
    apply bindM_normal in E. destruct E as ([] & s3 & H3 & _).
    split; intros ax Hone Hax; destruct (title_standoff ax) as [q|] eqn:Hst;
      try reflexivity; exfalso.
    + match type of H2 with
      | x_branch _ _ _ _ _ ?s1 = _ =>
          pose proof (x_branch_standoff_throws gd o ms fnt (p_txt p) s1 ax q
                        Hone Hax Hst) as T
      end.
      rewrite H2 in T. discriminate.
    + pose proof (y_branch_standoff_throws gd o ms fnt (p_txt p) s2 ax q
                    Hone Hax Hst) as T.
      rewrite H3 in T. discriminate.
Qed.

(** The x-axis title of the sample figure is given a standoff of 10:
    drawing it throws. *)
Lemma standoff_path_witness :
  let gd := Sample.gd_with (VStr "bottom") VUndefined Sample.no_flags
              (Some 10) in
  let o := Sample.options_with "Revenue" None None in
  snd (@draw Sample.titles_imports gd "xtitle" o Sample.measured
         Sample.empty_dom) = Throw ReferenceError.
Proof.
  intros gd o.
  exact (proj1 (proj2 (proj2
           (standoff_path_raises_ReferenceError Sample.titles_imports gd
              "xtitle" o Sample.measured Sample.empty_dom)))
           (Sample.axis "x" (Some 10)) 10 eq_refl eq_refl eq_refl eq_refl).
Defined.

End StandoffFacts.

(** ** [drawTitle] *)

Module DrawTitleFacts.
Import Titles Frame DuplicateFacts.

Section Draw.

Context {I : Imports}.
Variables (gd : GraphDiv) (o : Options) (ms : Measured) (fnt : Font)
  (txt : string).

Lemma x_branch_title_attrs :
  preserves title_attrs (x_branch gd o ms fnt txt).
Proof.
  unfold x_branch.
  destruct (one_of _ _); [|apply preserves_ret].
  repeat first
    [ apply titleStandoff_of_frame
    | apply layout_axis_title_text_frame
    | progress frame ].
Qed.

Lemma y_branch_title_attrs :
  preserves title_attrs (y_branch gd o ms fnt txt).
Proof.
  unfold y_branch.
  destruct (one_of _ _); [|apply preserves_ret].
  repeat first
    [ apply titleStandoff_of_frame
    | apply layout_axis_title_text_frame
    | progress frame ].
Qed.

Lemma epilogue_title_attrs editable :
  preserves title_attrs (epilogue o txt editable).
Proof.
  unfold epilogue, setPlaceholder.
  frame; intros s; destruct s as [[[[e|] tr] xg yg] lv]; reflexivity.
Qed.

End Draw.

(** At the time [draw] runs, [drawTitle] sees the options as they were
    passed: the title element gets a transform made of
    [rotate(rotate, x, y)] when [options.transform.rotate] is truthy and
    [translate(0, offset)] when [options.transform.offset] is truthy,
    [null] when [options.transform] is absent, and the configured font
    family, rounded size, rgb fill and opacity times the opacity of the
    font color. *)
Theorem draw_time_title_attributes :
  forall (I : Imports) gd titleClass o ms d,
    let p := prologue gd o in
    let fnt := title_font (propContainer_title o) in
    let a := attributes o in
    elShouldExist (p_txt p) (editable_of (propName o) (edits gd)) = true ->
    title_attrs (fst (draw gd titleClass o ms d)) =
    Some
      (match transform o with
       | Some tr =>
           Some (List.app
                   (if truthy (rotate tr)
                    then [Rotate (rotate tr) (attr_x a) (attr_y a)] else [])
                   (match offset tr with
                    | Some off =>
                        if Qeq_bool off 0 then [] else [Translate 0 off]
                    | None => []
                    end))
       | None => None
       end,
       Some (mkTextStyle (family fnt) (d3_round (size fnt) 2)
               (Color_rgb (color fnt))
               (VNum (p_opacity p * Color_opacity (color fnt)))
               Plots_fontWeight)).
Proof.
  intros I gd cls o ms d p fnt a Hex.
  unfold draw. fold p fnt. rewrite Hex. simpl negb. cbv iota.
  match goal with
  | |- title_attrs (fst (bindM ?m ?k ?s0)) = _ =>
      assert (Hk : preserves title_attrs (k tt));
      [ | unfold bindM at 1; unfold titleLayout at 1;
          unfold bindM at 1, get_locals at 1, set_dom at 1; cbv beta iota;
          rewrite Hk ]
  end.
  - apply preserves_bind; [apply x_branch_title_attrs | intros _].
    apply preserves_bind; [apply y_branch_title_attrs | intros _].
    apply epilogue_title_attrs.
  - unfold title_attrs, write_title, show.
    assert (Hexists : exists e,
      g_text (match title_text_for gd cls (p_txt p) with
              | Some v => exit_remove true
                            (on_text true (set_text_class v cls)
                               (enter_text true (title_group d)))
              | None => enter_text true (title_group d)
              end) = Some e).
    { destruct (title_group d) as [[e|] tr],
        (title_text_for gd cls (p_txt p)); simpl; eexists; reflexivity. }
    destruct Hexists as [e He].
    cbn [fst dom title_group g_text locals]. unfold on_text at 1.
    rewrite He. cbn [g_text]. unfold drawTitle, transformVal.
    cbn [el_transform el_style initial_locals v_transform v_fontSize
         v_opacity].
    fold a. destruct (transform o) as [tr|]; [|reflexivity].
    destruct (offset tr) as [off|]; [|reflexivity].
    unfold strTranslate. change (Qeq_bool 0 0) with true. cbn [andb].
    destruct (Qeq_bool off 0); reflexivity.
Qed.

Lemma draw_time_title_attributes_witness :
  let gd := Sample.gd_with (VStr "bottom") (VStr "left") Sample.no_flags
              None in
  let o := Sample.options_with "Revenue" None
             (Some (mkTransformOpt (VNum (-90)) (Some 0))) in
  title_attrs
    (fst (@draw Sample.titles_imports gd "ytitle" o Sample.measured
            Sample.empty_dom)) =
  Some (Some [Rotate (VNum (-90)) 350 420],
        Some (mkTextStyle (VStr "Arial") (Some 17) (VStr "#444")
                (VNum (1 * 1)) (VStr "normal"))).
Proof.
  intros gd o.
  exact (draw_time_title_attributes Sample.titles_imports gd "ytitle" o
           Sample.measured Sample.empty_dom eq_refl).
Defined.

(** C7.  The variables [transform] and [fontSize] that [drawTitle] reads
    are assigned again by the axis branches of [draw].  For an editable
    main title drawn without [options.transform] on a figure whose y-axis
    side is "left", [draw] leaves the element without a transform and with
    the configured font size 17; when the edit is cancelled, the listener
    runs [drawTitle] again and the element gets [rotate(-90, x, y)] and
    the font size 14 of the y-axis title. *)
Theorem cancel_redraws_title_with_branch_locals :
  let gd := Sample.gd_editable (VStr "bottom") (VStr "left") in
  let o := Sample.main_title_options in
  let r := @draw Sample.titles_imports gd "gtitle" o Sample.measured
             Sample.empty_dom in
  let c := @on_cancel Sample.titles_imports gd o Sample.measured
             (VStr "Revenue") (fst r) in
  let transform_and_size s :=
    match title_attrs s with
    | Some (tr, Some st) => Some (tr, font_size_px st)
    | _ => None
    end in
  transform o = None /\
  size (title_font (propContainer_title o)) = Some 17 /\
  snd r = Normal tt /\
  transform_and_size (fst r) = Some (None, Some 17) /\
  snd c = Normal tt /\
  transform_and_size (fst c) =
    Some (Some [Rotate (VStr "-90") 350 40], Some 14).
Proof.
  cbv zeta. repeat split; vm_compute; reflexivity.
Qed.

End DrawTitleFacts.

(** ** Legend: position of the glyph layer *)

Module PlacementFacts.
Import LegendStyle.

Section Placement.

Context {I : Imports}.


End Placement.







End PlacementFacts.

(** ** Legend: glyphs of the spatial traces *)

Module SpatialFacts.
Import LegendStyle.










End SpatialFacts.

(** ** Legend: the style guide and [hidetoggle] *)

Module StyleGuideFacts.
Import LegendStyle.

Section Guide.

Context {I : Imports}.






End Guide.



End StyleGuideFacts.

(** ** Legend: the assignment to [legend.itemwidth] *)

Module ItemWidthFacts.
Import LegendStyle.

Section Lines.

Context {I : Imports}.
Variable gd : GraphDiv.
Hypothesis symbol_none : chain gd symbolstyle_style = VStr "none".

Lemma styleLines_assigns itemWidth lg it :
  fst (styleLines gd itemWidth lg it) = set_itemwidth 0 lg.
Proof.
  unfold styleLines, styleLines_legend. rewrite symbol_none. reflexivity.
Qed.

(** After the [each(styleLines)] pass over a non-empty selection the
    legend holds [itemwidth = 0], whether or not the pass completed. *)
Lemma each_styleLines_assigns itemWidth : forall items lg,
  items <> [] ->
  fst (each_styleLines gd itemWidth lg items) = set_itemwidth 0 lg.
Proof.
  induction items as [|it r IH]; intros lg Hne; [contradiction|].
  cbn [each_styleLines].
  pose proof (styleLines_assigns itemWidth lg it) as H1.
  destruct (styleLines gd itemWidth lg it) as [lg1 [ln|e]];
    cbn [fst] in H1; [|exact H1].
  destruct r as [|it2 r].
  - exact H1.
  - assert (Hr : it2 :: r <> []) by discriminate.
    specialize (IH lg1 Hr).
    destruct (each_styleLines gd itemWidth lg1 (it2 :: r)) as [lg2 [lns|e]];
      cbn [fst] in *; rewrite IH, H1; reflexivity.
Qed.

End Lines.

(** C9.  When [symbolstyle.style === "none"], [styleLines] assigns
    [legend.itemwidth = 0] and changes no other field of the legend.  The
    object it assigns to is the one the caller owns
    ([gd._fullLayout.legend] when no legend is passed), so after a call of
    [style] on a non-empty selection the caller's legend holds
    [itemwidth = 0] and the next call computes its [centerTransform] from
    0, while the [centerTransform] of the call itself was computed from
    the item width before the assignment. *)
Theorem styleLines_zeroes_caller_itemwidth :
  forall (I : Imports) gd,
    chain gd symbolstyle_style = VStr "none" ->
    (forall itemWidth lg it,
       let lg' := fst (styleLines gd itemWidth lg it) in
       itemwidth lg' = 0 /\
       itemsizing lg' = itemsizing lg /\ _width lg' = _width lg /\
       valign lg' = valign lg /\ hidetoggle lg' = hidetoggle lg /\
       _inHover lg' = _inHover lg) /\
    (forall items st st' out,
       items <> [] ->
       style items gd st = (st', Normal out) ->
       the_legend st' = set_itemwidth 0 (the_legend st) /\
       (arg_legend st = None ->
        fullLayout_legend st' = set_itemwidth 0 (fullLayout_legend st)) /\
       (forall lg, arg_legend st = Some lg ->
          arg_legend st' = Some (set_itemwidth 0 lg) /\
          fullLayout_legend st' = fullLayout_legend st) /\
       centerTransform out =
         strTranslate ((itemwidth (the_legend st) + itemGap * 2) / 2) 0 /\
       (forall items2 st2 out2,
          style items2 gd st' = (st2, Normal out2) ->
          centerTransform out2 = strTranslate ((0 + itemGap * 2) / 2) 0)).
Proof.
  intros I gd Hnone. split.
  - intros itemWidth lg it lg'. subst lg'.
    rewrite (styleLines_assigns gd Hnone). repeat split.
  - intros items st st' out Hne H.
    assert (Hst : st' = put_legend st (set_itemwidth 0 (the_legend st)) /\
                  centerTransform out =
                  strTranslate
                    ((itemwidth (the_legend st) + itemGap * 2) / 2) 0).
    { unfold style in H.
      destruct (each (styleSpatial gd) items); [|discriminate].
      pose proof (each_styleLines_assigns gd Hnone
                    (itemwidth (the_legend st)) items (the_legend st) Hne)
        as HL.
      destruct (each_styleLines _ _ _ _) as [lg' [ln|e]]; [|discriminate].
      simpl in HL. injection H as <- <-. rewrite HL. split; reflexivity. }
    destruct Hst as [-> Hc].
    assert (Hlegend : the_legend
                        (put_legend st (set_itemwidth 0 (the_legend st))) =
                      set_itemwidth 0 (the_legend st)).
    { unfold the_legend, put_legend. destruct (arg_legend st); reflexivity. }
    split; [exact Hlegend|].
    split; [|split; [|split]].
    + intros Hn. unfold put_legend, the_legend. rewrite Hn. reflexivity.
    + intros lg Hs. unfold put_legend, the_legend. rewrite Hs.
      split; reflexivity.
    + exact Hc.
    + intros items2 st2 out2 H2. unfold style in H2.
      rewrite Hlegend in H2.
      destruct (each (styleSpatial gd) items2); [|discriminate].
      destruct (each_styleLines _ _ _ _) as [lg' [ln|e]]; [|discriminate].
      injection H2 as _ <-. reflexivity.
Qed.

(** One scatter item, symbol style "none", no legend passed:
    [gd._fullLayout.legend] comes back with [itemwidth = 0], and the
    glyphs of the call were centered for the width 30. *)
Lemma styleLines_zeroes_itemwidth_witness :
  let gd := Sample.legend_gd
              (Sample.inpixon_with None VUndefined (VStr "none")) in
  let items := [Sample.item_of (Sample.trace_of "scatter" VUndefined None)] in
  let st := mkStore Sample.legend None in
  let r := @style Sample.legend_imports items gd st in
  chain gd symbolstyle_style = VStr "none" /\
  items <> [] /\
  (exists out,
     snd r = Normal out /\
     centerTransform out = [Translate ((30 + 5 * 2) / 2) 0]) /\
  itemwidth (fullLayout_legend (fst r)) = 0.
Proof.
  intros gd items st r.
  assert (Hr : exists out, r = (fst r, Normal out))
    by (eexists; vm_compute; reflexivity).
  destruct Hr as [out Hr].
  destruct (proj2 (styleLines_zeroes_caller_itemwidth Sample.legend_imports
                     gd eq_refl)
              items st (fst r) out ltac:(discriminate) Hr)
    as (_ & Hfl & _ & Hc & _).
  split; [reflexivity|]. split; [discriminate|]. split.
  - exists out. split; [rewrite Hr; reflexivity | exact Hc].
  - rewrite (Hfl eq_refl). reflexivity.
Defined.

End ItemWidthFacts.

(** ** The axis branches in full *)

Module BranchFacts.
Import Titles Frame DuplicateFacts.

Section Branches.

Context {I : Imports}.
Variables (gd : GraphDiv) (o : Options) (ms : Measured) (fnt : Font)
  (txt : string).

(** Without a standoff of its own the distance is [standoff_value]: the
    tick length and the tick side never enter it. *)
Lemma titleStandoff_of_value ax letter fs s :
  title_standoff ax = None ->
  titleStandoff_of ax letter fs s = (s, Normal (standoff_value ax letter fs)).
Proof.
  intros H. unfold titleStandoff_of, standoff_value. rewrite H.
  unfold ret. do 2 f_equal. cbn [negb].
  destruct (String.eqb letter "x"), (String.eqb (ax_side ax) "top"),
    (String.eqb (ax_side ax) "right"), (showticklabels ax),
    (String.eqb (type ax) "multicategory"); reflexivity.
Qed.


(** The x-axis branch run to its end, step by step. *)
Lemma x_branch_full s s' :
  x_branch gd o ms fnt txt s = (s', Normal tt) ->
  let xside := axis_side (layout gd) l_xaxis in
  let both := is_str xside "both" in
  let shown := truthy (inpixon_flag (layout gd) xtitletop) && both in
  one_of xside ["both"; "bottom"; "top"] = true ->
  exists ax aa e,
    fl_xaxis (_fullLayout gd) = Some ax /\
    title_standoff ax = None /\
    anchor_axis_from gd ax true (v_anchorAxis (locals s)) = Some aa /\
    containerGroup o = false /\
    (shown = true -> axis_title_text (layout gd) l_xaxis <> None) /\
    let letter := charAt0 (_id ax) in
    let fs := title_font_size ax in
    let ts := standoff_value ax letter fs in
    let lv := set_anchorAxis (Some aa) (set_fontSize fs (locals s)) in
    locals s' =
      (if String.eqb letter "x" then lv
       else set_transform rotate_minus_90 lv) /\
    title_group (dom s') = title_group (dom s) /\
    yboth_group (dom s') = yboth_group (dom s) /\
    g_transform (xboth_group (dom s')) =
      Scoot.xboth_scoot Lib_bBoxIntersect (avoid_of o) txt both
        (fl_width (_fullLayout gd)) (fl_height (_fullLayout gd))
        (xboth_bb ms) (g_transform (xboth_group (dom s))) /\
    g_text (xboth_group (dom s')) = Some e /\
    el_style e = Some (both_style fnt (locals s') both) /\
    el_anchor e = text_anchor (attributes o) /\
    (el_x e, el_y e) =
      (if String.eqb letter "x"
       then (Some (_offset ax + _length ax / 2), Some (aa_offset aa - ts))
       else (Some (aa_offset aa + ts), Some (_offset ax + _length ax / 2))).
Proof.
  intros H xside both shown Hone. unfold x_branch in H. fold xside in H.
  rewrite Hone in H. fold both shown in H. invM.
  all: repeat match goal with
       | H : titleStandoff_of ?a ?l ?f ?s = _ |- _ =>
           let E := fresh "E" in
           destruct (titleStandoff_of_normal _ _ _ _ _ _ H) as [E ?];
           rewrite (titleStandoff_of_value a l f s E) in H;
           injection H as <-; subst
       | H : layout_axis_title_text _ _ _ = _ |- _ =>
           apply layout_axis_title_text_normal in H; destruct H as [? ?];
           subst
       end.
  all: destruct s as [[tg [[e0|] xtr] yg] lv]; cbn.
  all: match goal with
       | ax : FullAxis, aa : AnchorAxis |- _ => exists ax, aa; eexists
       end.
  all: unfold anchor_axis_from; cbn [andb];
    repeat match goal with E : String.eqb _ _ = _ |- _ => rewrite E end;
    repeat split; try assumption; try reflexivity; try congruence.
  all: cbn in *;
    repeat match goal with E : String.eqb _ _ = _ |- _ => rewrite E in * end;
    congruence.
Qed.


(** The y-axis branch run to its end. *)
Lemma y_branch_full s s' :
  y_branch gd o ms fnt txt s = (s', Normal tt) ->
  let yside := axis_side (layout gd) l_yaxis in
  let both := is_str yside "both" in
  let shown := truthy (inpixon_flag (layout gd) ytitleright) && both in
  one_of yside ["both"; "left"; "right"] = true ->
  exists ax aa e,
    fl_yaxis (_fullLayout gd) = Some ax /\
    title_standoff ax = None /\
    anchor_axis_from gd ax false (v_anchorAxis (locals s)) = Some aa /\
    containerGroup o = false /\
    (shown = true -> axis_title_text (layout gd) l_yaxis <> None) /\
    let fs := title_font_size ax in
    let ts := standoff_value ax (charAt0 (_id ax)) fs in
    let px := aa_offset aa + aa_length aa + ts in
    let py := _offset ax + _length ax / 2 in
    locals s' =
      set_transform rotate_minus_90
        (set_anchorAxis (Some aa) (set_fontSize fs (locals s))) /\
    title_group (dom s') = title_group (dom s) /\
    xboth_group (dom s') = xboth_group (dom s) /\
    g_transform (yboth_group (dom s')) =
      Scoot.yboth_scoot (avoid_of o) txt
        (fl_width (_fullLayout gd)) (fl_height (_fullLayout gd))
        (yboth_bb ms) (g_transform (yboth_group (dom s))) /\
    g_text (yboth_group (dom s')) = Some e /\
    el_style e = Some (both_style fnt (locals s') both) /\
    el_anchor e = text_anchor (attributes o) /\
    el_x e = Some px /\ el_y e = Some py /\
    el_transform e = Some [Rotate (VNum (-270)) px py].
Proof.
  intros H yside both shown Hone. unfold y_branch in H. fold yside in H.
  rewrite Hone in H. fold both shown in H. invM.
  all: repeat match goal with
       | H : titleStandoff_of ?a ?l ?f ?s = _ |- _ =>
           let E := fresh "E" in
           destruct (titleStandoff_of_normal _ _ _ _ _ _ H) as [E ?];
           rewrite (titleStandoff_of_value a l f s E) in H;
           injection H as <-; subst
       | H : layout_axis_title_text _ _ _ = _ |- _ =>
           apply layout_axis_title_text_normal in H; destruct H as [? ?];
           subst
       end.
  all: destruct s as [[tg xg [[e0|] ytr]] lv]; cbn.
  all: match goal with
       | ax : FullAxis, aa : AnchorAxis |- _ => exists ax, aa; eexists
       end.
  all: unfold anchor_axis_from; cbn [andb];
    repeat match goal with E : String.eqb _ _ = _ |- _ => rewrite E end;
    repeat split; try assumption; try reflexivity; try congruence.
  all: cbn in *;
    repeat match goal with E : String.eqb _ _ = _ |- _ => rewrite E in * end;
    congruence.
Qed.

(** A branch whose side test fails does nothing. *)
Lemma x_branch_skipped s :
  one_of (axis_side (layout gd) l_xaxis) ["both"; "bottom"; "top"] = false ->
  x_branch gd o ms fnt txt s = (s, Normal tt).
Proof. intros H. unfold x_branch. rewrite H. reflexivity. Qed.

End Branches.
End BranchFacts.

(** ** [draw] as a whole *)

Module DrawFacts.
Import Titles Frame DuplicateFacts BranchFacts.

Section Draw.

Context {I : Imports}.
Variables (gd : GraphDiv) (cls : string) (o : Options) (ms : Measured)
  (d : Dom).

Local Abbreviation p := (prologue gd o).
Local Abbreviation txt := (p_txt (prologue gd o)).
Local Abbreviation fnt := (title_font (propContainer_title o)).
Local Abbreviation editable := (editable_of (propName o) (edits gd)).
Local Abbreviation gate :=
  (elShouldExist (p_txt (prologue gd o))
     (editable_of (propName o) (edits gd))).
Local Abbreviation start := (after_titleLayout gd cls o ms d).

Lemma draw_gate_false :
  gate = false ->
  draw gd cls o ms d =
  (mkState
     (mkDom (write_title gd cls txt false (title_group d))
        (xboth_group d) (yboth_group d))
     (initial_locals o fnt p),
   Normal tt).
Proof.
  intros H. unfold draw. rewrite H. reflexivity.
Qed.

Lemma draw_gate_true :
  gate = true ->
  draw gd cls o ms d =
  bindM (x_branch gd o ms fnt txt)
    (fun _ => bindM (y_branch gd o ms fnt txt)
       (fun _ => epilogue o txt editable))
    start.
Proof.
  intros H. unfold draw. rewrite H. reflexivity.
Qed.

Lemma after_titleLayout_frame :
  locals start = initial_locals o fnt p /\
  xboth_group (dom start) = xboth_group d /\
  yboth_group (dom start) = yboth_group d /\
  exists e, g_text (title_group (dom start)) = Some e.
Proof.
  unfold after_titleLayout, titleLayout, bindM, get_locals, set_dom.
  cbn. repeat split.
  unfold write_title, show.
  destruct (title_group d) as [[e|] tr], (title_text_for gd cls txt);
    cbn; eexists; reflexivity.
Qed.

Lemma draw_normal_inv s' :
  gate = true ->
  draw gd cls o ms d = (s', Normal tt) ->
  exists s2 s3,
    x_branch gd o ms fnt txt start = (s2, Normal tt) /\
    y_branch gd o ms fnt txt s2 = (s3, Normal tt) /\
    epilogue o txt editable s3 = (s', Normal tt).
Proof.
  intros Hg H. rewrite (draw_gate_true Hg) in H.
  apply bindM_normal in H. destruct H as ([] & s2 & H2 & H).
  apply bindM_normal in H. destruct H as ([] & s3 & H3 & H4).
  exists s2, s3. auto.
Qed.

(** [anchorAxis] is [undefined] when the x-axis branch starts, and the
    y-axis branch finds in it what [carried_anchor] says. *)
Lemma start_anchor : v_anchorAxis (locals start) = None.
Proof.
  destruct after_titleLayout_frame as (-> & _). reflexivity.
Qed.

Lemma x_branch_carries s2 :
  x_branch gd o ms fnt txt start = (s2, Normal tt) ->
  v_anchorAxis (locals s2) = carried_anchor gd.
Proof.
  intros H. unfold carried_anchor.
  destruct (one_of (axis_side (layout gd) l_xaxis) _) eqn:Hone.
  - destruct (x_branch_full gd o ms fnt txt _ _ H Hone)
      as (ax & aa & e & Hax & _ & Haa & _ & _ & Hl & _).
    cbv zeta in Hl. rewrite start_anchor in Haa. rewrite Hax, Haa, Hl.
    destruct (String.eqb _ "x"); reflexivity.
  - rewrite (x_branch_skipped gd o ms fnt txt _ Hone) in H.
    injection H as <-. apply start_anchor.
Qed.

(** The end of [draw] always completes; it touches the text and the
    placeholder flag of the title element, and the locals [opacity] and
    [isplaceholder]. *)
Lemma epilogue_total t e s :
  exists s', epilogue o t e s = (s', Normal tt) /\
    xboth_group (dom s') = xboth_group (dom s) /\
    yboth_group (dom s') = yboth_group (dom s) /\
    g_transform (title_group (dom s')) = g_transform (title_group (dom s)) /\
    v_transform (locals s') = v_transform (locals s) /\
    v_fontSize (locals s') = v_fontSize (locals s) /\
    title_attrs s' = title_attrs s.
Proof.
  unfold epilogue, setPlaceholder, bindM, set_locals, set_dom, get_locals, ret.
  destruct s as [[[[e0|] tr] xg yg] lv];
    destruct (truthy e && String.eqb t ""); cbn;
    eexists; repeat split; reflexivity.
Qed.

End Draw.

Lemma title_text_for_known gd cls t :
  (known_title_class cls = true -> title_text_for gd cls t <> None) /\
  (known_title_class cls = false -> title_text_for gd cls t = None).
Proof.
  unfold known_title_class, title_text_for. cbn [existsb].
  destruct (String.eqb cls "gtitle"); [split; [discriminate|discriminate]|].
  destruct (String.eqb cls "xtitle");
    [split; [destruct (xtitle_hidden _ _ _)|]; discriminate|].
  destruct (String.eqb cls "ytitle");
    [split; [destruct (ytitle_hidden _ _ _)|]; discriminate|].
  destruct (String.eqb cls "polartitle");
    [split; [destruct (polartitle_hidden _)|]; discriminate|].
  destruct (String.eqb cls "atitle");
    [split; [destruct (is_true _)|]; discriminate|].
  destruct (String.eqb cls "btitle");
    [split; [destruct (is_true _)|]; discriminate|].
  destruct (String.eqb cls "ctitle");
    [split; [destruct (is_true _)|]; discriminate|].
  split; [discriminate|reflexivity].
Qed.

(** When the title text is empty and the title is not editable, [draw]
    completes whatever the figure holds; it removes the text element of a
    title of a known class and leaves the duplicates, every transform and
    the locals alone. *)
Theorem draw_without_text_removes_title :
  forall (I : Imports) gd cls o ms d,
    elShouldExist (p_txt (prologue gd o))
      (editable_of (propName o) (edits gd)) = false ->
    known_title_class cls = true ->
    let r := draw gd cls o ms d in
    snd r = Normal tt /\
    g_text (title_group (dom (fst r))) = None /\
    g_transform (title_group (dom (fst r))) = g_transform (title_group d) /\
    xboth_group (dom (fst r)) = xboth_group d /\
    yboth_group (dom (fst r)) = yboth_group d.
Proof.
  intros I gd cls o ms d Hg Hk r. subst r.
  rewrite (draw_gate_false gd cls o ms d Hg). cbn [fst snd dom].
  cbn [title_group xboth_group yboth_group].
  destruct (title_text_for_known gd cls (p_txt (prologue gd o))) as [K _].
  specialize (K Hk). unfold write_title, show.
  destruct (title_text_for gd cls _) as [v|]; [|contradiction].
  destruct (title_group d) as [[e|] tr]; repeat split.
Qed.

Lemma draw_without_text_witness :
  let gd := Sample.gd_with (VStr "both") (VStr "both") Sample.both_flags
              (Some 10) in
  let o := Sample.options_with "" None None in
  let d := mkDom (mkGroup (Some new_text) (Some [Translate 0 7]))
             Sample.empty_group Sample.empty_group in
  let r := @draw Sample.titles_imports gd "xtitle" o Sample.measured d in
  snd r = Normal tt /\
  g_text (title_group (dom (fst r))) = None /\
  g_transform (title_group (dom (fst r))) = Some [Translate 0 7].
Proof.
  intros gd o d r.
  destruct (draw_without_text_removes_title Sample.titles_imports gd "xtitle"
              o Sample.measured d eq_refl eq_refl) as (H1 & H2 & H3 & _).
  repeat split; assumption.
Defined.

(** A title class [draw] has no branch for (the title of a second axis,
    of a colorbar, of a legend) never has its text written: with a
    title text the element keeps the text and class it had, or is created
    empty; without one the element is not removed. *)
Theorem draw_never_writes_unknown_class :
  forall (I : Imports) gd cls o ms d,
    known_title_class cls = false ->
    let txt := p_txt (prologue gd o) in
    let r := draw gd cls o ms d in
    (txt <> "" ->
     title_written (fst r) =
       match g_text (title_group d) with
       | Some e => Some (el_text e, el_class e)
       | None => Some (VStr "", "")
       end) /\
    (elShouldExist txt (editable_of (propName o) (edits gd)) = false ->
     g_text (title_group (dom (fst r))) = g_text (title_group d)).
Proof.
  intros I gd cls o ms d Hk txt r. subst r.
  destruct (title_text_for_known gd cls txt) as [_ K]. specialize (K Hk).
  split.
  - intros Htxt.
    rewrite (VisibilityFacts.draw_title_written gd cls o ms d Htxt).
    fold txt. unfold write_title. rewrite K.
    destruct (title_group d) as [[e|] tr]; reflexivity.
  - intros Hg. rewrite (draw_gate_false gd cls o ms d Hg). cbn.
    unfold write_title. fold txt. rewrite K. reflexivity.
Qed.

Lemma draw_never_writes_unknown_class_witness :
  let gd := Sample.gd_with VUndefined VUndefined Sample.no_flags None in
  let o := Sample.options_with "Revenue" None None in
  known_title_class "x2title" = false /\
  title_written
    (fst (@draw Sample.titles_imports gd "x2title" o Sample.measured
            Sample.empty_dom)) = Some (VStr "", "").
Proof.
  intros gd o. split; [reflexivity|].
  exact (proj1 (draw_never_writes_unknown_class Sample.titles_imports gd
                  "x2title" o Sample.measured Sample.empty_dom eq_refl)
           ltac:(discriminate)).
Defined.

(** The inputs a completed [draw] must have found.  When [draw] passes
    the [elShouldExist] test and completes without error, every axis
    branch it entered had its axis in the full layout, an axis title
    without a standoff of its own, an anchor axis (for the y-axis branch
    possibly the one the x-axis branch left in the shared variable), no
    [containerGroup] among the options and, when the duplicate shows the
    axis title, a title object in the user layout. *)
Theorem draw_completes_only_with_branch_inputs :
  forall (I : Imports) gd cls o ms d s',
    let xside := axis_side (layout gd) l_xaxis in
    let yside := axis_side (layout gd) l_yaxis in
    let found (full_axis : option FullAxis) (x_too shown : bool)
          (layout_axis : Layout -> option LayoutAxis) :=
      exists ax aa,
        full_axis = Some ax /\
        title_standoff ax = None /\
        anchor_axis gd ax x_too = Some aa /\
        containerGroup o = false /\
        (shown = true -> axis_title_text (layout gd) layout_axis <> None) in
    elShouldExist (p_txt (prologue gd o))
      (editable_of (propName o) (edits gd)) = true ->
    draw gd cls o ms d = (s', Normal tt) ->
    (one_of xside ["both"; "bottom"; "top"] = true ->
     found (fl_xaxis (_fullLayout gd)) true
       (truthy (inpixon_flag (layout gd) xtitletop) && is_str xside "both")
       l_xaxis) /\
    (one_of yside ["both"; "left"; "right"] = true ->
     found (fl_yaxis (_fullLayout gd)) false
       (truthy (inpixon_flag (layout gd) ytitleright) && is_str yside "both")
       l_yaxis).
Proof.
  intros I gd cls o ms d s' xside yside found Hg E.
  destruct (draw_normal_inv gd cls o ms d s' Hg E)
    as (s2 & s3 & H2 & H3 & _).
  split; intros Hone.
  - destruct (x_branch_full gd o ms _ _ _ _ H2 Hone)
      as (ax & aa & e & Hax & Hst & Haa & Hc & Hshown & _).
    rewrite start_anchor in Haa.
    exists ax, aa. repeat split; assumption.
  - destruct (y_branch_full gd o ms _ _ _ _ H3 Hone)
      as (ax & aa & e & Hax & Hst & Haa & Hc & Hshown & _).
    rewrite (x_branch_carries gd cls o ms d s2 H2) in Haa.
    exists ax, aa. repeat split; assumption.
Qed.

Lemma draw_completes_witness :
  let gd := Sample.gd_with (VStr "both") (VStr "left") Sample.both_flags
              None in
  let o := Sample.options_with "Revenue" None None in
  let r := @draw Sample.titles_imports gd "xtitle" o Sample.measured
             Sample.empty_dom in
  snd r = Normal tt /\
  exists ax aa,
    fl_yaxis (_fullLayout gd) = Some ax /\
    @anchor_axis gd ax false = Some aa /\
    aa_offset aa = 80.
Proof.
  intros gd o r.
  assert (Hr : r = (fst r, Normal tt)) by (vm_compute; reflexivity).
  destruct (proj2 (draw_completes_only_with_branch_inputs
                     Sample.titles_imports gd "xtitle" o Sample.measured
                     Sample.empty_dom (fst r) eq_refl Hr) eq_refl)
    as (ax & aa & Hax & _ & Haa & _).
  split; [vm_compute; reflexivity|].
  exists ax, aa. split; [exact Hax|]. split; [exact Haa|].
  vm_compute in Hax. injection Hax as <-.
  vm_compute in Haa. injection Haa as <-. reflexivity.
Defined.

End DrawFacts.

(** ** [draw]: placeholder, duplicates and the locals it leaves *)

Module AfterDrawFacts.
Import Titles Frame DuplicateFacts BranchFacts DrawFacts.

Section Draw.

Context {I : Imports}.
Variables (gd : GraphDiv) (o : Options) (ms : Measured) (fnt : Font)
  (txt : string).

Lemma x_branch_title_group :
  preserves (fun s => title_group (dom s)) (x_branch gd o ms fnt txt).
Proof.
  unfold x_branch.
  destruct (one_of _ _); [|apply preserves_ret].
  repeat first
    [ apply titleStandoff_of_frame
    | apply layout_axis_title_text_frame
    | progress frame ].
Qed.

Lemma y_branch_title_group :
  preserves (fun s => title_group (dom s)) (y_branch gd o ms fnt txt).
Proof.
  unfold y_branch.
  destruct (one_of _ _); [|apply preserves_ret].
  repeat first
    [ apply titleStandoff_of_frame
    | apply layout_axis_title_text_frame
    | progress frame ].
Qed.

Lemma scootTitle_without_text isect av fw fh bb prev :
  Scoot.scootTitle isect av "" fw fh bb prev = prev.
Proof.
  unfold Scoot.scootTitle. destruct (selection av), (side av); reflexivity.
Qed.

(** What the "cancel" listener writes on the title element: the
    attributes [drawTitle] computes from the locals as [draw] left
    them. *)
Lemma on_cancel_attrs u s e :
  g_text (title_group (dom s)) = Some e ->
  title_attrs (fst (on_cancel gd o ms u s)) =
  Some (transformVal (v_transform (locals s)) (attributes o),
        Some (mkTextStyle
                (family (title_font (propContainer_title o)))
                (d3_round (v_fontSize (locals s)) 2)
                (Color_rgb (color (title_font (propContainer_title o))))
                (VNum (v_opacity (locals s) *
                       Color_opacity
                         (color (title_font (propContainer_title o)))))
                Plots_fontWeight)).
Proof.
  intros He. unfold on_cancel, titleLayout, bindM, set_dom, get_locals.
  destruct s as [[[gt gtr] xg yg] lv]. cbn in He. subst gt. reflexivity.
Qed.

End Draw.

(** An editable title without text: when [draw] completes, the title
    element shows the placeholder and is flagged as one, the local
    [opacity] is 0, and the title group keeps the transform it had,
    since [scootTitle] does nothing without a text. *)
Theorem editable_empty_title_shows_placeholder :
  forall (I : Imports) gd cls o ms d s',
    p_txt (prologue gd o) = "" ->
    truthy (editable_of (propName o) (edits gd)) = true ->
    draw gd cls o ms d = (s', Normal tt) ->
    (exists e,
       g_text (title_group (dom s')) = Some e /\
       el_text e = VStr (placeholder o) /\
       el_js_placeholder e = true) /\
    v_opacity (locals s') = 0 /\
    v_isplaceholder (locals s') = true /\
    g_transform (title_group (dom s')) = g_transform (title_group d).
Proof.
  intros I gd cls o ms d s' Htxt Hed H.
  assert (Hg : elShouldExist (p_txt (prologue gd o))
                 (editable_of (propName o) (edits gd)) = true)
    by (unfold elShouldExist; rewrite Hed; apply orb_true_r).
  pose proof (TitleGroupFacts.draw_title_transform gd cls o ms d Hg) as HT.
  rewrite H, Htxt, scootTitle_without_text in HT. cbn [fst] in HT.
  destruct (draw_normal_inv gd cls o ms d s' Hg H)
    as (s2 & s3 & H2 & H3 & H4).
  destruct (after_titleLayout_frame gd cls o ms d) as (_ & _ & _ & e0 & He0).
  pose proof (x_branch_title_group gd o ms
                (title_font (propContainer_title o)) (p_txt (prologue gd o))
                (after_titleLayout gd cls o ms d)) as F2.
  rewrite H2 in F2. cbn [fst] in F2.
  pose proof (y_branch_title_group gd o ms
                (title_font (propContainer_title o)) (p_txt (prologue gd o))
                s2) as F3.
  rewrite H3 in F3. cbn [fst] in F3.
  assert (He3 : g_text (title_group (dom s3)) = Some e0)
    by (rewrite F3, F2; exact He0).
  rewrite Htxt in H4. unfold epilogue in H4. rewrite Hed in H4.
  cbn [String.eqb andb] in H4.
  unfold setPlaceholder, bindM, set_locals, set_dom, get_locals, ret in H4.
  destruct s3 as [[[gt gtr] xg yg] lv]. cbn in He3. subst gt.
  cbn in H4. injection H4 as <-.
  split; [eexists; repeat split|]. exact (conj eq_refl (conj eq_refl HT)).
Qed.

Lemma editable_empty_title_witness :
  let gd := Sample.gd_editable (VStr "bottom") VUndefined in
  let o := Titles.mkOptions (Some (Titles.mkTitle None None)) "title.text"
             "Click to enter Plot title" None None
             (Titles.mkAttributes 350 40 (VStr "middle")) None false None in
  let r := @draw Sample.titles_imports gd "gtitle" o Sample.measured
             Sample.empty_dom in
  snd r = Normal tt /\
  written (title_group (dom (fst r))) =
    Some (VStr "Click to enter Plot title", "gtitle").
Proof.
  intros gd o r.
  assert (Hr : r = (fst r, Normal tt)) by (vm_compute; reflexivity).
  destruct (editable_empty_title_shows_placeholder Sample.titles_imports gd
              "gtitle" o Sample.measured Sample.empty_dom (fst r)
              eq_refl eq_refl Hr) as ((e & He & Ht & _) & _).
  split; [vm_compute; reflexivity|].
  unfold written. rewrite He, Ht. f_equal. f_equal.
  vm_compute in He. injection He as <-. reflexivity.
Defined.


(** After a [draw] that ran the y-axis branch, the locals read by
    [drawTitle] are those of the branch: whatever [options.transform]
    and the font of the title were, cancelling an edit rotates the title
    by "-90" about [(attributes.x, attributes.y)] and gives it the font
    size of the y-axis title. *)
Theorem cancel_after_y_branch_rotates_title :
  forall (I : Imports) gd cls o ms d s' unformatted,
    elShouldExist (p_txt (prologue gd o))
      (editable_of (propName o) (edits gd)) = true ->
    one_of (axis_side (layout gd) l_yaxis) ["both"; "left"; "right"] = true ->
    draw gd cls o ms d = (s', Normal tt) ->
    exists ax e,
      fl_yaxis (_fullLayout gd) = Some ax /\
      v_transform (locals s') = Some rotate_minus_90 /\
      v_fontSize (locals s') = Some (title_font_size ax) /\
      g_text (title_group
                (dom (fst (on_cancel gd o ms unformatted s')))) = Some e /\
      el_transform e =
        Some [Rotate (VStr "-90") (attr_x (attributes o))
                (attr_y (attributes o))] /\
      font_size_of e = Some (d3_round (Some (title_font_size ax)) 2).
Proof.
  intros I gd cls o ms d s' u Hg Hone H.
  destruct (draw_normal_inv gd cls o ms d s' Hg H)
    as (s2 & s3 & H2 & H3 & H4).
  destruct (y_branch_full gd o ms _ _ _ _ H3 Hone)
    as (ax & aa & ey & Hax & _ & _ & _ & _ & Hl & Htg & _).
  cbv zeta in Hl.
  destruct (epilogue_total o (p_txt (prologue gd o))
              (editable_of (propName o) (edits gd)) s3)
    as (s'' & He & _ & _ & _ & Hvt & Hvf & Hta).
  rewrite H4 in He. injection He as <-.
  rewrite Hl in Hvt, Hvf. cbn in Hvt, Hvf.
  destruct (after_titleLayout_frame gd cls o ms d) as (_ & _ & _ & e0 & He0).
  pose proof (x_branch_title_group gd o ms
                (title_font (propContainer_title o)) (p_txt (prologue gd o))
                (after_titleLayout gd cls o ms d)) as F2.
  rewrite H2 in F2. cbn [fst] in F2.
  assert (He3 : g_text (title_group (dom s3)) = Some e0)
    by (rewrite Htg, F2; exact He0).
  assert (He' : exists e1, g_text (title_group (dom s')) = Some e1).
  { unfold title_attrs in Hta. rewrite He3 in Hta.
    destruct (g_text (title_group (dom s'))) as [e1|]; [|discriminate].
    eexists; reflexivity. }
  destruct He' as [e1 He1].
  pose proof (on_cancel_attrs gd o ms u s' e1 He1) as HA.
  rewrite Hvt, Hvf in HA. unfold title_attrs in HA.
  destruct (g_text (title_group (dom (fst (on_cancel gd o ms u s')))))
    as [e|]; [|discriminate].
  injection HA as HA1 HA2.
  exists ax, e. repeat split; try assumption.
  unfold font_size_of. rewrite HA2. reflexivity.
Qed.

Lemma cancel_after_y_branch_witness :
  let gd := Sample.gd_editable (VStr "bottom") (VStr "left") in
  let o := Sample.main_title_options in
  let r := @draw Sample.titles_imports gd "gtitle" o Sample.measured
             Sample.empty_dom in
  snd r = Normal tt /\
  v_transform (locals (fst r)) = Some rotate_minus_90 /\
  v_fontSize (locals (fst r)) = Some 14.
Proof.
  intros gd o r.
  assert (Hr : r = (fst r, Normal tt)) by (vm_compute; reflexivity).
  destruct (cancel_after_y_branch_rotates_title Sample.titles_imports gd
              "gtitle" o Sample.measured Sample.empty_dom (fst r)
              (VStr "Revenue") eq_refl eq_refl Hr)
    as (ax & e & Hax & Ht & Hf & _).
  split; [vm_compute; reflexivity|]. split; [exact Ht|].
  rewrite Hf. vm_compute in Hax. injection Hax as <-. reflexivity.
Defined.

(** The duplicated titles take their font size from the axis title, and
    their font family, fill and text anchor from the title being drawn;
    the x duplicate is centred on the x-axis and the y duplicate on the
    y-axis, whatever [options.attributes] places. *)
Theorem duplicates_mix_axis_size_with_drawn_font :
  forall (I : Imports) gd cls o ms d s',
    let fnt := title_font (propContainer_title o) in
    let styled e (ax : FullAxis) :=
      exists st,
        el_style e = Some st /\
        font_size_px st = d3_round (Some (title_font_size ax)) 2 /\
        font_family st = family fnt /\
        fill st = Color_rgb (color fnt) /\
        font_weight st = Plots_fontWeight in
    elShouldExist (p_txt (prologue gd o))
      (editable_of (propName o) (edits gd)) = true ->
    draw gd cls o ms d = (s', Normal tt) ->
    (one_of (axis_side (layout gd) l_xaxis) ["both"; "bottom"; "top"] = true ->
     exists ax aa e,
       fl_xaxis (_fullLayout gd) = Some ax /\
       anchor_axis gd ax true = Some aa /\
       g_text (xboth_group (dom s')) = Some e /\
       styled e ax /\
       el_anchor e = text_anchor (attributes o) /\
       (charAt0 (_id ax) = "x" ->
        el_x e = Some (_offset ax + _length ax / 2) /\
        el_y e =
          Some (aa_offset aa -
                standoff_value ax "x" (title_font_size ax)))) /\
    (one_of (axis_side (layout gd) l_yaxis) ["both"; "left"; "right"] = true ->
     exists ax aa e,
       fl_yaxis (_fullLayout gd) = Some ax /\
       anchor_axis gd ax false = Some aa /\
       g_text (yboth_group (dom s')) = Some e /\
       styled e ax /\
       el_anchor e = text_anchor (attributes o) /\
       el_y e = Some (_offset ax + _length ax / 2) /\
       el_x e =
         Some (aa_offset aa + aa_length aa +
               standoff_value ax (charAt0 (_id ax)) (title_font_size ax))).
Proof.
  intros I gd cls o ms d s' fnt styled Hg H.
  destruct (draw_normal_inv gd cls o ms d s' Hg H)
    as (s2 & s3 & H2 & H3 & H4).
  destruct (epilogue_total o (p_txt (prologue gd o))
              (editable_of (propName o) (edits gd)) s3)
    as (s'' & He & Fx & Fy & _).
  rewrite H4 in He. injection He as <-.
  split; intros Hone.
  - destruct (x_branch_full gd o ms _ _ _ _ H2 Hone)
      as (ax & aa & e & Hax & _ & Haa & _ & _ & Hl & _ & _ & _ & Ht & Hs
          & Han & Hxy).
    cbv zeta in Hl, Hxy.
    pose proof (y_branch_xboth gd o ms (title_font (propContainer_title o))
                  (p_txt (prologue gd o)) s2) as F3.
    rewrite H3 in F3. cbn [fst] in F3.
    exists ax, aa, e. rewrite Fx, F3.
    split; [exact Hax|]. split; [exact Haa|]. split; [exact Ht|].
    split.
    + eexists. split; [exact Hs|]. rewrite Hl.
      destruct (String.eqb (charAt0 (_id ax)) "x"); repeat split.
    + split; [exact Han|]. intros Hx. rewrite Hx in Hxy.
      cbn [String.eqb Ascii.eqb Bool.eqb] in Hxy.
      injection Hxy as -> ->. split; reflexivity.
  - destruct (y_branch_full gd o ms _ _ _ _ H3 Hone)
      as (ax & aa & e & Hax & _ & Haa & _ & _ & Hl & _ & _ & _ & Ht & Hs
          & Han & Hx & Hy & _).
    cbv zeta in Hl, Hx, Hy.
    rewrite (x_branch_carries gd cls o ms d s2 H2) in Haa.
    exists ax, aa, e. rewrite Fy.
    split; [exact Hax|]. split; [exact Haa|]. split; [exact Ht|].
    split.
    + eexists. split; [exact Hs|]. rewrite Hl. repeat split.
    + repeat split; assumption.
Qed.

Lemma duplicates_mix_witness :
  let gd := Sample.gd_with (VStr "both") VUndefined Sample.both_flags None in
  let o := Sample.options_with "Revenue" None None in
  let r := @draw Sample.titles_imports gd "gtitle" o Sample.measured
             Sample.empty_dom in
  snd r = Normal tt /\
  exists e,
    g_text (xboth_group (dom (fst r))) = Some e /\
    font_size_of e = Some (Some 14) /\
    el_x e = Some (80 + 540 / 2).
Proof.
  intros gd o r.
  assert (Hr : r = (fst r, Normal tt)) by (vm_compute; reflexivity).
  destruct (proj1 (duplicates_mix_axis_size_with_drawn_font
                     Sample.titles_imports gd "gtitle" o Sample.measured
                     Sample.empty_dom (fst r) eq_refl Hr) eq_refl)
    as (ax & aa & e & Hax & _ & He & (st & Hst & Hfs & _) & _ & Hxy).
  vm_compute in Hax. injection Hax as <-.
  split; [vm_compute; reflexivity|].
  exists e. split; [exact He|]. split.
  - unfold font_size_of. rewrite Hst, Hfs. reflexivity.
  - exact (proj1 (Hxy eq_refl)).
Defined.

End AfterDrawFacts.

(** ** The duplicate on the y-axis and the tick settings *)

Module AxisSideFacts.
Import Titles Frame DuplicateFacts BranchFacts DrawFacts.

Lemma fold_yboth_each_ge tb sel : forall a,
  a <= fold_left (fun sh b => Scoot.yboth_each sh tb b) sel a.
Proof.
  induction sel as [|b sel IH]; intros a; simpl; [apply Qle_refl|].
  eapply Qle_trans; [|apply IH]. unfold Scoot.yboth_each. apply Q.le_max_l.
Qed.

Lemma yboth_shift_le avoid sel w h bb :
  Scoot.yboth_shift avoid sel w h bb <=
  Scoot.maxshift_of avoid SLeft w h bb.
Proof.
  unfold Scoot.yboth_shift. cbv zeta.
  destruct (Qlt_le_dec _ 0); [apply Qle_refl | apply Q.le_min_l].
Qed.

(** The second copy of the avoidance code, in the y-axis branch. *)
Lemma yboth_scoot_cases avoid txt w h bb prev sel sd :
  selection avoid = Some sel -> side avoid = Some sd -> txt <> "" ->
  let t := Scoot.yboth_scoot avoid txt w h bb prev in
  let maxshift := Scoot.maxshift_of avoid SLeft w h bb in
  (sd <> SLeft -> t = None) /\
  (sd = SLeft ->
   t = None \/
   exists dx, t = Some [Translate dx 0] /\ dx <= maxshift /\
              (0 <= maxshift -> 0 < dx)).
Proof.
  intros Hs Hd Ht t maxshift. subst t. unfold Scoot.yboth_scoot.
  rewrite Hs, Hd. apply String.eqb_neq in Ht. rewrite Ht.
  split.
  - intros Hn. destruct sd; [contradiction| | |]; reflexivity.
  - intros ->. cbv zeta. fold maxshift.
    destruct (Scoot.scoot_applies _ _) eqn:E; [right|left; reflexivity].
    exists (Scoot.yboth_shift avoid sel w h bb).
    assert (Hne : ~ (Scoot.yboth_shift avoid sel w h bb == 0 /\ 0 == 0)).
    { intros [Z _]. unfold Scoot.scoot_applies in E.
      destruct (Qlt_le_dec 0 _) as [L|_]; [lra|].
      destruct (Qlt_le_dec maxshift 0) as [L'|_]; [|discriminate].
      unfold Scoot.yboth_shift in Z. cbv zeta in Z. fold maxshift in Z.
      destruct (Qlt_le_dec maxshift 0); lra. }
    split.
    { cbn [Scoot.shiftTemplate].
      rewrite (ScootFacts.strTranslate_nonzero _ _ Hne). reflexivity. }
    split; [apply yboth_shift_le|].
    intros Hm. unfold Scoot.scoot_applies in E.
    destruct (Qlt_le_dec 0 _) as [L|L]; [exact L|].
    destruct (Qlt_le_dec maxshift 0) as [L'|L']; [lra|discriminate].
Qed.

(** When [draw] completes with a text to avoid things with, the group of
    the y-axis duplicate is never moved for an [avoid.side] other than
    "left"; for "left" it is moved horizontally only, by no more than
    [maxshift], and to the right unless [maxshift] is negative. *)
Theorem y_duplicate_moves_only_for_left_side :
  forall (I : Imports) gd cls o ms d s' sel sd,
    elShouldExist (p_txt (prologue gd o))
      (editable_of (propName o) (edits gd)) = true ->
    draw gd cls o ms d = (s', Normal tt) ->
    one_of (axis_side (layout gd) l_yaxis) ["both"; "left"; "right"] = true ->
    selection (avoid_of o) = Some sel ->
    side (avoid_of o) = Some sd ->
    p_txt (prologue gd o) <> "" ->
    let t := g_transform (yboth_group (dom s')) in
    let maxshift :=
      Scoot.maxshift_of (avoid_of o) SLeft (fl_width (_fullLayout gd))
        (fl_height (_fullLayout gd)) (yboth_bb ms) in
    (sd <> SLeft -> t = None) /\
    (sd = SLeft ->
     t = None \/
     exists dx, t = Some [Translate dx 0] /\ dx <= maxshift /\
                (0 <= maxshift -> 0 < dx)).
Proof.
  intros I gd cls o ms d s' sel sd Hg H Hone Hs Hd Ht t maxshift.
  destruct (draw_normal_inv gd cls o ms d s' Hg H)
    as (s2 & s3 & H2 & H3 & H4).
  destruct (epilogue_total o (p_txt (prologue gd o))
              (editable_of (propName o) (edits gd)) s3)
    as (s'' & He & _ & Fy & _).
  rewrite H4 in He. injection He as <-.
  destruct (y_branch_full gd o ms _ _ _ _ H3 Hone)
    as (ax & aa & e & _ & _ & _ & _ & _ & _ & _ & _ & Hy & _).
  subst t. rewrite Fy, Hy.
  exact (yboth_scoot_cases (avoid_of o) (p_txt (prologue gd o)) _ _ _ _
           sel sd Hs Hd Ht).
Qed.

Lemma y_duplicate_moves_witness :
  let gd := Sample.gd_with (VStr "bottom") (VStr "left") Sample.no_flags None in
  let o := Sample.options_with "Revenue" (Some Sample.avoid_left) None in
  let r := @draw Sample.titles_imports gd "ytitle" o Sample.measured
             Sample.empty_dom in
  snd r = Normal tt /\
  exists dx,
    g_transform (yboth_group (dom (fst r))) = Some [Translate dx 0] /\
    0 < dx /\ dx <= 300.
Proof.
  intros gd o r.
  assert (Hr : r = (fst r, Normal tt)) by (vm_compute; reflexivity).
  assert (Hn : p_txt (@prologue Sample.titles_imports gd o) <> "")
    by (vm_compute; discriminate).
  destruct (y_duplicate_moves_only_for_left_side Sample.titles_imports gd
              "ytitle" o Sample.measured Sample.empty_dom (fst r)
              [Sample.tick_box] SLeft eq_refl Hr eq_refl eq_refl eq_refl Hn)
    as [_ HL].
  split; [vm_compute; reflexivity|].
  destruct (HL eq_refl) as [HN | (dx & Ht & Hle & Hpos)].
  - vm_compute in HN. discriminate.
  - exists dx. split; [exact Ht|]. split.
    + apply Hpos. vm_compute. discriminate.
    + eapply Qle_trans; [exact Hle|]. vm_compute. discriminate.
Defined.

(** The tick settings of the axes ([ticks], [ticklen]) never change what
    [draw] does: the code that reads them is guarded by [isInside],
    which is always false. *)
Theorem draw_ignores_tick_settings :
  forall (I : Imports) gd cls o ms d tk tl,
    draw (retick gd tk tl) cls o ms d = draw gd cls o ms d.
Proof.
  intros I gd cls o ms d tk tl.
  destruct gd as [[w h m [ax|] [ay|] gs] lay ed]; reflexivity.
Qed.

End AxisSideFacts.

(** ** Legend: when [style] completes, and what it leaves behind *)

Module StyleRunFacts.
Import LegendStyle.

Lemma read_itemheight_cases gd :
  match inpixon_of gd with
  | Some inp => read_itemheight gd = Normal (itemheight inp)
  | None => read_itemheight gd = Throw TypeError
  end.
Proof.
  unfold inpixon_of, read_itemheight.
  destruct (layout_legend gd) as [lg|]; [|reflexivity]. cbn.
  destruct (inpixonCustomAttribute lg); reflexivity.
Qed.

(** Without [inpixonCustomAttribute] the first statement of
    [styleSpatial] raises. *)
Lemma styleSpatial_without_inpixon gd it :
  inpixon_of gd = None -> styleSpatial gd it = Throw TypeError.
Proof.
  intros Hn. unfold styleSpatial.
  pose proof (read_itemheight_cases gd) as HR. rewrite Hn in HR.
  rewrite HR. reflexivity.
Qed.

(** A list of paths filled from the stops of the colorscale is drawn
    exactly for the visible traces of the four types. *)
Lemma spatial_ptsData_stop_colored tr ih :
  (if stop_colored tr
   then fst (spatial_ptsData tr ih) <> [] /\
        snd (spatial_ptsData tr ih) = GFalse
   else fst (spatial_ptsData tr ih) = [] \/
        no_gradient (snd (spatial_ptsData tr ih)) = false).
Proof.
  unfold stop_colored, spatial_ptsData.
  destruct (truthy (visible tr)); [|left; reflexivity].
  cbn [andb]. destruct (type tr) as [| | | | |ty]; try (left; reflexivity).
  unfold spatial_switch, stop_colored_types. cbn [existsb].
  repeat match goal with
  | |- context [String.eqb ty ?lit] =>
      let E := fresh "E" in
      destruct (String.eqb_spec ty lit) as [E|E];
      [ subst ty; cbn; first [ split; [discriminate | reflexivity]
                            | right; reflexivity ] | ]
  end.
  left; reflexivity.
Qed.

(** A call of [styleSpatial] that completes found
    [inpixonCustomAttribute], and did not index an empty colorscale. *)
Lemma styleSpatial_normal gd it gl :
  styleSpatial gd it = Normal gl ->
  inpixon_of gd <> None /\ reads_empty_colorscale (trace it) = false.
Proof.
  intros H. split.
  - intros Hn. rewrite (styleSpatial_without_inpixon gd it Hn) in H.
    discriminate.
  - unfold styleSpatial in H.
    destruct (read_itemheight gd) as [ih|]; [|discriminate].
    cbn [JS.bind] in H.
    pose proof (spatial_ptsData_stop_colored (trace it) ih) as HS.
    unfold reads_empty_colorscale.
    destruct (stop_colored (trace it)); [|reflexivity]. cbn [andb].
    destruct (cOpts_colorscale (trace it)) as [[|stop cs]|] eqn:Hcs;
      try reflexivity.
    destruct (spatial_ptsData (trace it) ih) as [pd g].
    cbn [fst snd] in HS. destruct HS as [Hne ->].
    destruct pd as [|dd pd]; [contradiction|].
    cbn [each_indexed] in H. unfold spatial_glyph, spatial_fillColor in H.
    rewrite Hcs in H. cbn in H.
    destruct (truthy (cOpts_reversescale (trace it))); discriminate.
Qed.

Lemma each_normal {A B : Type} (f : A -> completion B) : forall xs ys,
  each f xs = Normal ys ->
  List.length ys = List.length xs /\
  forall x, In x xs -> exists y, f x = Normal y.
Proof.
  induction xs as [|a r IH]; intros ys H; cbn in H.
  - injection H as <-. split; [reflexivity|]. intros x [].
  - destruct (f a) as [b|] eqn:F; cbn in H; [|discriminate].
    destruct (each f r) as [bs|] eqn:E; cbn in H; [|discriminate].
    injection H as <-. destruct (IH bs eq_refl) as [Hl Hin].
    split; [cbn; now rewrite Hl|].
    intros x [<-|Hx]; [exists b; exact F | exact (Hin x Hx)].
Qed.

Section Lines.

Context {I : Imports}.

Lemma styleLines_cases gd iw lg it :
  match inpixon_of gd, data0 gd with
  | Some _, Some _ => exists ln, snd (styleLines gd iw lg it) = Normal ln
  | _, _ => snd (styleLines gd iw lg it) = Throw TypeError
  end.
Proof.
  unfold styleLines. cbn [snd].
  pose proof (read_itemheight_cases gd) as HR.
  destruct (inpixon_of gd) as [inp|]; rewrite HR; [|reflexivity].
  cbn [JS.bind]. destruct (data0 gd); cbn; [eexists|]; reflexivity.
Qed.

Lemma each_styleLines_cases gd iw : forall items lg,
  match items, inpixon_of gd, data0 gd with
  | [], _, _ => each_styleLines gd iw lg items = (lg, Normal [])
  | _ :: _, Some _, Some _ =>
      exists lns, snd (each_styleLines gd iw lg items) = Normal lns /\
                  List.length lns = List.length items
  | _ :: _, _, _ => snd (each_styleLines gd iw lg items) = Throw TypeError
  end.
Proof.
  induction items as [|it r IH]; intros lg; [reflexivity|].
  cbn [each_styleLines].
  pose proof (styleLines_cases gd iw lg it) as H1.
  destruct (styleLines gd iw lg it) as [lg1 c1]. cbn [snd] in H1.
  specialize (IH lg1).
  destruct (inpixon_of gd) as [inp|], (data0 gd) as [d0|];
    try (rewrite H1; reflexivity).
  destruct H1 as [ln ->].
  destruct r as [|it2 r].
  - rewrite IH. cbn. eexists; split; reflexivity.
  - destruct IH as (lns & IH & Hl).
    destruct (each_styleLines gd iw lg1 (it2 :: r)) as [lg2 c2].
    cbn [snd] in IH. rewrite IH. cbn [snd].
    eexists; split; [reflexivity|]. cbn [List.length]. now rewrite Hl.
Qed.

Lemma put_the_legend st : put_legend st (the_legend st) = st.
Proof.
  unfold put_legend, the_legend. destruct st as [fl [lg|]]; reflexivity.
Qed.

Lemma each_styleLines_keeps gd iw :
  is_str (chain gd symbolstyle_style) "none" = false ->
  forall items lg, fst (each_styleLines gd iw lg items) = lg.
Proof.
  intros Hn. induction items as [|it r IH]; intros lg; [reflexivity|].
  cbn [each_styleLines].
  assert (H1 : fst (styleLines gd iw lg it) = lg).
  { unfold styleLines, styleLines_legend. rewrite Hn. reflexivity. }
  destruct (styleLines gd iw lg it) as [lg1 [ln|e]]; cbn [fst] in H1;
    subst lg1; [|reflexivity].
  specialize (IH lg).
  destruct (each_styleLines gd iw lg r) as [lg2 [lns|e]]; exact IH.
Qed.

End Lines.

(** What [style] needs.  On a non-empty selection [style] raises a
    TypeError, with both legend objects untouched, when
    [gd.layout.legend.inpixonCustomAttribute] is missing: [styleSpatial],
    the first callback to read it without a guard, raises on the first
    item.  A call that completes found [inpixonCustomAttribute] and
    [gd.data[0]], ran [styleSpatial] to its end on every item (none made
    it index an empty colorscale), and returns one layer transform, one
    list of spatial glyphs, one pair of fill and line paths and one pair
    of point flags per item. *)
Theorem style_needs_inpixon_and_data0 :
  forall (I : Imports) items gd st,
    items <> [] ->
    (inpixon_of gd = None -> style items gd st = (st, Throw TypeError)) /\
    (forall st' out,
       style items gd st = (st', Normal out) ->
       inpixon_of gd <> None /\
       data0 gd <> None /\
       (forall it, In it items ->
          (exists gl, styleSpatial gd it = Normal gl) /\
          reads_empty_colorscale (trace it) = false) /\
       List.length (layers out) = List.length items /\
       List.length (spatial out) = List.length items /\
       List.length (lines out) = List.length items /\
       List.length (points out) = List.length items).
Proof.
  intros I items gd st Hne. split.
  - intros Hn. unfold style.
    destruct items as [|it r]; [contradiction|].
    cbn [each]. rewrite (styleSpatial_without_inpixon gd it Hn). reflexivity.
  - intros st' out H. unfold style in H.
    destruct (each (styleSpatial gd) items) as [sp|] eqn:ES; [|discriminate].
    destruct (each_normal _ _ _ ES) as [Hsp Hin].
    pose proof (each_styleLines_cases gd (itemwidth (the_legend st)) items
                  (the_legend st)) as HL.
    destruct (each_styleLines _ _ _ _) as [lg' [lns|e]]; [|discriminate].
    injection H as _ <-. cbn [layers spatial lines points].
    destruct items as [|it r]; [contradiction|].
    destruct (inpixon_of gd) as [inp|]; [|discriminate].
    destruct (data0 gd) as [d0|]; [|discriminate].
    destruct HL as (lns' & HL & Hl). cbn [snd] in HL. injection HL as <-.
    split; [discriminate|]. split; [discriminate|]. split.
    + intros it' Hit. destruct (Hin it' Hit) as [gl Hgl].
      split; [exists gl; exact Hgl|].
      exact (proj2 (styleSpatial_normal gd it' gl Hgl)).
    + rewrite !length_map. auto.
Qed.

Lemma style_needs_witness :
  let items := [Sample.item_of (Sample.trace_of "scatter" VUndefined None)] in
  let st := mkStore Sample.legend None in
  @style Sample.legend_imports items
    (mkGraphDiv 700 None (Some (mkDataTrace (VStr "lines") VUndefined))) st =
    (st, Throw TypeError) /\
  exists out,
    snd (@style Sample.legend_imports items
           (Sample.legend_gd
              (Sample.inpixon_with None VUndefined VUndefined)) st) =
      Normal out /\
    List.length (lines out) = 1%nat.
Proof.
  intros items st.
  assert (Hne : items <> []) by discriminate.
  split.
  - exact (proj1 (style_needs_inpixon_and_data0 Sample.legend_imports items
                    (mkGraphDiv 700 None
                       (Some (mkDataTrace (VStr "lines") VUndefined)))
                    st Hne) eq_refl).
  - set (gd := Sample.legend_gd
                 (Sample.inpixon_with None VUndefined VUndefined)).
    assert (Hr : exists out,
              @style Sample.legend_imports items gd st =
              (fst (@style Sample.legend_imports items gd st), Normal out))
      by (eexists; vm_compute; reflexivity).
    destruct Hr as [out Hr]. exists out.
    split; [rewrite Hr; reflexivity|].
    destruct (proj2 (style_needs_inpixon_and_data0 Sample.legend_imports
                       items gd st Hne) _ out Hr)
      as (_ & _ & _ & _ & _ & Hl & _).
    exact Hl.
Defined.

(** Unless the symbol style is "none", [style] hands back both legend
    objects as it found them, however it completes. *)
Theorem style_keeps_legend_unless_symbolstyle_none :
  forall (I : Imports) items gd st,
    chain gd symbolstyle_style <> VStr "none" ->
    fst (style items gd st) = st.
Proof.
  intros I items gd st Hn.
  assert (Hs : is_str (chain gd symbolstyle_style) "none" = false).
  { unfold is_str. destruct (chain gd symbolstyle_style) as [| | | | |s];
      try reflexivity.
    cbn. apply String.eqb_neq. intros ->. apply Hn. reflexivity. }
  unfold style.
  destruct (each (styleSpatial gd) items); [|reflexivity].
  pose proof (each_styleLines_keeps gd (itemwidth (the_legend st)) Hs items
                (the_legend st)) as HK.
  destruct (each_styleLines _ _ _ _) as [lg' [lns|e]]; cbn [fst] in *;
    subst lg'; apply put_the_legend.
Qed.

Lemma style_keeps_legend_witness :
  let gd := Sample.legend_gd
              (Sample.inpixon_with None VUndefined (VStr "markers")) in
  let items := [Sample.item_of (Sample.trace_of "scatter" VUndefined None)] in
  let st := mkStore Sample.legend None in
  chain gd symbolstyle_style <> VStr "none" /\
  fst (@style Sample.legend_imports items gd st) = st.
Proof.
  intros gd items st.
  assert (Hn : chain gd symbolstyle_style <> VStr "none")
    by (vm_compute; discriminate).
  split; [exact Hn|].
  exact (style_keeps_legend_unless_symbolstyle_none Sample.legend_imports
           items gd st Hn).
Defined.

(** A failed call is not without effect.  With the symbol style "none"
    and no [gd.data[0]], once the [styleSpatial] pass has completed,
    [style] raises the TypeError in [styleLines] after the assignment
    [legend.itemwidth = 0]: the caller's legend has lost its item width
    although nothing was drawn. *)
Theorem failed_style_still_zeroes_itemwidth :
  forall (I : Imports) items gd st,
    chain gd symbolstyle_style = VStr "none" ->
    data0 gd = None ->
    items <> [] ->
    (exists sp, each (styleSpatial gd) items = Normal sp) ->
    style items gd st =
      (put_legend st (set_itemwidth 0 (the_legend st)), Throw TypeError).
Proof.
  intros I items gd st Hnone Hd Hne [sp Hsp].
  unfold style. rewrite Hsp.
  pose proof (each_styleLines_cases gd (itemwidth (the_legend st)) items
                (the_legend st)) as HL.
  pose proof (ItemWidthFacts.each_styleLines_assigns gd Hnone
                (itemwidth (the_legend st)) items (the_legend st) Hne) as HA.
  destruct items as [|it r]; [contradiction|].
  rewrite Hd in HL.
  assert (HT : snd (each_styleLines gd (itemwidth (the_legend st))
                      (the_legend st) (it :: r)) = Throw TypeError)
    by (destruct (inpixon_of gd); exact HL).
  destruct (each_styleLines _ _ _ _) as [lg' c]. cbn [fst snd] in HT, HA.
  subst lg' c. reflexivity.
Qed.

Lemma failed_style_witness :
  let gd := mkGraphDiv 700
              (Some (mkLayoutLegend
                       (Some (Sample.inpixon_with None VUndefined
                                (VStr "none")))))
              None in
  let items := [Sample.item_of (Sample.trace_of "scatter" VUndefined None)] in
  let st := mkStore Sample.legend None in
  let r := @style Sample.legend_imports items gd st in
  snd r = Throw TypeError /\
  itemwidth (fullLayout_legend st) = 30 /\
  itemwidth (fullLayout_legend (fst r)) = 0.
Proof.
  intros gd items st r.
  pose proof (failed_style_still_zeroes_itemwidth Sample.legend_imports
                items gd st eq_refl eq_refl ltac:(discriminate)
                (ex_intro _ _ eq_refl))
    as H.
  fold r in H. rewrite H. repeat split.
Defined.

(** The symbol styles "markers" and "none" take the plain line and the
    plain fill out of the legend item, and "lines" and "none" the
    marker; the gradient line and the gradient fill of a contour trace
    are drawn all the same. *)
Theorem symbolstyle_hides_plain_paths_only :
  forall (I : Imports) gd iw lg it ln,
    let sg := getStyleGuide it (hidetoggle lg) in
    let symbolStyle := chain gd symbolstyle_style in
    snd (styleLines gd iw lg it) = Normal ln ->
    (symbolStyle = VStr "markers" \/ symbolStyle = VStr "none" ->
     (fill_path ln <> None <-> truthy (showGradientFill sg) = true) /\
     (line_path ln <> None <-> truthy (showGradientLine sg) = true) /\
     (contours (trace it) = None ->
      fill_path ln = None /\ line_path ln = None)) /\
    (symbolStyle = VStr "lines" \/ symbolStyle = VStr "none" ->
     marker_path (stylePoints gd lg it) = false).
Proof.
  intros I gd iw lg it ln sg symbolStyle H.
  split.
  - intros Hs.
    assert (Hh : hides_lines symbolStyle = true)
      by (destruct Hs as [-> | ->]; reflexivity).
    unfold styleLines in H. cbn [snd] in H.
    fold symbolStyle sg in H. rewrite Hh in H.
    destruct (read_itemheight gd) as [ih|]; [|discriminate].
    cbn [JS.bind] in H.
    destruct (data0 gd) as [d0|]; [|discriminate]. cbn in H.
    injection H as <-. cbn [fill_path line_path].
    assert (HG : contours (trace it) = None ->
                 truthy (showGradientFill sg) = false /\
                 truthy (showGradientLine sg) = false).
    { intros Hc. subst sg. unfold getStyleGuide. rewrite Hc.
      cbn [showGradientFill showGradientLine]. unfold unless.
      destruct (truthy (hidetoggle lg)); split; reflexivity. }
    split; [|split].
    + destruct (truthy (showGradientFill sg)); split; intros E;
        try discriminate; try congruence; now contradiction E.
    + destruct (truthy (showGradientLine sg)); split; intros E;
        try discriminate; try congruence; now contradiction E.
    + intros Hc. destruct (HG Hc) as [-> ->]. split; reflexivity.
  - intros Hs. unfold stylePoints. fold symbolStyle.
    destruct Hs as [-> | ->]; reflexivity.
Qed.

Lemma symbolstyle_hides_witness :
  let gd := Sample.legend_gd
              (Sample.inpixon_with None VUndefined (VStr "none")) in
  let it := Sample.item_of (Sample.trace_of "scatter" (VStr "tozeroy") None) in
  let ln := snd (@styleLines Sample.legend_imports gd 30 Sample.legend it) in
  exists l,
    ln = Normal l /\ fill_path l = None /\ line_path l = None /\
    marker_path (@stylePoints Sample.legend_imports gd Sample.legend it)
      = false.
Proof.
  intros gd it ln.
  assert (Hl : exists l, ln = Normal l) by (eexists; vm_compute; reflexivity).
  destruct Hl as [l Hl]. exists l. split; [exact Hl|].
  destruct (symbolstyle_hides_plain_paths_only Sample.legend_imports gd 30
              Sample.legend it l Hl) as [H1 H2].
  destruct (H1 (or_intror eq_refl)) as (_ & _ & H3).
  destruct (H3 eq_refl) as [Hf Hn].
  split; [exact Hf|]. split; [exact Hn|].
  exact (H2 (or_intror eq_refl)).
Defined.

End StyleRunFacts.

(** ** Legend: colors from the colorscale, bounded widths and sizes *)

Module GlyphFacts.
Import LegendStyle LegendBounds.

Lemma stop_colored_type tr :
  stop_colored tr = true ->
  truthy (visible tr) = true /\
  (type tr = VStr "cone" \/ type tr = VStr "streamtube" \/
   type tr = VStr "mesh3d" \/ type tr = VStr "isosurface").
Proof.
  unfold stop_colored, stop_colored_types. intros H.
  apply andb_true_iff in H. destruct H as [Hv H]. split; [exact Hv|].
  destruct (type tr) as [| | | | |ty]; try discriminate.
  cbn [existsb] in H.
  repeat match type of H with
  | (String.eqb ty ?lit || _)%bool = true =>
      let E := fresh "E" in
      destruct (String.eqb ty lit) eqn:E;
        [apply String.eqb_eq in E; subst ty; solve [auto 10]
        |cbn [orb] in H]
  end.
  discriminate.
Qed.

(** The glyphs of a visible cone, streamtube, mesh3d or isosurface trace
    with a colorscale are filled, in order, with the color of the first
    stop, of the last stop and of the middle stop (the first two swapped
    under [reversescale]); a stop whose color is falsy gives the gradient
    instead. *)
Theorem stop_colored_glyphs_use_end_and_middle_stops :
  forall gd it cs gl,
    let tr := trace it in
    stop_colored tr = true ->
    cOpts_colorscale tr = Some cs ->
    styleSpatial gd it = Normal gl ->
    exists lo hi mid,
      nth_error cs 0 = Some lo /\
      nth_error cs (List.length cs - 1) = Some hi /\
      nth_error cs ((List.length cs - 1) / 2) = Some mid /\
      map glyph_fill gl =
        if truthy (cOpts_reversescale tr)
        then [fill_of_stop tr cs hi; fill_of_stop tr cs lo;
              fill_of_stop tr cs mid]
        else [fill_of_stop tr cs lo; fill_of_stop tr cs hi;
              fill_of_stop tr cs mid].
Proof.
  intros gd it cs gl tr Hsc Hcs H.
  destruct (stop_colored_type tr Hsc) as [Hv Hty].
  unfold styleSpatial in H. fold tr in H.
  destruct (read_itemheight gd) as [ih|]; [|discriminate].
  cbn [JS.bind] in H. unfold spatial_ptsData in H. rewrite Hv in H.
  assert (H3 : exists p1 p2 p3,
             spatial_switch (type tr) ih = ([p1; p2; p3], GFalse)).
  { destruct Hty as [-> | [-> | [-> | ->]]]; do 3 eexists; reflexivity. }
  destruct H3 as (p1 & p2 & p3 & H3). rewrite H3 in H.
  cbn [each_indexed] in H. unfold spatial_glyph, spatial_fillColor in H.
  rewrite Hcs in H. cbn [no_gradient is_radial JS.bind truthy] in H.
  unfold fill_of_stop.
  destruct (truthy (cOpts_reversescale tr)).
  - destruct (nth_error cs (List.length cs - 1)) as [hi|];
      [|discriminate]. cbn [JS.deref JS.bind] in H.
    destruct (nth_error cs 0) as [lo|].
    2:{ destruct (truthy (snd hi)); discriminate. }
    destruct (nth_error cs ((List.length cs - 1) / 2)) as [mid|].
    2:{ cbn [JS.deref JS.bind] in H.
        destruct (truthy (snd hi)), (truthy (snd lo)); discriminate. }
    exists lo, hi, mid. repeat split.
    cbn [JS.deref JS.bind snd] in H.
    destruct (truthy (snd hi)), (truthy (snd lo)), (truthy (snd mid));
      cbn in H; injection H as <-; reflexivity.
  - destruct (nth_error cs 0) as [lo|]; [|discriminate].
    cbn [JS.deref JS.bind] in H.
    destruct (nth_error cs (List.length cs - 1)) as [hi|].
    2:{ destruct (truthy (snd lo)); discriminate. }
    destruct (nth_error cs ((List.length cs - 1) / 2)) as [mid|].
    2:{ cbn [JS.deref JS.bind] in H.
        destruct (truthy (snd hi)), (truthy (snd lo)); discriminate. }
    exists lo, hi, mid. repeat split.
    cbn [JS.deref JS.bind snd] in H.
    destruct (truthy (snd hi)), (truthy (snd lo)), (truthy (snd mid));
      cbn in H; injection H as <-; reflexivity.
Qed.

Lemma stop_colored_glyphs_witness :
  let gd := Sample.legend_gd
              (Sample.inpixon_with None VUndefined VUndefined) in
  let it := Sample.item_of
              (Sample.trace_of "mesh3d" VUndefined (Some Sample.viridis)) in
  exists gl,
    styleSpatial gd it = Normal gl /\
    map glyph_fill gl =
      [SolidFill (VStr "#440154"); SolidFill (VStr "#fde725");
       SolidFill (VStr "#21918c")].
Proof.
  intros gd it.
  assert (Hg : exists gl, styleSpatial gd it = Normal gl)
    by (eexists; vm_compute; reflexivity).
  destruct Hg as [gl Hg]. exists gl. split; [exact Hg|].
  destruct (stop_colored_glyphs_use_end_and_middle_stops gd it Sample.viridis
              gl eq_refl eq_refl Hg) as (lo & hi & mid & H0 & H1 & H2 & HM).
  cbn in H0, H1, H2. injection H0 as <-. injection H1 as <-.
  injection H2 as <-. exact HM.
Defined.

Section Bounds.

Variable legend : Legend.

Lemma bounded_range v max cst :
  0 <= v -> 0 <= max -> 0 <= cst ->
  let r := if constantItemSizing legend then cst else Qmin v max in
  0 <= r /\ r <= Qmax max cst.
Proof.
  intros Hv Hm Hc r. subst r.
  destruct (constantItemSizing legend).
  - split; [exact Hc | apply Q.le_max_r].
  - split.
    + apply Q.min_glb; assumption.
    + eapply Qle_trans; [apply Q.le_min_r | apply Q.le_max_l].
Qed.

End Bounds.

(** The widths [boundLineWidth] returns when no [mlw] is passed (the
    legend line of [styleLines]; the strokes of the box, candlestick,
    ohlc and waterfall glyphs): never negative, at most [max], the
    constant [cst] under constant item sizing, and 0 exactly when the
    container has no positive width, which is when the glyph gets no
    stroke color. *)
Theorem line_widths_without_mlw_are_bounded :
  forall legend cont max cst,
    0 < max -> 0 < cst ->
    let w := boundLineWidth legend None cont max cst in
    let positive :=
      exists c q, cont = Some c /\ width c = Some q /\ 0 < q in
    0 <= w /\
    (constantItemSizing legend = false -> w <= max) /\
    (constantItemSizing legend = true -> w = 0 \/ w = cst) /\
    (0 < w <-> positive).
Proof.
  intros legend cont max cst Hm Hc w positive. subst w positive.
  unfold boundLineWidth.
  destruct cont as [[[q|]]|].
  - cbn [width]. destruct (Qlt_le_dec 0 q) as [L|L].
    + destruct (constantItemSizing legend).
      * split; [lra|]. split; [discriminate|]. split; [right; reflexivity|].
        split; [intros _; exists (mkLine (Some q)), q; auto | intros _; lra].
      * split; [apply Q.min_glb; lra|]. split; [intros _; apply Q.le_min_r|].
        split; [discriminate|].
        split; [intros _; exists (mkLine (Some q)), q; auto|].
        intros _. apply Q.min_glb_lt; assumption.
    + split; [lra|]. split; [intros _; lra|].
      split; [left; reflexivity|].
      split; [intros H; lra|].
      intros (c & q' & E & E' & Hq). injection E as <-. cbn in E'.
      injection E' as <-. lra.
  - cbn [width]. split; [lra|]. split; [intros _; lra|].
    split; [left; reflexivity|]. split; [intros H; lra|].
    intros (c & q' & E & E' & _). injection E as <-. discriminate.
  - split; [lra|]. split; [intros _; lra|].
    split; [left; reflexivity|]. split; [intros H; lra|].
    intros (c & q' & E & _). discriminate.
Qed.

Lemma line_widths_witness :
  line_width Sample.legend (Some (mkLine (Some 25))) = 10 /\
  stroke_width Sample.legend (Some (mkLine (Some 25))) = 5 /\
  0 <= line_width Sample.legend (Some (mkLine (Some 25))).
Proof.
  split; [reflexivity|]. split; [reflexivity|].
  exact (proj1 (line_widths_without_mlw_are_bounded Sample.legend
                  (Some (mkLine (Some 25))) MAX_LINE_WIDTH CST_LINE_WIDTH
                  eq_refl eq_refl)).
Defined.

(** A width [mlw] taken from the calculated data (the bar-like
    glyphs) bypasses the test for a positive width: any number but -1 is
    used whatever the container holds.  It is capped at 5 but not
    bounded below, and under constant item sizing even a width of 0
    gives the stroke width 2; -1 falls through to the width of the
    container. *)
Theorem bar_stroke_width_prefers_calculated_width :
  forall legend m line,
    ~ m == -1 ->
    let w := bar_stroke_width legend (Some m) line in
    w <= 5 /\
    (constantItemSizing legend = true -> w = 2) /\
    (constantItemSizing legend = false -> m <= 5 -> w == m) /\
    bar_stroke_width legend (Some (-1)) line = stroke_width legend line.
Proof.
  intros legend m line Hm w. subst w.
  unfold bar_stroke_width, stroke_width, boundLineWidth.
  assert (E : Qeq_bool (m + 1) 0 = false).
  { apply not_true_is_false. intros E. apply Qeq_bool_iff in E.
    apply Hm. lra. }
  rewrite E. unfold MAX_MARKER_LINE_WIDTH, CST_MARKER_LINE_WIDTH.
  destruct (constantItemSizing legend).
  - split; [lra|]. split; [reflexivity|]. split; [discriminate|reflexivity].
  - split; [apply Q.le_min_r|]. split; [discriminate|].
    split; [intros _ L; apply Q.min_l; exact L | reflexivity].
Qed.

Lemma bar_stroke_width_witness :
  let constant :=
    mkLegend (VStr "constant") 30 120 VMiddle VUndefined VUndefined in
  bar_stroke_width constant (Some 0) None = 2 /\
  stroke_width constant None = 0 /\
  bar_stroke_width Sample.legend (Some (-3)) None == -3.
Proof.
  intros constant.
  assert (H0 : ~ 0 == -1) by (intros E; vm_compute in E; discriminate).
  assert (H3 : ~ -3 == -1) by (intros E; vm_compute in E; discriminate).
  split; [|split; [reflexivity|]].
  - exact (proj1 (proj2 (bar_stroke_width_prefers_calculated_width constant
                           0 None H0)) eq_refl).
  - refine (proj1 (proj2 (proj2 (bar_stroke_width_prefers_calculated_width
                                   Sample.legend (-3) None H3))) eq_refl _).
    vm_compute. discriminate.
Defined.

(** [boundVal] with bounds: a number comes back inside the bounds, and
    unchanged when it was inside and the sizing is not constant;
    [undefined] stays [undefined].  Under constant item sizing every
    non-zero number is replaced by the constant, but 0 is not: it is
    raised to the lower bound (when that is not negative). *)
Theorem boundVal_clamps_numbers :
  forall legend lo hi cst,
    lo <= hi ->
    (forall c, cst = Some c -> lo <= c /\ c <= hi) ->
    boundVal legend None (Some (lo, hi)) cst = None /\
    (forall q,
       exists r,
         boundVal legend (Some q) (Some (lo, hi)) cst = Some r /\
         lo <= r /\ r <= hi /\
         (constantItemSizing legend = false \/ cst = None ->
          lo <= q -> q <= hi -> r = q) /\
         (forall c, constantItemSizing legend = true -> cst = Some c ->
            (~ q == 0 -> r = c) /\
            (q == 0 -> 0 <= lo -> r == lo))).
Proof.
  intros legend lo hi cst Hb Hc. split.
  - unfold boundVal. destruct cst; reflexivity.
  - intros q. unfold boundVal.
    assert (clamp : forall v,
              exists r,
                (if Qlt_le_dec v lo then Some lo
                 else if Qlt_le_dec hi v then Some hi else Some v) = Some r /\
                lo <= r /\ r <= hi /\ (lo <= v -> v <= hi -> r = v) /\
                (v == 0 -> 0 <= lo -> r == lo)).
    { intros v. destruct (Qlt_le_dec v lo) as [L|L].
      - exists lo. split; [reflexivity|]. split; [lra|]. split; [lra|].
        split; [intros; lra|]. intros E E'. reflexivity.
      - destruct (Qlt_le_dec hi v) as [L'|L'].
        + exists hi. split; [reflexivity|]. split; [lra|]. split; [lra|].
          split; [intros; lra|]. intros E E'. lra.
        + exists v. split; [reflexivity|]. split; [lra|]. split; [lra|].
          split; [reflexivity|]. intros E E'. lra. }
    destruct cst as [c|].
    + destruct (Hc c eq_refl) as [Hc1 Hc2].
      destruct (constantItemSizing legend); cbn [andb].
      * destruct (Qeq_bool q 0) eqn:Eq; cbn [negb].
        -- apply Qeq_bool_iff in Eq.
           destruct (clamp q) as (r & -> & H1 & H2 & H3 & H4).
           exists r. split; [reflexivity|]. split; [exact H1|].
           split; [exact H2|]. split; [intros [F|F]; discriminate|].
           intros c' _ E. split; [intros Hn; contradiction | exact H4].
        -- assert (Hq : ~ q == 0).
           { intros E. apply Qeq_bool_iff in E. congruence. }
           destruct (clamp c) as (r & -> & H1 & H2 & H3 & H4).
           exists r. split; [reflexivity|]. split; [exact H1|].
           split; [exact H2|]. split; [intros [F|F]; discriminate|].
           intros c' _ E. injection E as <-.
           split; [intros _; apply H3; assumption | intros Hn; contradiction].
      * destruct (clamp q) as (r & -> & H1 & H2 & H3 & H4).
        exists r. split; [reflexivity|]. split; [exact H1|].
        split; [exact H2|]. split; [intros _; exact H3|].
        intros c' F. discriminate.
    + destruct (clamp q) as (r & -> & H1 & H2 & H3 & H4).
      exists r. split; [reflexivity|]. split; [exact H1|].
      split; [exact H2|]. split; [intros _; exact H3|].
      intros c' _ F. discriminate.
Qed.

Lemma boundVal_clamps_witness :
  let constant :=
    mkLegend (VStr "constant") 30 120 VMiddle VUndefined VUndefined in
  marker_size Sample.legend (Some 40) = Some 16 /\
  marker_size constant (Some 40) = Some 12 /\
  marker_size constant (Some 0) = Some 2 /\
  exists r, marker_size constant (Some 7) = Some r /\ 2 <= r /\ r <= 16.
Proof.
  intros constant.
  split; [reflexivity|]. split; [reflexivity|]. split; [reflexivity|].
  assert (Hb : 2 <= 16) by (vm_compute; discriminate).
  assert (Hc : forall c, Some CST_MARKER_SIZE = Some c -> 2 <= c /\ c <= 16).
  { intros c E. injection E as <-. split; vm_compute; discriminate. }
  destruct (proj2 (boundVal_clamps_numbers constant 2 16
                     (Some CST_MARKER_SIZE) Hb Hc) 7)
    as (r & Hr & H1 & H2 & _).
  exists r. split; [exact Hr|]. split; assumption.
Defined.

End GlyphFacts.
